(** * Order router with failover and environment-gated promotion

    A shallow embedding of [app/core/env_manager.py],
    [app/core/order_router.py] and the connector factory
    [app/connectors/connector_factory.py], and the properties of the
    environment manager and of the order router that the specification
    states.

    Conventions of the embedding.
    - Python [float] values are modelled as rationals ([Q]); every
      comparison the code makes on finite floats is then exact.  Not-a-number
      and rounding are outside the model.
    - [datetime.now()] and [time.time()] read one wall clock, counted in
      microseconds ([Z]); a [timedelta] is an exact number of microseconds.
    - Python dictionaries whose iteration order matters ([self.exchanges],
      [self.active_positions]) are association lists in insertion order.
    - Exchange connectors and their constructors, the strategy, the metrics
      registry and the file system are external collaborators.  Their
      answers are given by a record of oracles ([World]) that may depend on
      the whole sequence of earlier external calls (the [trace]).
    - The dictionaries of [config['exchanges']] are shared between the
      router and the connector factory, which writes into them: they live
      in the router's state and are referred to by their index.
    - A Python call either returns or raises; [Exc] keeps the two apart and
      the state monad [M] keeps the state reached when an exception leaves a
      function, as Python does. *)

From Stdlib Require Import String List ZArith QArith Bool Lia.
Import ListNotations.

Local Open Scope string_scope.
Local Open Scope list_scope.
Local Open Scope Z_scope.

(** ** Python helpers *)

(** [a > b] on floats. *)
Definition Qgtb (a b : Q) : bool := negb (Qle_bool a b).

(** Python's [max(a, b)]: the first argument unless the second is greater. *)
Definition py_max (a b : Q) : Q := if Qgtb b a then b else a.

(** [max(0, n)] on integers. *)
Definition py_max0 (n : Z) : Z := if 0 <? n then n else 0.

(** Truthiness of a string. *)
Definition str_truthy (s : string) : bool := negb (String.eqb s "").

(** [str(x)] inside an f-string for a value that may be [None]. *)
Definition py_str (o : option string) : string :=
  match o with Some s => s | None => "None" end.

(** Dictionaries with string keys, in insertion order. *)
Section Dict.
Context {V : Type}.

Fixpoint dict_get (k : string) (d : list (string * V)) : option V :=
  match d with
  | [] => None
  | (k', v) :: rest => if String.eqb k k' then Some v else dict_get k rest
  end.

Definition dict_mem (k : string) (d : list (string * V)) : bool :=
  match dict_get k d with Some _ => true | None => false end.

(** [d[k] = v]: an existing key keeps its place, a new key goes last. *)
Fixpoint dict_set (k : string) (v : V) (d : list (string * V))
  : list (string * V) :=
  match d with
  | [] => [(k, v)]
  | (k', v') :: rest =>
      if String.eqb k k' then (k, v) :: rest
      else (k', v') :: dict_set k v rest
  end.

(** [del d[k]]; [None] stands for the [KeyError] of a missing key. *)
Definition dict_del (k : string) (d : list (string * V))
  : option (list (string * V)) :=
  if dict_mem k d
  then Some (filter (fun kv => negb (String.eqb k (fst kv))) d)
  else None.
End Dict.

(** ** Exceptions and state *)

Inductive Exc (A : Type) : Type :=
| Raised (msg : string)
| Returned (a : A).
Arguments Raised {A} msg.
Arguments Returned {A} a.

Definition M (S A : Type) : Type := S -> Exc A * S.

Definition ret {S A} (a : A) : M S A := fun s => (Returned a, s).

Definition bind {S A B} (m : M S A) (k : A -> M S B) : M S B :=
  fun s =>
    match m s with
    | (Returned a, s') => k a s'
    | (Raised e, s') => (Raised e, s')
    end.

(** [try: m  except Exception as e: h e]. *)
Definition try_catch {S A} (m : M S A) (h : string -> M S A) : M S A :=
  fun s =>
    match m s with
    | (Returned a, s') => (Returned a, s')
    | (Raised e, s') => h e s'
    end.

Definition gets {S A} (f : S -> A) : M S A := fun s => (Returned (f s), s).
Definition modify {S} (f : S -> S) : M S unit := fun s => (Returned tt, f s).

Declare Scope py_scope.
Delimit Scope py_scope with py.
Notation "x <- m ;; k" := (bind m (fun x => k))
  (at level 61, m at next level, right associativity) : py_scope.
Notation "m ;;; k" := (bind m (fun _ => k))
  (at level 61, right associativity) : py_scope.
Local Open Scope py_scope.

(** ** Data model *)

(** [class Environment(str, Enum)]. *)
Inductive Environment : Type := TESTNET | MAINNET.

Definition Environment_eqb (a b : Environment) : bool :=
  match a, b with
  | TESTNET, TESTNET | MAINNET, MAINNET => true
  | _, _ => false
  end.

(** An exchange connector object, as built by [create_connector]: the
    exchange it talks to and the environment it was built for. *)
Record Connector : Type := {
  conn_exchange : string;
  conn_env : Environment
}.

(** The dictionaries passed to and returned by connectors, reduced to the
    keys the router reads or writes. *)
Record OrderParams : Type := {
  op_symbol : string;
  op_side : string;
  op_type : string;
  op_quantity : Q;
  op_stop_price : option Q;
  op_reduce_only : bool
}.

Record UpdateParams : Type := { up_stop_price : Q }.

Record Response : Type := {
  r_status : option string;
  r_order_id : option string;
  r_message : option string
}.

(** [{'status': 'error', 'message': m}]. *)
Definition error_response (m : string) : Response :=
  {| r_status := Some "error"; r_order_id := None; r_message := Some m |}.

(** [response.get('status') == 'error']. *)
Definition is_error (r : Response) : bool :=
  match r_status r with
  | Some st => String.eqb st "error"
  | None => false
  end.

(** [response.get('order_id', '')]. *)
Definition get_order_id (r : Response) : string :=
  match r_order_id r with Some i => i | None => "" end.

(** [account_info]: the ['equity'] entry is absent ([None]), present with a
    value [float()] accepts ([Some (Some q)]) or present with one it
    rejects ([Some None]). *)
Record AccountInfo : Type := { ai_equity : option (option Q) }.

(** Candle rows as a connector returns them. *)
Definition Candles : Type := list (list string).

(** The dictionaries [TrendRSIStrategy.generate_signal] returns, one
    constructor per shape; ['action'] is the constructor. *)
Inductive Signal : Type :=
| SigOpen (side : string) (size entry_price stop_loss : Q) (reason : string)
| SigClose (side reason : string)
| SigUpdateStop (side : string) (stop_loss : Q) (reason : string)
| SigWait (reason : string)
| SigHold (reason : string).

Definition sig_action (sg : Signal) : string :=
  match sg with
  | SigOpen _ _ _ _ _ => "open"
  | SigClose _ _ => "close"
  | SigUpdateStop _ _ _ => "update_stop"
  | SigWait _ => "wait"
  | SigHold _ => "hold"
  end.

Definition sig_reason (sg : Signal) : string :=
  match sg with
  | SigOpen _ _ _ _ r | SigClose _ r | SigUpdateStop _ _ r
  | SigWait r | SigHold r => r
  end.

(** An entry of [config['exchanges']], and the content of the environment
    file of an exchange: a dictionary.  The keys the code reads ('name',
    'api_key', 'api_secret', 'passphrase') hold strings. *)
Definition ExchangeConfig : Type := list (string * string).

(** [config.get(key, '')]. *)
Definition cfg_get (key : string) (config : ExchangeConfig) : string :=
  match dict_get key config with Some v => v | None => "" end.

(** [exchange_config.get('name', '')]. *)
Definition cfg_name (config : ExchangeConfig) : string :=
  cfg_get "name" config.

(** [for key, value in env_config.items(): config[key] = value]. *)
Definition merge_config (env_config config : ExchangeConfig)
  : ExchangeConfig :=
  fold_left (fun config kv => dict_set (fst kv) (snd kv) config)
    env_config config.

(** The keyword arguments of a connector constructor; only [OKXConnector]
    takes a passphrase. *)
Record ConnectorArgs : Type := {
  ca_api_key : string;
  ca_api_secret : string;
  ca_passphrase : option string;
  ca_testnet : bool;
  ca_base_url : string;
  ca_ws_url : string
}.

(** What [_save_config] writes. *)
Record SavedConfig : Type := {
  sc_environment : Environment;
  sc_auto_switch_enabled : bool;
  sc_testnet_duration_hours : Z;
  sc_min_trades_for_switch : Z;
  sc_max_drawdown_pct_for_switch : Q
}.

(** Calls that leave the process, in the order they are made. *)
Inductive Event : Type :=
| EvPlaceOrder (c : Connector) (p : OrderParams)
| EvUpdateOrder (c : Connector) (order_id : string) (p : UpdateParams)
| EvCancelOrder (c : Connector) (order_id : string)
| EvGetKlines (c : Connector) (symbol timeframe : string) (limit : Z)
| EvGetAccountBalance (c : Connector)
| EvGetAccountInfo (c : Connector)
| EvUpdateData (candles : Candles)
| EvUpdateEquity (equity : Q)
| EvGenerateSignal
| EvSwitchTotalInc
| EvCurrentEnvSet (v : Z)
| EvSaveConfig (path : string) (cfg : SavedConfig)
| EvLoadEnvConfig (path : string)
| EvCreateConnector (exchange : string) (args : ConnectorArgs).

Definition Trace : Type := list Event.

(** The external collaborators. *)
Record World : Type := {
  clock : Trace -> Z;
  conn_place_order : Trace -> Connector -> OrderParams -> Exc Response;
  conn_update_order :
    Trace -> Connector -> string -> UpdateParams -> Exc Response;
  conn_cancel_order : Trace -> Connector -> string -> Exc Response;
  conn_get_klines :
    Trace -> Connector -> string -> string -> Z -> Exc Candles;
  conn_get_account_balance : Trace -> Connector -> Exc (option Q);
  conn_get_account_info : Trace -> Connector -> Exc AccountInfo;
  (** building the DataFrame, converting its columns and
      [strategy.update_data] *)
  strat_update_data : Trace -> Candles -> Exc unit;
  strat_update_equity : Trace -> Q -> Exc unit;
  strat_generate_signal : Trace -> Exc Signal;
  (** [os.path.exists(path)] and, when the file is there, [open],
      [json.load] and [.items()]: [None] when there is no such file *)
  fs_load_json : Trace -> string -> option (Exc ExchangeConfig);
  (** the constructor of the connector class of an exchange *)
  connector_init : Trace -> string -> ConnectorArgs -> Exc Connector;
  (** whether [os.makedirs], [open] and [yaml.dump] all succeed *)
  fs_write_ok : Trace -> string -> bool
}.

(** State outside the two objects: the trace, the two Prometheus metrics of
    the environment manager and the environment file. *)
Record Ext : Type := {
  trace : Trace;
  ENV_SWITCH_TOTAL : Z;
  CURRENT_ENV : Z;
  config_file : option SavedConfig
}.

Definition log_event (e : Event) (x : Ext) : Ext :=
  {| trace := trace x ++ [e];
     ENV_SWITCH_TOTAL := ENV_SWITCH_TOTAL x;
     CURRENT_ENV := CURRENT_ENV x;
     config_file := config_file x |}.

(** ** EnvironmentManager *)

Module EnvManager.

Record EnvironmentSettings : Type := {
  environment : Environment;
  auto_switch_enabled : bool;
  testnet_duration_hours : Z;
  min_trades_for_switch : Z;
  max_drawdown_pct_for_switch : Q;
  config_path : string
}.

Record t : Type := {
  settings : EnvironmentSettings;
  start_time : Z;
  last_switch_time : Z;
  trade_count : Z;
  peak_equity : Q;
  current_equity : Q;
  max_drawdown_pct : Q
}.

(** The manager together with what it reaches outside itself. *)
Record State : Type := { mgr : t; ext : Ext }.

Definition microseconds_per_hour : Z := 3600000000.

(** [timedelta(hours=h)]. *)
Definition timedelta_hours (h : Z) : Z := h * microseconds_per_hour.

Section Operations.
Variable W : World.

Definition now (st : State) : Z := clock W (trace (ext st)).

Definition get_environment (st : State) : Environment :=
  environment (settings (mgr st)).

Definition _save_config : M State unit := fun st =>
  let s := settings (mgr st) in
  let config :=
    {| sc_environment := environment s;
       sc_auto_switch_enabled := auto_switch_enabled s;
       sc_testnet_duration_hours := testnet_duration_hours s;
       sc_min_trades_for_switch := min_trades_for_switch s;
       sc_max_drawdown_pct_for_switch := max_drawdown_pct_for_switch s |} in
  let x := ext st in
  let written := fs_write_ok W (trace x) (config_path s) in
  (Returned tt,
   {| mgr := mgr st;
      ext := {| trace := trace x ++ [EvSaveConfig (config_path s) config];
                ENV_SWITCH_TOTAL := ENV_SWITCH_TOTAL x;
                CURRENT_ENV := CURRENT_ENV x;
                config_file :=
                  if written then Some config else config_file x |} |}).

(** [set_environment(environment, save)].  The membership test on
    [[TESTNET, MAINNET]] holds for every value of the enum. *)
Definition set_environment (env : Environment) (save : bool)
  : M State unit := fun st =>
  let m := mgr st in
  let s := settings m in
  let x := ext st in
  let gauge := match env with MAINNET => 1 | TESTNET => 0 end in
  let st1 :=
    {| mgr :=
         {| settings :=
              {| environment := env;
                 auto_switch_enabled := auto_switch_enabled s;
                 testnet_duration_hours := testnet_duration_hours s;
                 min_trades_for_switch := min_trades_for_switch s;
                 max_drawdown_pct_for_switch := max_drawdown_pct_for_switch s;
                 config_path := config_path s |};
            start_time := start_time m;
            last_switch_time := now st;
            trade_count := trade_count m;
            peak_equity := peak_equity m;
            current_equity := current_equity m;
            max_drawdown_pct := max_drawdown_pct m |};
       ext :=
         {| trace := trace x ++ [EvSwitchTotalInc; EvCurrentEnvSet gauge];
            ENV_SWITCH_TOTAL := ENV_SWITCH_TOTAL x + 1;
            CURRENT_ENV := gauge;
            config_file := config_file x |} |} in
  if save then _save_config st1 else (Returned tt, st1).

Definition update_performance_metrics
    (equity : Q) (trades : Z) (drawdown : Q) : M State unit := fun st =>
  let m := mgr st in
  (Returned tt,
   {| mgr :=
        {| settings := settings m;
           start_time := start_time m;
           last_switch_time := last_switch_time m;
           trade_count := trades;
           peak_equity :=
             if Qgtb equity (peak_equity m) then equity else peak_equity m;
           current_equity := equity;
           max_drawdown_pct := drawdown |};
      ext := ext st |}).

Definition should_switch_to_mainnet (st : State) : bool :=
  let m := mgr st in
  let s := settings m in
  if negb (Environment_eqb (environment s) TESTNET)
     || negb (auto_switch_enabled s)
  then false
  else
    let time_in_testnet := now st - start_time m in
    if time_in_testnet <? timedelta_hours (testnet_duration_hours s)
    then false
    else if trade_count m <? min_trades_for_switch s
    then false
    else if Qgtb (max_drawdown_pct m) (max_drawdown_pct_for_switch s)
    then false
    else true.

Definition switch_environment (target_env : option Environment)
  : M State bool := fun st =>
  let current_env := get_environment st in
  let target_env :=
    match target_env with
    | None =>
        match current_env with TESTNET => MAINNET | MAINNET => TESTNET end
    | Some e => e
    end in
  if Environment_eqb current_env target_env
  then (Returned false, st)
  else (set_environment target_env true ;;; ret true) st.

End Operations.

(** [get_config_path(exchange_name)]:
    [f"config/{env_dir}/{exchange_name}.json"]. *)
Definition get_config_path (exchange_name : string) (st : State) : string :=
  let env_dir :=
    match environment (settings (mgr st)) with
    | TESTNET => "testnet"
    | MAINNET => "mainnet"
    end in
  ("config/" ++ env_dir ++ "/" ++ exchange_name ++ ".json")%string.

End EnvManager.

(** ** [str.lower()] *)

Definition ascii_lower (c : Ascii.ascii) : Ascii.ascii :=
  let n := Ascii.nat_of_ascii c in
  if ((65 <=? n) && (n <=? 90))%nat then Ascii.ascii_of_nat (n + 32) else c.

(** [str.lower()] on UTF-8 text, as far as comparisons with ASCII words can
    tell: the letters A-Z are lowered and so is the Kelvin sign (U+212A, the
    bytes E2 84 AA), the one character outside ASCII whose lower case is an
    ASCII letter; other bytes are kept. *)
Fixpoint py_lower (s : string) : string :=
  match s with
  | EmptyString => EmptyString
  | String a t1 =>
      match t1 with
      | String b (String c rest) =>
          if ((Ascii.nat_of_ascii a =? 226) && (Ascii.nat_of_ascii b =? 132)
              && (Ascii.nat_of_ascii c =? 170))%nat
          then String (Ascii.ascii_of_nat 107) (py_lower rest)
          else String (ascii_lower a) (py_lower t1)
      | _ => String (ascii_lower a) (py_lower t1)
      end
  end.

(** ** Exchange base URLs ([app/utils/exchange_urls.py]) *)

Module ExchangeUrls.

Definition EXCHANGE_URLS
  : list (string * (Environment -> list (string * string))) :=
  [("bybit", fun env =>
      match env with
      | TESTNET => [("rest", "https://api-testnet.bybit.com");
                    ("ws", "wss://stream-testnet.bybit.com")]
      | MAINNET => [("rest", "https://api.bybit.com");
                    ("ws", "wss://stream.bybit.com")]
      end);
   ("okx", fun env =>
      match env with
      | TESTNET => [("rest", "https://www.okx.com/api/v5/mock");
                    ("ws", "wss://wspap.okx.com:8443/ws/v5/public?brokerId=9999")]
      | MAINNET => [("rest", "https://www.okx.com/api/v5");
                    ("ws", "wss://ws.okx.com:8443/ws/v5/public")]
      end);
   ("binance", fun env =>
      match env with
      | TESTNET => [("rest", "https://testnet.binance.vision/api");
                    ("ws", "wss://testnet.binance.vision/ws")]
      | MAINNET => [("rest", "https://api.binance.com/api");
                    ("ws", "wss://stream.binance.com:9443/ws")]
      end)].

(** [get_exchange_url]; every value of the enum is a key of the inner
    table, so the second [ValueError] cannot be raised. *)
Definition get_exchange_url (exchange_name : string)
    (environment : Environment) (url_type : string) : Exc string :=
  let exchange_name := py_lower exchange_name in
  match dict_get exchange_name EXCHANGE_URLS with
  | None =>
      Raised ("Exchange '" ++ exchange_name ++ "' not supported")%string
  | Some by_environment =>
      match dict_get url_type (by_environment environment) with
      | None =>
          Raised ("URL type '" ++ url_type
                  ++ "' not supported for exchange '" ++ exchange_name
                  ++ "'")%string
      | Some url => Returned url
      end
  end.

End ExchangeUrls.

(** ** OrderRouter *)

(** An entry of [self.active_positions].  [execute_strategy] never stores an
    ['exchange'] key; [close_all_positions] reads one with a default. *)
Record Position : Type := {
  pos_side : string;
  pos_size : Q;
  pos_entry_price : Q;
  pos_stop_loss : Q;
  pos_stop_order_id : string;
  pos_entry_time : Z;
  pos_entry_order_id : string;
  pos_exchange : option string
}.

Inductive RecordParams : Type :=
| ParamsPlace (p : OrderParams)
| ParamsUpdate (p : UpdateParams)
| ParamsAbsent.

(** An entry of [self.order_history]; keys a record does not carry are
    [None] / [ParamsAbsent]. *)
Record OrderRecord : Type := {
  rec_timestamp : Z;
  rec_exchange : string;
  rec_order_id : option string;
  rec_params : RecordParams;
  rec_response : option Response;
  rec_status : string;
  rec_failover : option bool;
  rec_type : option string;
  rec_error : option string
}.

(** The dictionaries [execute_strategy] returns. *)
Inductive ExecResult : Type :=
| ExecError (message : string)
| ExecWarning (message : string)
| ExecOpen (side : string) (size entry_price stop_loss : Q)
    (entry_order stop_order : Response)
| ExecClose (side : string) (size : Q) (exit_order : Response)
| ExecUpdateStop (side : string) (new_stop : Q) (update_response : Response)
| ExecNoAction (action reason : string).

Definition exec_status (r : ExecResult) : string :=
  match r with
  | ExecError _ => "error"
  | ExecWarning _ => "warning"
  | _ => "success"
  end.

Module Router.

Record t : Type := {
  config_exchanges : list ExchangeConfig;
  exchanges : list (string * Connector);
  primary_exchange : string;
  has_strategy : bool;
  active_positions : list (string * Position);
  order_history : list OrderRecord;
  total_trades : Z;
  current_equity : Q;
  peak_equity : Q;
  max_drawdown_pct : Q
}.

(** The router and the (process-wide) environment manager it refers to. *)
Record State : Type := { router : t; env_manager : EnvManager.State }.

Definition sys_trace (s : State) : Trace :=
  trace (EnvManager.ext (env_manager s)).

Definition with_router (f : t -> t) (s : State) : State :=
  {| router := f (router s); env_manager := env_manager s |}.

Definition log (e : Event) (s : State) : State :=
  {| router := router s;
     env_manager :=
       {| EnvManager.mgr := EnvManager.mgr (env_manager s);
          EnvManager.ext := log_event e (EnvManager.ext (env_manager s)) |} |}.

Definition append_history (r : OrderRecord) : State -> State :=
  with_router (fun rt =>
    {| config_exchanges := config_exchanges rt;
       exchanges := exchanges rt;
       primary_exchange := primary_exchange rt;
       has_strategy := has_strategy rt;
       active_positions := active_positions rt;
       order_history := order_history rt ++ [r];
       total_trades := total_trades rt;
       current_equity := current_equity rt;
       peak_equity := peak_equity rt;
       max_drawdown_pct := max_drawdown_pct rt |}).

Definition set_active_positions (d : list (string * Position))
  : State -> State :=
  with_router (fun rt =>
    {| config_exchanges := config_exchanges rt;
       exchanges := exchanges rt;
       primary_exchange := primary_exchange rt;
       has_strategy := has_strategy rt;
       active_positions := d;
       order_history := order_history rt;
       total_trades := total_trades rt;
       current_equity := current_equity rt;
       peak_equity := peak_equity rt;
       max_drawdown_pct := max_drawdown_pct rt |}).

Definition set_exchanges (d : list (string * Connector)) : State -> State :=
  with_router (fun rt =>
    {| config_exchanges := config_exchanges rt;
       exchanges := d;
       primary_exchange := primary_exchange rt;
       has_strategy := has_strategy rt;
       active_positions := active_positions rt;
       order_history := order_history rt;
       total_trades := total_trades rt;
       current_equity := current_equity rt;
       peak_equity := peak_equity rt;
       max_drawdown_pct := max_drawdown_pct rt |}).

(** The dictionaries of [self.config['exchanges']] are objects shared with
    whoever is handed one of them: such a dictionary is referred to by its
    index in that list.  [config_at] reads it, [update_config] writes into
    it (an index outside the list refers to no entry of the configuration:
    nothing is written and the empty dictionary is read). *)
Definition set_config_exchanges (cfgs : list ExchangeConfig)
  : State -> State :=
  with_router (fun rt =>
    {| config_exchanges := cfgs;
       exchanges := exchanges rt;
       primary_exchange := primary_exchange rt;
       has_strategy := has_strategy rt;
       active_positions := active_positions rt;
       order_history := order_history rt;
       total_trades := total_trades rt;
       current_equity := current_equity rt;
       peak_equity := peak_equity rt;
       max_drawdown_pct := max_drawdown_pct rt |}).

Fixpoint list_update {A : Type} (i : nat) (f : A -> A) (l : list A)
  : list A :=
  match l, i with
  | [], _ => []
  | x :: rest, O => f x :: rest
  | x :: rest, S i' => x :: list_update i' f rest
  end.

Definition config_at (ref : nat) (s : State) : ExchangeConfig :=
  nth ref (config_exchanges (router s)) [].

Definition update_config (ref : nat) (f : ExchangeConfig -> ExchangeConfig)
    (s : State) : State :=
  set_config_exchanges (list_update ref f (config_exchanges (router s))) s.

Definition set_total_trades (n : Z) : State -> State :=
  with_router (fun rt =>
    {| config_exchanges := config_exchanges rt;
       exchanges := exchanges rt;
       primary_exchange := primary_exchange rt;
       has_strategy := has_strategy rt;
       active_positions := active_positions rt;
       order_history := order_history rt;
       total_trades := n;
       current_equity := current_equity rt;
       peak_equity := peak_equity rt;
       max_drawdown_pct := max_drawdown_pct rt |}).

Definition set_performance (equity peak drawdown : Q) : State -> State :=
  with_router (fun rt =>
    {| config_exchanges := config_exchanges rt;
       exchanges := exchanges rt;
       primary_exchange := primary_exchange rt;
       has_strategy := has_strategy rt;
       active_positions := active_positions rt;
       order_history := order_history rt;
       total_trades := total_trades rt;
       current_equity := equity;
       peak_equity := peak;
       max_drawdown_pct := drawdown |}).

Definition set_current_equity (equity : Q) (s : State) : State :=
  set_performance equity (peak_equity (router s))
    (max_drawdown_pct (router s)) s.

(** Run an operation of the environment manager on the shared manager. *)
Definition lift_em {A} (m : M EnvManager.State A) : M State A := fun s =>
  let (r, e) := m (env_manager s) in
  (r, {| router := router s; env_manager := e |}).

(** [name] unless it is [None] or empty, then the primary exchange. *)
Definition name_or_primary (exchange_name : option string) (s : State)
  : string :=
  match exchange_name with
  | Some n => if str_truthy n then n else primary_exchange (router s)
  | None => primary_exchange (router s)
  end.

Definition get_exchange (exchange_name : option string) (s : State)
  : option Connector :=
  dict_get (name_or_primary exchange_name s) (exchanges (router s)).

(** [self.exchanges.items()] without the entries named [name]. *)
Definition others_of (name : string) (s : State) : list (string * Connector) :=
  filter (fun kv => negb (String.eqb (fst kv) name)) (exchanges (router s)).

Section Operations.
Variable W : World.

(** A call to a collaborator: it is answered from the trace so far and
    logged. *)
Definition extern {A} (e : Event) (answer : Trace -> Exc A) : M State A :=
  fun s => (answer (sys_trace s), log e s).

Definition time_time : M State Z := gets (fun s => clock W (sys_trace s)).

Definition call_place_order (ex : Connector) (p : OrderParams)
  : M State Response :=
  extern (EvPlaceOrder ex p) (fun tr => conn_place_order W tr ex p).

Definition success_record (ts : Z) (name : string) (p : OrderParams)
    (response : Response) (failover : bool) : OrderRecord :=
  {| rec_timestamp := ts;
     rec_exchange := name;
     rec_order_id := None;
     rec_params := ParamsPlace p;
     rec_response := Some response;
     rec_status := "success";
     rec_failover := Some failover;
     rec_type := None;
     rec_error := None |}.

Definition failed_record (ts : Z) (name : string) (p : OrderParams)
    (error : string) : OrderRecord :=
  {| rec_timestamp := ts;
     rec_exchange := name;
     rec_order_id := None;
     rec_params := ParamsPlace p;
     rec_response := None;
     rec_status := "failed";
     rec_failover := Some false;
     rec_type := None;
     rec_error := Some error |}.

(** The loop [for name, ex in self.exchanges.items(): if name !=
    exchange_name: try: ... return response  except: ...] of [place_order];
    [None] when the loop ends without returning. *)
Fixpoint place_order_failover (order_params : OrderParams)
    (others : list (string * Connector)) : M State (option Response) :=
  match others with
  | [] => ret None
  | (name, ex) :: rest =>
      try_catch
        (response <- call_place_order ex order_params ;;
         ts <- time_time ;;
         modify (append_history
                   (success_record ts name order_params response true)) ;;;
         ret (Some response))
        (fun _ => place_order_failover order_params rest)
  end.

Definition place_order (order_params : OrderParams)
    (exchange_name : option string) : M State Response :=
  exchange_name <- gets (name_or_primary exchange_name) ;;
  exchange <- gets (get_exchange (Some exchange_name)) ;;
  match exchange with
  | None =>
      others <- gets (others_of exchange_name) ;;
      r <- place_order_failover order_params others ;;
      match r with
      | Some response => ret response
      | None =>
          ts <- time_time ;;
          modify (append_history
                    (failed_record ts exchange_name order_params
                       "All exchanges failed")) ;;;
          ret (error_response "All exchanges failed to place order")
      end
  | Some exchange =>
      try_catch
        (response <- call_place_order exchange order_params ;;
         ts <- time_time ;;
         modify (append_history
                   (success_record ts exchange_name order_params
                      response false)) ;;;
         ret response)
        (fun e =>
           others <- gets (others_of exchange_name) ;;
           r <- place_order_failover order_params others ;;
           match r with
           | Some response => ret response
           | None =>
               ts <- time_time ;;
               modify (append_history
                         (failed_record ts exchange_name order_params e)) ;;;
               ret (error_response e)
           end)
  end.

Definition not_found_message (exchange_name : string) : string :=
  ("Exchange '" ++ exchange_name ++ "' not found")%string.

Definition update_order (order_id : string) (update_params : UpdateParams)
    (exchange_name : option string) : M State Response :=
  exchange_name <- gets (name_or_primary exchange_name) ;;
  exchange <- gets (get_exchange (Some exchange_name)) ;;
  match exchange with
  | None => ret (error_response (not_found_message exchange_name))
  | Some exchange =>
      try_catch
        (response <- extern (EvUpdateOrder exchange order_id update_params)
                       (fun tr =>
                          conn_update_order W tr exchange order_id
                            update_params) ;;
         ts <- time_time ;;
         modify (append_history
                   {| rec_timestamp := ts;
                      rec_exchange := exchange_name;
                      rec_order_id := Some order_id;
                      rec_params := ParamsUpdate update_params;
                      rec_response := Some response;
                      rec_status := "success";
                      rec_failover := None;
                      rec_type := Some "update";
                      rec_error := None |}) ;;;
         ret response)
        (fun e =>
           ts <- time_time ;;
           modify (append_history
                     {| rec_timestamp := ts;
                        rec_exchange := exchange_name;
                        rec_order_id := Some order_id;
                        rec_params := ParamsUpdate update_params;
                        rec_response := None;
                        rec_status := "failed";
                        rec_failover := None;
                        rec_type := Some "update";
                        rec_error := Some e |}) ;;;
           ret (error_response e))
  end.

Definition cancel_order (order_id : string) (exchange_name : option string)
  : M State Response :=
  exchange_name <- gets (name_or_primary exchange_name) ;;
  exchange <- gets (get_exchange (Some exchange_name)) ;;
  match exchange with
  | None => ret (error_response (not_found_message exchange_name))
  | Some exchange =>
      try_catch
        (response <- extern (EvCancelOrder exchange order_id)
                       (fun tr => conn_cancel_order W tr exchange order_id) ;;
         ts <- time_time ;;
         modify (append_history
                   {| rec_timestamp := ts;
                      rec_exchange := exchange_name;
                      rec_order_id := Some order_id;
                      rec_params := ParamsAbsent;
                      rec_response := Some response;
                      rec_status := "success";
                      rec_failover := None;
                      rec_type := Some "cancel";
                      rec_error := None |}) ;;;
         ret response)
        (fun e =>
           ts <- time_time ;;
           modify (append_history
                     {| rec_timestamp := ts;
                        rec_exchange := exchange_name;
                        rec_order_id := Some order_id;
                        rec_params := ParamsAbsent;
                        rec_response := None;
                        rec_status := "failed";
                        rec_failover := None;
                        rec_type := Some "cancel";
                        rec_error := Some e |}) ;;;
           ret (error_response e))
  end.

(** The body of the two [try] blocks of [update_market_data]. *)
Definition load_market_data (ex : Connector) (symbol timeframe : string)
    (limit : Z) : M State unit :=
  candles <- extern (EvGetKlines ex symbol timeframe limit)
               (fun tr => conn_get_klines W tr ex symbol timeframe limit) ;;
  extern (EvUpdateData candles) (fun tr => strat_update_data W tr candles).

Fixpoint update_market_data_failover (symbol timeframe : string) (limit : Z)
    (others : list (string * Connector)) : M State bool :=
  match others with
  | [] => ret false
  | (_, ex) :: rest =>
      try_catch
        (load_market_data ex symbol timeframe limit ;;; ret true)
        (fun _ => update_market_data_failover symbol timeframe limit rest)
  end.

Definition update_market_data (symbol timeframe : string) (limit : Z)
  : M State bool :=
  strategy <- gets (fun s => has_strategy (router s)) ;;
  if negb strategy then ret false
  else
    exchange <- gets (get_exchange None) ;;
    match exchange with
    | None => ret false
    | Some exchange =>
        try_catch
          (load_market_data exchange symbol timeframe limit ;;; ret true)
          (fun _ =>
             primary <- gets (fun s => primary_exchange (router s)) ;;
             others <- gets (others_of primary) ;;
             update_market_data_failover symbol timeframe limit others)
    end.

(** The body of the two [try] blocks of [update_account_equity]. *)
Definition load_account_equity (ex : Connector) : M State unit :=
  balance <- extern (EvGetAccountBalance ex)
               (fun tr => conn_get_account_balance W tr ex) ;;
  let equity := match balance with Some q => q | None => 0%Q end in
  extern (EvUpdateEquity equity) (fun tr => strat_update_equity W tr equity).

Fixpoint update_account_equity_failover
    (others : list (string * Connector)) : M State bool :=
  match others with
  | [] => ret false
  | (_, ex) :: rest =>
      try_catch
        (load_account_equity ex ;;; ret true)
        (fun _ => update_account_equity_failover rest)
  end.

Definition update_account_equity : M State bool :=
  strategy <- gets (fun s => has_strategy (router s)) ;;
  if negb strategy then ret false
  else
    exchange <- gets (get_exchange None) ;;
    match exchange with
    | None => ret false
    | Some exchange =>
        try_catch
          (load_account_equity exchange ;;; ret true)
          (fun _ =>
             primary <- gets (fun s => primary_exchange (router s)) ;;
             others <- gets (others_of primary) ;;
             update_account_equity_failover others)
    end.

(** [del self.active_positions[symbol]]. *)
Definition del_position (symbol : string) : M State unit := fun s =>
  match dict_del symbol (active_positions (router s)) with
  | Some d => (Returned tt, set_active_positions d s)
  | None => (Raised "KeyError", s)
  end.

Definition entry_params (symbol side : string) (size : Q) : OrderParams :=
  {| op_symbol := symbol;
     op_side := if String.eqb side "long" then "buy" else "sell";
     op_type := "market";
     op_quantity := size;
     op_stop_price := None;
     op_reduce_only := false |}.

Definition stop_params (symbol side : string) (size stop_loss : Q)
  : OrderParams :=
  {| op_symbol := symbol;
     op_side := if String.eqb side "long" then "sell" else "buy";
     op_type := "stop_market";
     op_quantity := size;
     op_stop_price := Some stop_loss;
     op_reduce_only := true |}.

(** The order that closes [position] (both in [execute_strategy] and in
    [close_all_positions]). *)
Definition exit_params (symbol : string) (position : Position) : OrderParams :=
  {| op_symbol := symbol;
     op_side := if String.eqb (pos_side position) "long" then "sell" else "buy";
     op_type := "market";
     op_quantity := pos_size position;
     op_stop_price := None;
     op_reduce_only := true |}.

Definition with_stop_loss (new_stop : Q) (p : Position) : Position :=
  {| pos_side := pos_side p;
     pos_size := pos_size p;
     pos_entry_price := pos_entry_price p;
     pos_stop_loss := new_stop;
     pos_stop_order_id := pos_stop_order_id p;
     pos_entry_time := pos_entry_time p;
     pos_entry_order_id := pos_entry_order_id p;
     pos_exchange := pos_exchange p |}.

(** The [if signal['action'] == ...] chain of [execute_strategy]. *)
Definition process_signal (symbol : string) (signal : Signal)
  : M State ExecResult :=
  match signal with
  | SigOpen side size entry_price stop_loss _ =>
      entry_response <- place_order (entry_params symbol side size) None ;;
      if is_error entry_response
      then ret (ExecError ("Failed to place entry order: "
                           ++ py_str (r_message entry_response))%string)
      else
        stop_response <-
          place_order (stop_params symbol side size stop_loss) None ;;
        if is_error stop_response
        then
          cancel_order (get_order_id entry_response) None ;;;
          ret (ExecError ("Failed to place stop loss order: "
                          ++ py_str (r_message stop_response))%string)
        else
          ts <- time_time ;;
          modify (fun s =>
            set_active_positions
              (dict_set symbol
                 {| pos_side := side;
                    pos_size := size;
                    pos_entry_price := entry_price;
                    pos_stop_loss := stop_loss;
                    pos_stop_order_id := get_order_id stop_response;
                    pos_entry_time := ts;
                    pos_entry_order_id := get_order_id entry_response;
                    pos_exchange := None |}
                 (active_positions (router s))) s) ;;;
          ret (ExecOpen side size entry_price stop_loss
                 entry_response stop_response)
  | SigClose _ _ =>
      positions <- gets (fun s => active_positions (router s)) ;;
      match dict_get symbol positions with
      | None =>
          ret (ExecWarning ("No active position found for " ++ symbol)%string)
      | Some position =>
          exit_response <- place_order (exit_params symbol position) None ;;
          if is_error exit_response
          then ret (ExecError ("Failed to close position: "
                               ++ py_str (r_message exit_response))%string)
          else
            (if str_truthy (pos_stop_order_id position)
             then cancel_order (pos_stop_order_id position) None ;;; ret tt
             else ret tt) ;;;
            del_position symbol ;;;
            ret (ExecClose (pos_side position) (pos_size position)
                   exit_response)
      end
  | SigUpdateStop _ new_stop _ =>
      positions <- gets (fun s => active_positions (router s)) ;;
      match dict_get symbol positions with
      | None =>
          ret (ExecWarning ("No active position found for " ++ symbol)%string)
      | Some position =>
          let stop_order_id := pos_stop_order_id position in
          if negb (str_truthy stop_order_id)
          then ret (ExecWarning
                      ("No stop order ID found for " ++ symbol)%string)
          else
            update_response <-
              update_order stop_order_id {| up_stop_price := new_stop |}
                None ;;
            if is_error update_response
            then ret (ExecError ("Failed to update stop loss: "
                                 ++ py_str (r_message update_response))%string)
            else
              positions <- gets (fun s => active_positions (router s)) ;;
              match dict_get symbol positions with
              | None => fun s => (Raised "KeyError", s)
              | Some current =>
                  modify (set_active_positions
                            (dict_set symbol (with_stop_loss new_stop current)
                               positions)) ;;;
                  ret (ExecUpdateStop (pos_side position) new_stop
                         update_response)
              end
      end
  | SigWait _ | SigHold _ =>
      ret (ExecNoAction (sig_action signal) (sig_reason signal))
  end.

Definition execute_strategy (symbol timeframe : string) : M State ExecResult :=
  strategy <- gets (fun s => has_strategy (router s)) ;;
  if negb strategy then ret (ExecError "Strategy not initialized")
  else
    updated <- update_market_data symbol timeframe 500 ;;
    if negb updated then ret (ExecError "Failed to update market data")
    else
      update_account_equity ;;;
      signal <- extern EvGenerateSignal (strat_generate_signal W) ;;
      process_signal symbol signal.

(** The body of the loop of [close_all_positions] for one position; the
    result is [false] where the source sets [success = False]. *)
Definition close_position (symbol : string) (position : Position)
  : M State bool :=
  try_catch
    (primary <- gets (fun s => primary_exchange (router s)) ;;
     let exchange_name :=
       match pos_exchange position with Some n => n | None => primary end in
     exit_response <-
       place_order (exit_params symbol position) (Some exchange_name) ;;
     if is_error exit_response then ret false
     else
       (if str_truthy (pos_stop_order_id position)
        then cancel_order (pos_stop_order_id position) (Some exchange_name)
             ;;; ret tt
        else ret tt) ;;;
       del_position symbol ;;;
       ret true)
    (fun _ => ret false).

Fixpoint close_positions_loop (positions_to_close : list (string * Position))
    (success : bool) : M State bool :=
  match positions_to_close with
  | [] => ret success
  | (symbol, position) :: rest =>
      closed <- close_position symbol position ;;
      close_positions_loop rest (success && closed)
  end.

Definition close_all_positions : M State bool :=
  positions <- gets (fun s => active_positions (router s)) ;;
  match positions with
  | [] => ret true
  | _ => close_positions_loop positions true
  end.

Definition lift_exc {A} (r : Exc A) : M State A := fun s => (r, s).

Definition new_connector (exchange : string) (args : ConnectorArgs)
  : M State (option Connector) :=
  connector <- extern (EvCreateConnector exchange args)
                 (fun tr => connector_init W tr exchange args) ;;
  ret (Some connector).

(** [create_connector(exchange_name, config)] of
    [app/connectors/connector_factory.py]; [config] is the dictionary at
    index [config_ref] of the router's configuration, and the environment
    file is merged into that very dictionary.  [get_env_manager()] is the
    manager the router refers to. *)
Definition create_connector (exchange_name : string) (config_ref : nat)
  : M State (option Connector) :=
  let exchange_name := py_lower exchange_name in
  current_env <- gets (fun s => EnvManager.get_environment (env_manager s)) ;;
  env_config_path <-
    gets (fun s => EnvManager.get_config_path exchange_name (env_manager s)) ;;
  loaded <- extern (EvLoadEnvConfig env_config_path)
              (fun tr => Returned (fs_load_json W tr env_config_path)) ;;
  match loaded with
  | Some (Returned env_config) =>
      modify (update_config config_ref (merge_config env_config))
  | Some (Raised _) => ret tt
  | None => ret tt
  end ;;;
  config <- gets (config_at config_ref) ;;
  let testnet := Environment_eqb current_env TESTNET in
  if String.eqb exchange_name "bybit" then
    rest_url <-
      lift_exc (ExchangeUrls.get_exchange_url "bybit" current_env "rest") ;;
    ws_url <-
      lift_exc (ExchangeUrls.get_exchange_url "bybit" current_env "ws") ;;
    new_connector "bybit"
      {| ca_api_key := cfg_get "api_key" config;
         ca_api_secret := cfg_get "api_secret" config;
         ca_passphrase := None;
         ca_testnet := testnet;
         ca_base_url := rest_url;
         ca_ws_url := ws_url |}
  else if String.eqb exchange_name "okx" then
    rest_url <-
      lift_exc (ExchangeUrls.get_exchange_url "okx" current_env "rest") ;;
    ws_url <-
      lift_exc (ExchangeUrls.get_exchange_url "okx" current_env "ws") ;;
    new_connector "okx"
      {| ca_api_key := cfg_get "api_key" config;
         ca_api_secret := cfg_get "api_secret" config;
         ca_passphrase := Some (cfg_get "passphrase" config);
         ca_testnet := testnet;
         ca_base_url := rest_url;
         ca_ws_url := ws_url |}
  else if String.eqb exchange_name "binance" then
    rest_url <-
      lift_exc (ExchangeUrls.get_exchange_url "binance" current_env "rest") ;;
    ws_url <-
      lift_exc (ExchangeUrls.get_exchange_url "binance" current_env "ws") ;;
    new_connector "binance"
      {| ca_api_key := cfg_get "api_key" config;
         ca_api_secret := cfg_get "api_secret" config;
         ca_passphrase := None;
         ca_testnet := testnet;
         ca_base_url := rest_url;
         ca_ws_url := ws_url |}
  else ret None.

(** The loop of [_setup_exchanges]; [ref] is the index of the first
    dictionary of [exchange_configs] in the router's configuration. *)
Fixpoint _setup_exchanges_loop (ref : nat)
    (exchange_configs : list ExchangeConfig)
    (exchanges : list (string * Connector))
  : M State (list (string * Connector)) :=
  match exchange_configs with
  | [] => ret exchanges
  | exchange_config :: rest =>
      let exchange_name := cfg_name exchange_config in
      if negb (str_truthy exchange_name)
      then _setup_exchanges_loop (S ref) rest exchanges
      else
        connector <- create_connector exchange_name ref ;;
        match connector with
        | Some c =>
            _setup_exchanges_loop (S ref) rest
              (dict_set exchange_name c exchanges)
        | None => _setup_exchanges_loop (S ref) rest exchanges
        end
  end.

(** [_setup_exchanges(exchange_configs)].  Both callers pass
    [self.config.get('exchanges', [])], the list of the configuration
    itself: its dictionaries are the ones [create_connector] writes
    into. *)
Definition _setup_exchanges (exchange_configs : list ExchangeConfig)
  : M State (list (string * Connector)) :=
  _setup_exchanges_loop 0 exchange_configs [].

Definition handle_env_change (target_env : option Environment)
  : M State bool :=
  current_env <- gets (fun s => EnvManager.get_environment (env_manager s)) ;;
  target <-
    match target_env with
    | Some e => ret (Some e)
    | None =>
        should <- gets (fun s =>
                    EnvManager.should_switch_to_mainnet W (env_manager s)) ;;
        if should then ret (Some MAINNET) else ret None
    end ;;
  match target with
  | None => ret false
  | Some target_env =>
      if Environment_eqb current_env target_env then ret false
      else
        close_all_positions ;;;
        lift_em (EnvManager.switch_environment W (Some target_env)) ;;;
        exchange_configs <- gets (fun s => config_exchanges (router s)) ;;
        exchanges <- _setup_exchanges exchange_configs ;;
        modify (set_exchanges exchanges) ;;;
        ret true
  end.

(** [float(account_info.get('equity', 0.0))]. *)
Definition float_equity (info : AccountInfo) : M State Q :=
  match ai_equity info with
  | None => ret 0%Q
  | Some (Some q) => ret q
  | Some None => fun s => (Raised "ValueError", s)
  end.

(** The loop [for exchange_name in self.exchanges: try: ... break
    except: ...] of [update_performance_metrics]. *)
Fixpoint poll_equity (names : list string) : M State unit :=
  match names with
  | [] => ret tt
  | exchange_name :: rest =>
      try_catch
        (exchanges <- gets (fun s => exchanges (router s)) ;;
         match dict_get exchange_name exchanges with
         | None => fun s => (Raised "KeyError", s)
         | Some exchange =>
             account_info <- extern (EvGetAccountInfo exchange)
                               (fun tr => conn_get_account_info W tr exchange) ;;
             equity <- float_equity account_info ;;
             modify (set_current_equity equity)
         end)
        (fun _ => poll_equity rest)
  end.

(** Peak equity and drawdown after the poll. *)
Definition new_peak (equity peak : Q) : Q :=
  if Qgtb equity peak then equity else peak.

Definition new_drawdown (equity peak drawdown : Q) : Q :=
  if Qgtb peak 0
  then py_max drawdown ((peak - equity) / peak * 100)%Q
  else drawdown.

Definition update_performance_metrics : M State unit :=
  try_catch
    (names <- gets (fun s => map fst (exchanges (router s))) ;;
     poll_equity names ;;;
     modify (fun s =>
       let rt := router s in
       let peak := new_peak (current_equity rt) (peak_equity rt) in
       set_performance (current_equity rt) peak
         (new_drawdown (current_equity rt) peak (max_drawdown_pct rt)) s) ;;;
     rt <- gets router ;;
     lift_em (EnvManager.update_performance_metrics
                (current_equity rt) (total_trades rt) (max_drawdown_pct rt)))
    (fun _ => ret tt).

Definition get_new_trade_count : M State Z := fun s =>
  let n := Z.of_nat (length (order_history (router s))) in
  let new_trades := n - total_trades (router s) in
  (Returned (py_max0 new_trades), set_total_trades n s).

End Operations.
End Router.

(** ** Scheduler: the periodic promotion check *)

Module Scheduler.
Section Operations.
Variable W : World.

(** [check_environment_switch(order_router)]; [get_env_manager()] is the
    manager the router refers to. *)
Definition check_environment_switch : M Router.State unit :=
  Router.update_performance_metrics W ;;;
  should <- gets (fun s =>
              EnvManager.should_switch_to_mainnet W (Router.env_manager s)) ;;
  if should
  then Router.handle_env_change W (Some MAINNET) ;;; ret tt
  else ret tt.

End Operations.
End Scheduler.

(** ** More Python helpers *)

(** [a < b] and [a <= b] on floats. *)
Definition Qltb (a b : Q) : bool := Qgtb b a.

(** [a / b] on floats, which raises when [b] is zero. *)
Definition py_div (a b : Q) : Exc Q :=
  if Qeq_bool b 0 then Raised "ZeroDivisionError" else Returned (a / b)%Q.

(** ** ATRRiskManager ([app/risk/atr_risk.py]) *)

Module ATRRisk.

Record t : Type := {
  risk_pct : Q;
  atr_multiplier : Q;
  trailing_breakeven_atr : Q;
  trailing_step_atr : Q
}.

Definition calculate_position_size (self : t) (equity atr price : Q)
  : Exc Q :=
  if Qle_bool atr 0 then Returned 0%Q
  else
    let risk_amount := (equity * risk_pct self)%Q in
    let risk_per_unit := (atr * atr_multiplier self)%Q in
    match py_div risk_amount risk_per_unit with
    | Raised e => Raised e
    | Returned position_size_in_usd => py_div position_size_in_usd price
    end.

Definition calculate_stop_loss (self : t) (entry_price atr : Q)
    (side : string) : Q :=
  let stop_distance := (atr * atr_multiplier self)%Q in
  if String.eqb (py_lower side) "long"
  then (entry_price - stop_distance)%Q
  else (entry_price + stop_distance)%Q.

Definition update_trailing_stop (self : t)
    (entry_price current_price current_stop atr : Q) (side : string)
  : Exc (option Q) :=
  if String.eqb (py_lower side) "long" then
    let profit_distance := (current_price - entry_price)%Q in
    match py_div profit_distance atr with
    | Raised e => Raised e
    | Returned profit_in_atr =>
        if Qltb profit_in_atr (trailing_breakeven_atr self)
        then Returned None
        else if Qltb current_stop entry_price
        then Returned (Some entry_price)
        else
          let potential_stop :=
            (entry_price
             + (profit_in_atr - trailing_breakeven_atr self) * atr
               * trailing_step_atr self)%Q in
          if Qgtb potential_stop current_stop
          then Returned (Some potential_stop)
          else Returned None
    end
  else if String.eqb (py_lower side) "short" then
    let profit_distance := (entry_price - current_price)%Q in
    match py_div profit_distance atr with
    | Raised e => Raised e
    | Returned profit_in_atr =>
        if Qltb profit_in_atr (trailing_breakeven_atr self)
        then Returned None
        else if Qgtb current_stop entry_price
        then Returned (Some entry_price)
        else
          let potential_stop :=
            (entry_price
             - (profit_in_atr - trailing_breakeven_atr self) * atr
               * trailing_step_atr self)%Q in
          if Qltb potential_stop current_stop
          then Returned (Some potential_stop)
          else Returned None
    end
  else Returned None.

End ATRRisk.

(** * Vocabulary of the statements *)

Section Vocabulary.
Variable W : World.

Import Router.

(** [s] with another order history and another trace; everything else
    (connectors, position book, counters, environment manager, metrics,
    environment file) is that of [s]. *)
Definition with_log (h : list OrderRecord) (tr : Trace) (s : State) : State :=
  {| router :=
       {| config_exchanges := config_exchanges (router s);
          exchanges := exchanges (router s);
          primary_exchange := primary_exchange (router s);
          has_strategy := has_strategy (router s);
          active_positions := active_positions (router s);
          order_history := h;
          total_trades := total_trades (router s);
          current_equity := current_equity (router s);
          peak_equity := peak_equity (router s);
          max_drawdown_pct := max_drawdown_pct (router s) |};
     env_manager :=
       {| EnvManager.mgr := EnvManager.mgr (env_manager s);
          EnvManager.ext :=
            {| trace := tr;
               ENV_SWITCH_TOTAL :=
                 ENV_SWITCH_TOTAL (EnvManager.ext (env_manager s));
               CURRENT_ENV := CURRENT_ENV (EnvManager.ext (env_manager s));
               config_file :=
                 config_file (EnvManager.ext (env_manager s)) |} |} |}.

(** The [place_order] calls made when the connectors of [cs] are tried one
    after the other. *)
Definition place_events (p : OrderParams) (cs : list (string * Connector))
  : Trace :=
  map (fun kv => EvPlaceOrder (snd kv) p) cs.

(** Every connector of [cs], tried in order from trace [tr], raises. *)
Fixpoint all_raise (p : OrderParams) (tr : Trace)
    (cs : list (string * Connector)) : Prop :=
  match cs with
  | [] => True
  | (_, c) :: rest =>
      (exists e, conn_place_order W tr c p = Raised e) /\
      all_raise p (tr ++ [EvPlaceOrder c p]) rest
  end.

(** The resolved exchange, when it is configured. *)
Definition resolved (exchange_name : option string) (s : State)
  : list (string * Connector) :=
  match get_exchange (Some (name_or_primary exchange_name s)) s with
  | Some c => [(name_or_primary exchange_name s, c)]
  | None => []
  end.

(** The order in which [place_order] may try connectors: the resolved
    exchange, then the other configured exchanges in map order. *)
Definition attempt_order (exchange_name : option string) (s : State)
  : list (string * Connector) :=
  resolved exchange_name s ++ others_of (name_or_primary exchange_name s) s.

(** The error text of an exhausted [place_order] that started at trace
    [tr]: the resolved exchange's exception when it was called, a fixed text
    when it is not configured. *)
Definition exhausted_error (p : OrderParams) (exchange_name : option string)
    (tr : Trace) (s : State) : string :=
  match resolved exchange_name s with
  | (_, c) :: _ =>
      match conn_place_order W tr c p with
      | Raised e => e
      | Returned _ => ""
      end
  | [] => "All exchanges failed"
  end.

Definition exhausted_message (p : OrderParams) (exchange_name : option string)
    (tr : Trace) (s : State) : string :=
  match resolved exchange_name s with
  | _ :: _ => exhausted_error p exchange_name tr s
  | [] => "All exchanges failed to place order"
  end.

(** An event is an order-lifecycle call on a connector. *)
Definition is_order_call (e : Event) : bool :=
  match e with
  | EvPlaceOrder _ _ | EvUpdateOrder _ _ _ | EvCancelOrder _ _ => true
  | _ => false
  end.

(** Every connector of [cs], asked in order from trace [tr] for its account
    information, raises. *)
Fixpoint all_info_raise (tr : Trace) (cs : list Connector) : Prop :=
  match cs with
  | [] => True
  | c :: rest =>
      (exists e, conn_get_account_info W tr c = Raised e) /\
      all_info_raise (tr ++ [EvGetAccountInfo c]) rest
  end.

(** The [get_klines] calls made when the connectors [cs] are asked one
    after the other, and the fact that each of them raises at its turn. *)
Definition klines_events (symbol timeframe : string) (limit : Z)
    (cs : list Connector) : Trace :=
  map (fun c => EvGetKlines c symbol timeframe limit) cs.

Fixpoint all_klines_raise (symbol timeframe : string) (limit : Z)
    (tr : Trace) (cs : list Connector) : Prop :=
  match cs with
  | [] => True
  | c :: rest =>
      (exists e, conn_get_klines W tr c symbol timeframe limit = Raised e) /\
      all_klines_raise symbol timeframe limit
        (tr ++ [EvGetKlines c symbol timeframe limit]) rest
  end.

(** No event of [evs] is an order-lifecycle call. *)
Definition no_order_call (evs : Trace) : bool :=
  forallb (fun e => negb (is_order_call e)) evs.

(** [with_log] and another position book. *)
Definition with_book (h : list OrderRecord) (tr : Trace)
    (d : list (string * Position)) (s : State) : State :=
  set_active_positions d (with_log h tr s).

(** [url] is the URL of kind [url_type] of [exchange] in [env]. *)
Definition is_url_of (exchange : string) (env : Environment)
    (url_type url : string) : bool :=
  match ExchangeUrls.get_exchange_url exchange env url_type with
  | Returned u => String.eqb u url
  | Raised _ => false
  end.

(** The event is a step of the connector factory for environment [env]:
    the look-up of an environment file in the directory of [env], or the
    construction of a connector with the testnet flag and the URLs of
    [env]. *)
Definition is_factory_call (env : Environment) (e : Event) : bool :=
  match e with
  | EvLoadEnvConfig path =>
      String.prefix
        match env with
        | TESTNET => "config/testnet/"
        | MAINNET => "config/mainnet/"
        end path
  | EvCreateConnector exchange args =>
      Bool.eqb (ca_testnet args) (Environment_eqb env TESTNET)
      && is_url_of exchange env "rest" (ca_base_url args)
      && is_url_of exchange env "ws" (ca_ws_url args)
  | _ => false
  end.

(** [s] with other configuration dictionaries and another trace. *)
Definition with_setup (cfgs : list ExchangeConfig) (tr : Trace) (s : State)
  : State :=
  set_config_exchanges cfgs (with_log (order_history (router s)) tr s).

(** A configuration dictionary after a run of the connector factory: as it
    was, or with the content of an environment file written over it. *)
Definition refreshed (old new : ExchangeConfig) : Prop :=
  new = old \/ exists env_config, new = merge_config env_config old.

(** The records of [recs] that report the placement of an order, and the
    orders they report. *)
Definition place_records (recs : list OrderRecord) : list OrderRecord :=
  filter (fun r => match rec_params r with
                   | ParamsPlace _ => true
                   | _ => false
                   end) recs.

(** The exit orders of the positions of a book, in the order of the book. *)
Definition exit_orders (book : list (string * Position))
  : list RecordParams :=
  map (fun kv => ParamsPlace (exit_params (fst kv) (snd kv))) book.

(** What the caller of [place_order] sees of a recorded placement: an
    error when no exchange took the order, and when the answer of the
    exchange that took it has status 'error'. *)
Definition exit_failed (r : OrderRecord) : bool :=
  match rec_response r with
  | Some response => is_error response
  | None => true
  end.

(** The positions of [book] whose flag is set. *)
Definition remaining (book : list (string * Position)) (failed : list bool)
  : list (string * Position) :=
  map fst (filter snd (combine book failed)).

(** [CURRENT_ENV] encodes the environment as 0 (TESTNET) or 1 (MAINNET). *)
Definition gauge_of (env : Environment) : Z :=
  match env with MAINNET => 1 | TESTNET => 0 end.

End Vocabulary.


(** * A concrete deployment

    Three configured exchanges with bybit as primary, the default promotion
    thresholds (48 hours, 10 trades, 4 percent), a clock that reads 72 hours
    after the start, and collaborators whose behaviour is fixed by three
    parameters: the exchanges that are unavailable, the equities successive
    [get_account_info] calls report, and the signal of the strategy. *)

Module Scenario.

Definition connector (name : string) : Connector :=
  {| conn_exchange := name; conn_env := TESTNET |}.

Definition exchange_config (name : string) : ExchangeConfig :=
  [("name", name); ("api_key", "test_key"); ("api_secret", "test_secret")].

Definition is_down (down : list string) (c : Connector) : bool :=
  existsb (String.eqb (conn_exchange c)) down.

Definition unavailable (c : Connector) : string :=
  (conn_exchange c ++ " unavailable")%string.

Definition accepted (c : Connector) (id : string) : Response :=
  {| r_status := Some "accepted";
     r_order_id := Some (conn_exchange c ++ "-" ++ id)%string;
     r_message := None |}.

(** Number of [get_account_info] calls made so far. *)
Definition polls (tr : Trace) : nat :=
  length (filter (fun e => match e with
                           | EvGetAccountInfo _ => true
                           | _ => false
                           end) tr).

Definition hours (n : Z) : Z := n * 3600000000.

Definition world (down : list string) (equities : list Q) (signal : Signal)
  : World :=
  {| clock := fun _ => hours 72;
     conn_place_order := fun _ c p =>
       if is_down down c then Raised (unavailable c)
       else Returned (accepted c (op_type p));
     conn_update_order := fun _ c order_id _ =>
       if is_down down c then Raised (unavailable c)
       else Returned (accepted c order_id);
     conn_cancel_order := fun _ c order_id =>
       if is_down down c then Raised (unavailable c)
       else Returned (accepted c order_id);
     conn_get_klines := fun _ c _ _ _ =>
       if is_down down c then Raised (unavailable c) else Returned [];
     conn_get_account_balance := fun _ c =>
       if is_down down c then Raised (unavailable c)
       else Returned (Some 10000%Q);
     conn_get_account_info := fun tr c =>
       if is_down down c then Raised (unavailable c)
       else match nth_error equities (polls tr) with
            | Some q => Returned {| ai_equity := Some (Some q) |}
            | None => Raised "no account data"
            end;
     strat_update_data := fun _ _ => Returned tt;
     strat_update_equity := fun _ _ => Returned tt;
     strat_generate_signal := fun _ => Returned signal;
     fs_load_json := fun _ _ => None;
     connector_init := fun _ name args =>
       Returned {| conn_exchange := name;
                   conn_env := if ca_testnet args then TESTNET else MAINNET |};
     fs_write_ok := fun _ _ => true |}.

Definition settings : EnvManager.EnvironmentSettings :=
  {| EnvManager.environment := TESTNET;
     EnvManager.auto_switch_enabled := true;
     EnvManager.testnet_duration_hours := 48;
     EnvManager.min_trades_for_switch := 10;
     EnvManager.max_drawdown_pct_for_switch := 4;
     EnvManager.config_path := "config/env.yaml" |}.

(** The environment manager with a given trade count and drawdown. *)
Definition manager (trades : Z) (drawdown : Q) : EnvManager.State :=
  {| EnvManager.mgr :=
       {| EnvManager.settings := settings;
          EnvManager.start_time := 0;
          EnvManager.last_switch_time := 0;
          EnvManager.trade_count := trades;
          EnvManager.peak_equity := 0;
          EnvManager.current_equity := 0;
          EnvManager.max_drawdown_pct := drawdown |};
     EnvManager.ext :=
       {| trace := []; ENV_SWITCH_TOTAL := 0; CURRENT_ENV := 0;
          config_file := None |} |}.

(** The router as [__init__] leaves it, with the given position book. *)
Definition state (positions : list (string * Position)) : Router.State :=
  {| Router.router :=
       {| Router.config_exchanges :=
            [exchange_config "bybit"; exchange_config "okx";
             exchange_config "binance"];
          Router.exchanges :=
            [("bybit", connector "bybit"); ("okx", connector "okx");
             ("binance", connector "binance")];
          Router.primary_exchange := "bybit";
          Router.has_strategy := true;
          Router.active_positions := positions;
          Router.order_history := [];
          Router.total_trades := 0;
          Router.current_equity := 0;
          Router.peak_equity := 0;
          Router.max_drawdown_pct := 0 |};
     Router.env_manager := manager 0 0 |}.

Definition market_buy : OrderParams :=
  {| op_symbol := "BTCUSDT"; op_side := "buy"; op_type := "market";
     op_quantity := 1; op_stop_price := None; op_reduce_only := false |}.

(** A position whose stop order id was never recorded. *)
Definition unprotected_long : Position :=
  {| pos_side := "long"; pos_size := 1; pos_entry_price := 100;
     pos_stop_loss := 95; pos_stop_order_id := ""; pos_entry_time := 0;
     pos_entry_order_id := "bybit-market"; pos_exchange := None |}.

(** A position protected by a stop order. *)
Definition protected_long : Position :=
  {| pos_side := "long"; pos_size := 1; pos_entry_price := 100;
     pos_stop_loss := 95; pos_stop_order_id := "bybit-stop_market";
     pos_entry_time := 0; pos_entry_order_id := "bybit-market";
     pos_exchange := None |}.

(** The router with a primary exchange that is not configured. *)
Definition state_without_primary : Router.State :=
  {| Router.router :=
       {| Router.config_exchanges :=
            [exchange_config "okx"; exchange_config "binance"];
          Router.exchanges :=
            [("okx", connector "okx"); ("binance", connector "binance")];
          Router.primary_exchange := "bybit";
          Router.has_strategy := true;
          Router.active_positions := [];
          Router.order_history := [];
          Router.total_trades := 0;
          Router.current_equity := 0;
          Router.peak_equity := 0;
          Router.max_drawdown_pct := 0 |};
     Router.env_manager := manager 0 0 |}.

(** The world in which account balances carry no equity entry. *)
Definition world_without_equity : World :=
  let base := world [] [] (SigWait "no_signal") in
  {| clock := clock base;
     conn_place_order := conn_place_order base;
     conn_update_order := conn_update_order base;
     conn_cancel_order := conn_cancel_order base;
     conn_get_klines := conn_get_klines base;
     conn_get_account_balance := fun _ _ => Returned None;
     conn_get_account_info := conn_get_account_info base;
     strat_update_data := strat_update_data base;
     strat_update_equity := strat_update_equity base;
     strat_generate_signal := strat_generate_signal base;
     fs_load_json := fs_load_json base;
     connector_init := connector_init base;
     fs_write_ok := fs_write_ok base |}.

(** The world in which the strategy raises instead of giving a signal. *)
Definition world_with_failing_strategy : World :=
  let base := world [] [] (SigWait "no_signal") in
  {| clock := clock base;
     conn_place_order := conn_place_order base;
     conn_update_order := conn_update_order base;
     conn_cancel_order := conn_cancel_order base;
     conn_get_klines := conn_get_klines base;
     conn_get_account_balance := conn_get_account_balance base;
     conn_get_account_info := conn_get_account_info base;
     strat_update_data := strat_update_data base;
     strat_update_equity := strat_update_equity base;
     strat_generate_signal := fun _ => Raised "strategy failed";
     fs_load_json := fs_load_json base;
     connector_init := connector_init base;
     fs_write_ok := fs_write_ok base |}.

(** [base] with exchanges that refuse the orders [reject] selects. *)
Definition rejecting (reject : OrderParams -> bool) (base : World) : World :=
  {| clock := clock base;
     conn_place_order := fun tr c p =>
       if reject p then Raised "order rejected"
       else conn_place_order base tr c p;
     conn_update_order := conn_update_order base;
     conn_cancel_order := conn_cancel_order base;
     conn_get_klines := conn_get_klines base;
     conn_get_account_balance := conn_get_account_balance base;
     conn_get_account_info := conn_get_account_info base;
     strat_update_data := strat_update_data base;
     strat_update_equity := strat_update_equity base;
     strat_generate_signal := strat_generate_signal base;
     fs_load_json := fs_load_json base;
     connector_init := connector_init base;
     fs_write_ok := fs_write_ok base |}.

(** [base] with the environment files [files], given by path. *)
Definition with_env_files (files : list (string * ExchangeConfig))
    (base : World) : World :=
  {| clock := clock base;
     conn_place_order := conn_place_order base;
     conn_update_order := conn_update_order base;
     conn_cancel_order := conn_cancel_order base;
     conn_get_klines := conn_get_klines base;
     conn_get_account_balance := conn_get_account_balance base;
     conn_get_account_info := conn_get_account_info base;
     strat_update_data := strat_update_data base;
     strat_update_equity := strat_update_equity base;
     strat_generate_signal := strat_generate_signal base;
     fs_load_json := fun _ path =>
       match dict_get path files with
       | Some env_config => Some (Returned env_config)
       | None => None
       end;
     connector_init := connector_init base;
     fs_write_ok := fs_write_ok base |}.

(** The live keys of bybit, kept in its MAINNET environment file. *)
Definition mainnet_files : list (string * ExchangeConfig) :=
  [("config/mainnet/bybit.json",
    [("api_key", "live_key"); ("api_secret", "live_secret")])].

(** A second position, on another symbol. *)
Definition eth_long : Position :=
  {| pos_side := "long"; pos_size := 2; pos_entry_price := 50;
     pos_stop_loss := 45; pos_stop_order_id := ""; pos_entry_time := 0;
     pos_entry_order_id := "bybit-market"; pos_exchange := None |}.

(** The default parameters of [ATRRiskManager]. *)
Definition risk_manager : ATRRisk.t :=
  {| ATRRisk.risk_pct := 0.01;
     ATRRisk.atr_multiplier := 1.5;
     ATRRisk.trailing_breakeven_atr := 1;
     ATRRisk.trailing_step_atr := 0.5 |}.

End Scenario.

(** * Properties *)

(** ** Comparisons on rationals *)

Lemma Qgtb_true (a b : Q) : Qgtb a b = true <-> (b < a)%Q.
Proof.
  unfold Qgtb. rewrite negb_true_iff. split; intro H.
  - apply Qnot_le_lt. intro Hle. apply Qle_bool_iff in Hle. congruence.
  - destruct (Qle_bool a b) eqn:E; [|reflexivity].
    apply Qle_bool_iff in E. exfalso. exact (Qlt_not_le _ _ H E).
Qed.

Lemma Qgtb_false (a b : Q) : Qgtb a b = false <-> (a <= b)%Q.
Proof.
  unfold Qgtb. rewrite negb_false_iff. apply Qle_bool_iff.
Qed.

Lemma py_max_ge_left (a b : Q) : (a <= py_max a b)%Q.
Proof.
  unfold py_max. destruct (Qgtb b a) eqn:E.
  - apply Qgtb_true in E. apply Qlt_le_weak. exact E.
  - apply Qle_refl.
Qed.

(** ** The promotion gate and the environment switch *)

Section EnvManagerProperties.
Variable W : World.

Import EnvManager.

(** C1.  [should_switch_to_mainnet] is true exactly when the environment is
    TESTNET, auto-switch is enabled, the time since [start_time] is at least
    [testnet_duration_hours], [trade_count] is at least
    [min_trades_for_switch] and [max_drawdown_pct] is at most
    [max_drawdown_pct_for_switch]; as soon as one of the five criteria
    fails the result is false, whatever the others are. *)
Theorem should_switch_to_mainnet_criteria (st : State) :
  let m := mgr st in
  let s := settings m in
  let elapsed := now W st - start_time m in
  (should_switch_to_mainnet W st = true <->
     environment s = TESTNET /\
     auto_switch_enabled s = true /\
     timedelta_hours (testnet_duration_hours s) <= elapsed /\
     min_trades_for_switch s <= trade_count m /\
     (max_drawdown_pct m <= max_drawdown_pct_for_switch s)%Q)
  /\ (environment s <> TESTNET -> should_switch_to_mainnet W st = false)
  /\ (auto_switch_enabled s = false -> should_switch_to_mainnet W st = false)
  /\ (elapsed < timedelta_hours (testnet_duration_hours s) ->
      should_switch_to_mainnet W st = false)
  /\ (trade_count m < min_trades_for_switch s ->
      should_switch_to_mainnet W st = false)
  /\ ((max_drawdown_pct_for_switch s < max_drawdown_pct m)%Q ->
      should_switch_to_mainnet W st = false).
Proof.
  intros m s elapsed.
  assert (Hiff : should_switch_to_mainnet W st = true <->
     environment s = TESTNET /\
     auto_switch_enabled s = true /\
     timedelta_hours (testnet_duration_hours s) <= elapsed /\
     min_trades_for_switch s <= trade_count m /\
     (max_drawdown_pct m <= max_drawdown_pct_for_switch s)%Q).
  { unfold should_switch_to_mainnet. fold m. fold s. fold elapsed.
    destruct (environment s) eqn:Eenv; simpl;
      [|split; [discriminate | intros [H _]; discriminate]].
    destruct (auto_switch_enabled s) eqn:Eauto; simpl;
      [|split; [discriminate | intros (_ & H & _); discriminate]].
    destruct (elapsed <? timedelta_hours (testnet_duration_hours s)) eqn:Et.
    { apply Z.ltb_lt in Et.
      split; [discriminate | intros (_ & _ & H & _); lia]. }
    apply Z.ltb_ge in Et.
    destruct (trade_count m <? min_trades_for_switch s) eqn:Ec.
    { apply Z.ltb_lt in Ec.
      split; [discriminate | intros (_ & _ & _ & H & _); lia]. }
    apply Z.ltb_ge in Ec.
    destruct (Qgtb (max_drawdown_pct m) (max_drawdown_pct_for_switch s))
      eqn:Ed.
    { apply Qgtb_true in Ed.
      split; [discriminate | intros (_ & _ & _ & _ & H)].
      exfalso. exact (Qlt_not_le _ _ Ed H). }
    apply Qgtb_false in Ed. tauto. }
  split; [exact Hiff|].
  assert (Hfalse : forall P : Prop,
    (environment s = TESTNET /\
     auto_switch_enabled s = true /\
     timedelta_hours (testnet_duration_hours s) <= elapsed /\
     min_trades_for_switch s <= trade_count m /\
     (max_drawdown_pct m <= max_drawdown_pct_for_switch s)%Q -> ~ P) ->
    P -> should_switch_to_mainnet W st = false).
  { intros P HP p. destruct (should_switch_to_mainnet W st) eqn:E;
      [|reflexivity].
    exfalso. exact (HP (proj1 Hiff eq_refl) p). }
  repeat split; apply Hfalse.
  - intros (H & _) Hn. exact (Hn H).
  - intros (_ & H & _) Hn. congruence.
  - intros (_ & _ & H & _) Hn. lia.
  - intros (_ & _ & _ & H & _) Hn. lia.
  - intros (_ & _ & _ & _ & H) Hn. exact (Qlt_not_le _ _ Hn H).
Qed.

(** C5 (as amended).  [switch_environment] called with the current
    environment returns false and changes nothing: the switch counter, the
    gauge, [last_switch_time], the environment file and the trace are the
    ones before the call.  [set_environment] has no such guard: called with
    any environment, the current one included, it returns [None], counts
    one more switch, sets the gauge and sets [last_switch_time] to the
    current time and, with [save] true, writes the environment file, which
    holds the new settings whenever the write succeeds. *)
Theorem switch_environment_same_noop_set_environment_unguarded
    (st : State) (env : Environment) :
  let s := settings (mgr st) in
  let cfg :=
    {| sc_environment := env;
       sc_auto_switch_enabled := auto_switch_enabled s;
       sc_testnet_duration_hours := testnet_duration_hours s;
       sc_min_trades_for_switch := min_trades_for_switch s;
       sc_max_drawdown_pct_for_switch := max_drawdown_pct_for_switch s |} in
  let counted :=
    trace (ext st)
    ++ [EvSwitchTotalInc;
        EvCurrentEnvSet (match env with MAINNET => 1 | TESTNET => 0 end)] in
  switch_environment W (Some (get_environment st)) st = (Returned false, st)
  /\ exists st',
       set_environment W env true st = (Returned tt, st') /\
       get_environment st' = env /\
       ENV_SWITCH_TOTAL (ext st') = ENV_SWITCH_TOTAL (ext st) + 1 /\
       CURRENT_ENV (ext st')
         = match env with MAINNET => 1 | TESTNET => 0 end /\
       last_switch_time (mgr st') = now W st /\
       trace (ext st') = counted ++ [EvSaveConfig (config_path s) cfg] /\
       config_file (ext st') =
         if fs_write_ok W counted (config_path s)
         then Some cfg else config_file (ext st).
Proof.
  intros s cfg counted. split.
  - unfold switch_environment, get_environment.
    destruct (environment (settings (mgr st))); reflexivity.
  - unfold set_environment, _save_config, get_environment. simpl.
    eexists. split; [reflexivity|]. simpl.
    repeat split.
Qed.

End EnvManagerProperties.

(** ** Order placement with failover *)

Section RouterProperties.
Variable W : World.

Import Router.

Lemma with_log_id (s : State) :
  with_log (order_history (router s)) (sys_trace s) s = s.
Proof. destruct s as [[] [m []]]. reflexivity. Qed.

Lemma append_history_with_log r h tr (s : State) :
  append_history r (with_log h tr s) = with_log (h ++ [r]) tr s.
Proof. reflexivity. Qed.

Lemma log_with_log e h tr (s : State) :
  log e (with_log h tr s) = with_log h (tr ++ [e]) s.
Proof. reflexivity. Qed.

Lemma sys_trace_with_log h tr (s : State) : sys_trace (with_log h tr s) = tr.
Proof. reflexivity. Qed.

Ltac run :=
  unfold bind, ret, gets, modify, try_catch, call_place_order, extern,
    time_time; simpl;
  rewrite ?log_with_log, ?append_history_with_log, ?sys_trace_with_log.

Lemma failover_all_raise (p : OrderParams) (others : list (string * Connector)) :
  forall h tr s,
    all_raise W p tr others ->
    place_order_failover W p others (with_log h tr s) =
      (Returned None, with_log h (tr ++ place_events p others) s).
Proof.
  induction others as [|[n c] rest IH]; intros h tr s H; simpl.
  - rewrite app_nil_r. reflexivity.
  - destruct H as [[e He] Hrest]. run. rewrite He.
    rewrite (IH _ _ _ Hrest), <- app_assoc. reflexivity.
Qed.

Lemma failover_first_success (p : OrderParams)
    (pre : list (string * Connector)) n c post resp :
  forall h tr s,
    all_raise W p tr pre ->
    conn_place_order W (tr ++ place_events p pre) c p = Returned resp ->
    place_order_failover W p (pre ++ (n, c) :: post) (with_log h tr s) =
      (Returned (Some resp),
       with_log
         (h ++ [success_record
                  (clock W (tr ++ place_events p pre ++ [EvPlaceOrder c p]))
                  n p resp true])
         (tr ++ place_events p pre ++ [EvPlaceOrder c p]) s).
Proof.
  induction pre as [|[n0 c0] rest IH]; intros h tr s H Hc; simpl in *.
  - rewrite app_nil_r in Hc. run. rewrite Hc. reflexivity.
  - destruct H as [[e He] Hrest]. run. rewrite He.
    rewrite (IH h (tr ++ [EvPlaceOrder c0 p]) s Hrest).
    + rewrite <- !app_assoc. reflexivity.
    + rewrite <- app_assoc. exact Hc.
Qed.

(** Either every connector raises at its turn or there is a first one that
    answers. *)
Lemma all_raise_or_first_success (p : OrderParams)
    (cs : list (string * Connector)) :
  forall tr,
    all_raise W p tr cs \/
    exists pre n c post resp,
      cs = pre ++ (n, c) :: post /\
      all_raise W p tr pre /\
      conn_place_order W (tr ++ place_events p pre) c p = Returned resp.
Proof.
  induction cs as [|[n c] rest IH]; intro tr; simpl.
  - left. exact I.
  - destruct (conn_place_order W tr c p) as [e|resp] eqn:E.
    + destruct (IH (tr ++ [EvPlaceOrder c p]))
        as [H | (pre & n' & c' & post & resp & -> & Hpre & Hc)].
      * left. split; [exists e; reflexivity | exact H].
      * right. exists ((n, c) :: pre), n', c', post, resp.
        split; [reflexivity|]. split.
        -- simpl. rewrite E. split; [exists e; reflexivity | exact Hpre].
        -- simpl. rewrite <- app_assoc in Hc. exact Hc.
    + right. exists [], n, c, rest, resp.
      split; [reflexivity|]. split; [exact I|].
      simpl. rewrite app_nil_r. exact E.
Qed.

Lemma place_events_app (p : OrderParams) (a b : list (string * Connector)) :
  place_events p (a ++ b) = place_events p a ++ place_events p b.
Proof. apply map_app. Qed.



Lemma others_of_name_differs (name n : string) (c : Connector) (s : State) :
  In (n, c) (others_of name s) -> String.eqb n name = false.
Proof.
  unfold others_of. intro H. apply filter_In in H. destruct H as [_ H].
  simpl in H. apply negb_true_iff in H. exact H.
Qed.

Lemma place_order_first_success (p : OrderParams)
    (exchange_name : option string) pre n c post resp :
  forall h tr s,
    attempt_order exchange_name s = pre ++ (n, c) :: post ->
    all_raise W p tr pre ->
    conn_place_order W (tr ++ place_events p pre) c p = Returned resp ->
    place_order W p exchange_name (with_log h tr s) =
      (Returned resp,
       with_log
         (h ++ [success_record
                  (clock W (tr ++ place_events p pre ++ [EvPlaceOrder c p]))
                  n p resp
                  (negb (String.eqb n (name_or_primary exchange_name s)))])
         (tr ++ place_events p pre ++ [EvPlaceOrder c p]) s).
Proof.
  intros h tr s Hord Hpre Hc.
  unfold attempt_order, resolved in Hord.
  unfold place_order, bind, gets.
  change (name_or_primary exchange_name (with_log h tr s))
    with (name_or_primary exchange_name s).
  set (name := name_or_primary exchange_name s) in *.
  change (get_exchange (Some name) (with_log h tr s))
    with (get_exchange (Some name) s).
  destruct (get_exchange (Some name) s) as [c0|] eqn:Eex.
  - destruct pre as [|[n0 c00] pre']; simpl in Hord.
    + injection Hord as Hn Hc0 Hpost. subst n c0.
      simpl in Hc. rewrite app_nil_r in Hc.
      run. rewrite Hc. rewrite String.eqb_refl. reflexivity.
    + injection Hord as Hn Hc0 Hothers. subst n0 c00.
      destruct Hpre as [[e He] Hpre].
      assert (Hne : String.eqb n name = false).
      { apply (others_of_name_differs name n c s). rewrite Hothers.
        apply in_or_app. right. left. reflexivity. }
      run. rewrite He. unfold bind.
      change (others_of name (with_log h (tr ++ [EvPlaceOrder c0 p]) s))
        with (others_of name s).
      rewrite Hothers.
      rewrite (failover_first_success p pre' n c post resp h
                 (tr ++ [EvPlaceOrder c0 p]) s Hpre).
      * rewrite Hne. simpl. rewrite <- !app_assoc. reflexivity.
      * rewrite <- app_assoc. exact Hc.
  - simpl in Hord.
    assert (Hne : String.eqb n name = false).
    { apply (others_of_name_differs name n c s). rewrite Hord.
      apply in_or_app. right. left. reflexivity. }
    change (others_of name (with_log h tr s)) with (others_of name s).
    rewrite Hord.
    rewrite (failover_first_success p pre n c post resp h tr s Hpre Hc).
    rewrite Hne. reflexivity.
Qed.

Lemma place_order_exhausted (p : OrderParams) (exchange_name : option string) :
  forall h tr s,
    all_raise W p tr (attempt_order exchange_name s) ->
    place_order W p exchange_name (with_log h tr s) =
      (Returned (error_response (exhausted_message W p exchange_name tr s)),
       with_log
         (h ++ [failed_record
                  (clock W (tr ++ place_events p (attempt_order exchange_name s)))
                  (name_or_primary exchange_name s) p
                  (exhausted_error W p exchange_name tr s)])
         (tr ++ place_events p (attempt_order exchange_name s)) s).
Proof.
  intros h tr s Hall.
  unfold exhausted_message, exhausted_error.
  unfold attempt_order, resolved in *.
  unfold place_order, bind, gets.
  change (name_or_primary exchange_name (with_log h tr s))
    with (name_or_primary exchange_name s).
  set (name := name_or_primary exchange_name s) in *.
  change (get_exchange (Some name) (with_log h tr s))
    with (get_exchange (Some name) s).
  destruct (get_exchange (Some name) s) as [c0|] eqn:Eex.
  - simpl in Hall. destruct Hall as [[e He] Hrest].
    run. rewrite He. unfold bind.
    change (others_of name (with_log h (tr ++ [EvPlaceOrder c0 p]) s))
      with (others_of name s).
    rewrite (failover_all_raise p _ h _ s Hrest).
    run. rewrite <- !app_assoc. reflexivity.
  - simpl in Hall.
    change (others_of name (with_log h tr s)) with (others_of name s).
    rewrite (failover_all_raise p _ h tr s Hall).
    run. reflexivity.
Qed.


(** [place_order] always returns, appends one record and makes only
    [place_order] calls with the parameters it was given. *)
Lemma place_order_total (p : OrderParams) (exchange_name : option string)
    (s : State) :
  exists resp rec cs,
    place_order W p exchange_name s =
      (Returned resp,
       with_log (order_history (router s) ++ [rec])
         (sys_trace s ++ place_events p cs) s).
Proof.
  destruct (all_raise_or_first_success p (attempt_order exchange_name s)
              (sys_trace s))
    as [Hall | (pre & n & c & post & resp & Hord & Hpre & Hc)].
  - pose proof (place_order_exhausted p exchange_name
                  (order_history (router s)) (sys_trace s) s Hall) as E.
    rewrite with_log_id in E. eexists _, _, _. exact E.
  - pose proof (place_order_first_success p exchange_name pre n c post resp
                  (order_history (router s)) (sys_trace s) s Hord Hpre Hc)
      as E.
    rewrite with_log_id in E.
    exists resp. eexists. exists (pre ++ [(n, c)]).
    rewrite E, place_events_app. reflexivity.
Qed.

(** ** Orders are not portable: [update_order] and [cancel_order] *)

Lemma update_order_raises (order_id : string) (u : UpdateParams)
    (exchange_name : option string) (c : Connector) (e : string) :
  forall h tr s,
    get_exchange (Some (name_or_primary exchange_name s)) s = Some c ->
    conn_update_order W tr c order_id u = Raised e ->
    update_order W order_id u exchange_name (with_log h tr s) =
      (Returned (error_response e),
       with_log
         (h ++ [{| rec_timestamp := clock W (tr ++ [EvUpdateOrder c order_id u]);
                   rec_exchange := name_or_primary exchange_name s;
                   rec_order_id := Some order_id;
                   rec_params := ParamsUpdate u;
                   rec_response := None;
                   rec_status := "failed";
                   rec_failover := None;
                   rec_type := Some "update";
                   rec_error := Some e |}])
         (tr ++ [EvUpdateOrder c order_id u]) s).
Proof.
  intros h tr s Hex Hc.
  unfold update_order, bind, gets.
  change (name_or_primary exchange_name (with_log h tr s))
    with (name_or_primary exchange_name s).
  set (name := name_or_primary exchange_name s) in *.
  change (get_exchange (Some name) (with_log h tr s))
    with (get_exchange (Some name) s).
  rewrite Hex. run. rewrite Hc. reflexivity.
Qed.

Lemma cancel_order_raises (order_id : string)
    (exchange_name : option string) (c : Connector) (e : string) :
  forall h tr s,
    get_exchange (Some (name_or_primary exchange_name s)) s = Some c ->
    conn_cancel_order W tr c order_id = Raised e ->
    cancel_order W order_id exchange_name (with_log h tr s) =
      (Returned (error_response e),
       with_log
         (h ++ [{| rec_timestamp := clock W (tr ++ [EvCancelOrder c order_id]);
                   rec_exchange := name_or_primary exchange_name s;
                   rec_order_id := Some order_id;
                   rec_params := ParamsAbsent;
                   rec_response := None;
                   rec_status := "failed";
                   rec_failover := None;
                   rec_type := Some "cancel";
                   rec_error := Some e |}])
         (tr ++ [EvCancelOrder c order_id]) s).
Proof.
  intros h tr s Hex Hc.
  unfold cancel_order, bind, gets.
  change (name_or_primary exchange_name (with_log h tr s))
    with (name_or_primary exchange_name s).
  set (name := name_or_primary exchange_name s) in *.
  change (get_exchange (Some name) (with_log h tr s))
    with (get_exchange (Some name) s).
  rewrite Hex. run. rewrite Hc. reflexivity.
Qed.

(** C6.  When the call on the resolved exchange raises, [update_order] and
    [cancel_order] return [{'status': 'error', 'message': ...}] at once:
    the only connector call made is the one on the resolved exchange (no
    other configured exchange is tried) and exactly one failed record is
    appended; nothing else changes. *)
Theorem update_and_cancel_do_not_fail_over
    (order_id : string) (u : UpdateParams) (exchange_name : option string)
    (s : State) (c : Connector) :
  get_exchange (Some (name_or_primary exchange_name s)) s = Some c ->
  (forall e,
     conn_update_order W (sys_trace s) c order_id u = Raised e ->
     exists rec,
       update_order W order_id u exchange_name s =
         (Returned (error_response e),
          with_log (order_history (router s) ++ [rec])
            (sys_trace s ++ [EvUpdateOrder c order_id u]) s) /\
       rec_status rec = "failed" /\ rec_type rec = Some "update" /\
       rec_exchange rec = name_or_primary exchange_name s)
  /\ (forall e,
       conn_cancel_order W (sys_trace s) c order_id = Raised e ->
       exists rec,
         cancel_order W order_id exchange_name s =
           (Returned (error_response e),
            with_log (order_history (router s) ++ [rec])
              (sys_trace s ++ [EvCancelOrder c order_id]) s) /\
         rec_status rec = "failed" /\ rec_type rec = Some "cancel" /\
         rec_exchange rec = name_or_primary exchange_name s).
Proof.
  intro Hex. split; intros e He.
  - pose proof (update_order_raises order_id u exchange_name c e
                  (order_history (router s)) (sys_trace s) s Hex He) as E.
    rewrite with_log_id in E. eexists. split; [exact E|]. repeat split.
  - pose proof (cancel_order_raises order_id exchange_name c e
                  (order_history (router s)) (sys_trace s) s Hex He) as E.
    rewrite with_log_id in E. eexists. split; [exact E|]. repeat split.
Qed.

(** [cancel_order] and [update_order] always return; they add at most one
    record and at most one call, which is an order call. *)
Lemma cancel_order_total (order_id : string) (exchange_name : option string)
    (s : State) :
  exists resp recs evs,
    cancel_order W order_id exchange_name s =
      (Returned resp,
       with_log (order_history (router s) ++ recs) (sys_trace s ++ evs) s) /\
    forallb is_order_call evs = true.
Proof.
  assert (G : forall h tr, exists resp recs evs,
    cancel_order W order_id exchange_name (with_log h tr s) =
      (Returned resp, with_log (h ++ recs) (tr ++ evs) s) /\
    forallb is_order_call evs = true).
  { intros h tr. unfold cancel_order, bind, gets.
    destruct (get_exchange _ _) as [c|].
    - run. destruct (conn_cancel_order W tr c order_id).
      + eexists _, [_], [_]. split; reflexivity.
      + eexists _, [_], [_]. split; reflexivity.
    - eexists _, [], []. rewrite !app_nil_r. split; reflexivity. }
  specialize (G (order_history (router s)) (sys_trace s)).
  rewrite with_log_id in G. exact G.
Qed.


(** ** One strategy tick *)

Lemma no_order_call_app (a b : Trace) :
  no_order_call (a ++ b) = no_order_call a && no_order_call b.
Proof. apply forallb_app. Qed.

Lemma load_market_data_frame (ex : Connector) (symbol timeframe : string)
    (limit : Z) h tr (s : State) :
  exists r evs,
    load_market_data W ex symbol timeframe limit (with_log h tr s) =
      (r, with_log h (tr ++ evs) s) /\
    no_order_call evs = true.
Proof.
  unfold load_market_data. run.
  destruct (conn_get_klines W tr ex symbol timeframe limit) as [e|candles].
  - eexists _, [_]. split; reflexivity.
  - run. eexists _, [_; _]. rewrite <- app_assoc. split; reflexivity.
Qed.

Lemma update_market_data_failover_total (symbol timeframe : string)
    (limit : Z) (others : list (string * Connector)) :
  forall h tr (s : State),
  exists b evs,
    update_market_data_failover W symbol timeframe limit others
      (with_log h tr s) = (Returned b, with_log h (tr ++ evs) s) /\
    no_order_call evs = true.
Proof.
  induction others as [|[n ex] rest IH]; intros h tr s; simpl.
  - exists false, []. rewrite app_nil_r. split; reflexivity.
  - unfold try_catch, bind.
    destruct (load_market_data_frame ex symbol timeframe limit h tr s)
      as (r & evs & -> & Hevs).
    destruct r as [e|[]].
    + destruct (IH h (tr ++ evs) s) as (b & evs' & -> & Hevs').
      exists b, (evs ++ evs'). rewrite app_assoc, no_order_call_app, Hevs, Hevs'.
      split; reflexivity.
    + exists true, evs. split; [reflexivity | exact Hevs].
Qed.

Lemma update_market_data_total (symbol timeframe : string) (limit : Z)
    (s : State) :
  exists b evs,
    update_market_data W symbol timeframe limit s =
      (Returned b, with_log (order_history (router s)) (sys_trace s ++ evs) s)
    /\ no_order_call evs = true.
Proof.
  assert (G : forall h tr, exists b evs,
    update_market_data W symbol timeframe limit (with_log h tr s) =
      (Returned b, with_log h (tr ++ evs) s) /\ no_order_call evs = true).
  { intros h tr. unfold update_market_data, bind, gets, try_catch.
    change (has_strategy (router (with_log h tr s)))
      with (has_strategy (router s)).
    destruct (has_strategy (router s)); simpl.
    2:{ exists false, []. rewrite app_nil_r. split; reflexivity. }
    change (get_exchange None (with_log h tr s)) with (get_exchange None s).
    destruct (get_exchange None s) as [ex|].
    2:{ exists false, []. rewrite app_nil_r. split; reflexivity. }
    destruct (load_market_data_frame ex symbol timeframe limit h tr s)
      as (r & evs & -> & Hevs).
    destruct r as [e|[]].
    - destruct (update_market_data_failover_total symbol timeframe limit
                  (others_of (primary_exchange (router s)) s) h (tr ++ evs) s)
        as (b & evs' & E & Hevs').
      exists b, (evs ++ evs'). split.
      + rewrite app_assoc. exact E.
      + rewrite no_order_call_app, Hevs, Hevs'. reflexivity.
    - exists true, evs. split; [reflexivity | exact Hevs]. }
  specialize (G (order_history (router s)) (sys_trace s)).
  rewrite with_log_id in G. exact G.
Qed.

Lemma load_account_equity_frame (ex : Connector) h tr (s : State) :
  exists r evs,
    load_account_equity W ex (with_log h tr s) =
      (r, with_log h (tr ++ evs) s) /\
    no_order_call evs = true.
Proof.
  unfold load_account_equity. run.
  destruct (conn_get_account_balance W tr ex) as [e|balance].
  - eexists _, [_]. split; reflexivity.
  - run. eexists _, [_; _]. rewrite <- app_assoc. split; reflexivity.
Qed.

Lemma update_account_equity_failover_total
    (others : list (string * Connector)) :
  forall h tr (s : State),
  exists b evs,
    update_account_equity_failover W others (with_log h tr s) =
      (Returned b, with_log h (tr ++ evs) s) /\
    no_order_call evs = true.
Proof.
  induction others as [|[n ex] rest IH]; intros h tr s; simpl.
  - exists false, []. rewrite app_nil_r. split; reflexivity.
  - unfold try_catch, bind.
    destruct (load_account_equity_frame ex h tr s) as (r & evs & -> & Hevs).
    destruct r as [e|[]].
    + destruct (IH h (tr ++ evs) s) as (b & evs' & -> & Hevs').
      exists b, (evs ++ evs'). rewrite app_assoc, no_order_call_app, Hevs, Hevs'.
      split; reflexivity.
    + exists true, evs. split; [reflexivity | exact Hevs].
Qed.

Lemma update_account_equity_total (s : State) :
  exists b evs,
    update_account_equity W s =
      (Returned b, with_log (order_history (router s)) (sys_trace s ++ evs) s)
    /\ no_order_call evs = true.
Proof.
  assert (G : forall h tr, exists b evs,
    update_account_equity W (with_log h tr s) =
      (Returned b, with_log h (tr ++ evs) s) /\ no_order_call evs = true).
  { intros h tr. unfold update_account_equity, bind, gets, try_catch.
    change (has_strategy (router (with_log h tr s)))
      with (has_strategy (router s)).
    destruct (has_strategy (router s)); simpl.
    2:{ exists false, []. rewrite app_nil_r. split; reflexivity. }
    change (get_exchange None (with_log h tr s)) with (get_exchange None s).
    destruct (get_exchange None s) as [ex|].
    2:{ exists false, []. rewrite app_nil_r. split; reflexivity. }
    destruct (load_account_equity_frame ex h tr s) as (r & evs & -> & Hevs).
    destruct r as [e|[]].
    - destruct (update_account_equity_failover_total
                  (others_of (primary_exchange (router s)) s) h (tr ++ evs) s)
        as (b & evs' & E & Hevs').
      exists b, (evs ++ evs'). split.
      + rewrite app_assoc. exact E.
      + rewrite no_order_call_app, Hevs, Hevs'. reflexivity.
    - exists true, evs. split; [reflexivity | exact Hevs]. }
  specialize (G (order_history (router s)) (sys_trace s)).
  rewrite with_log_id in G. exact G.
Qed.

(** When the strategy is set up and the market data was refreshed,
    [execute_strategy] asks the strategy for a signal and dispatches on it;
    up to there only the trace has changed, and no order call was made. *)
Lemma execute_strategy_dispatch (symbol timeframe : string)
    (s s1 s2 : State) (r2 : Exc bool) (sg : Signal) :
  has_strategy (router s) = true ->
  update_market_data W symbol timeframe 500 s = (Returned true, s1) ->
  update_account_equity W s1 = (r2, s2) ->
  strat_generate_signal W (sys_trace s2) = Returned sg ->
  exists evs,
    no_order_call evs = true /\
    log EvGenerateSignal s2 =
      with_log (order_history (router s)) (sys_trace s ++ evs) s /\
    execute_strategy W symbol timeframe s =
      process_signal W symbol sg
        (with_log (order_history (router s)) (sys_trace s ++ evs) s).
Proof.
  intros Hstrat Hmd Heq Hsig.
  destruct (update_market_data_total symbol timeframe 500 s)
    as (b & evs1 & E1 & Hevs1).
  rewrite Hmd in E1. injection E1 as _ Hs1.
  destruct (update_account_equity_total s1) as (b2 & evs2 & E2 & Hevs2).
  rewrite Heq in E2. injection E2 as Hr2 Hs2.
  assert (Hs2' : s2 = with_log (order_history (router s))
                        (sys_trace s ++ evs1 ++ evs2) s).
  { rewrite Hs2, Hs1. simpl. rewrite app_assoc. reflexivity. }
  exists (evs1 ++ evs2 ++ [EvGenerateSignal]).
  split; [|split].
  - rewrite !no_order_call_app, Hevs1, Hevs2. reflexivity.
  - rewrite Hs2'. rewrite log_with_log, <- !app_assoc. reflexivity.
  - unfold execute_strategy, bind at 1, gets at 1. rewrite Hstrat. simpl.
    unfold bind at 1. rewrite Hmd. simpl.
    unfold bind at 1. rewrite Heq, Hr2.
    unfold bind at 1, extern. rewrite Hsig.
    f_equal. rewrite Hs2'. rewrite log_with_log, <- !app_assoc. reflexivity.
Qed.

Lemma place_order_total_on_log (p : OrderParams)
    (exchange_name : option string) h tr (s : State) :
  exists resp rec cs,
    place_order W p exchange_name (with_log h tr s) =
      (Returned resp, with_log (h ++ [rec]) (tr ++ place_events p cs) s).
Proof. exact (place_order_total p exchange_name (with_log h tr s)). Qed.

Lemma cancel_order_total_on_log (order_id : string)
    (exchange_name : option string) h tr (s : State) :
  exists resp recs evs,
    cancel_order W order_id exchange_name (with_log h tr s) =
      (Returned resp, with_log (h ++ recs) (tr ++ evs) s) /\
    forallb is_order_call evs = true.
Proof. exact (cancel_order_total order_id exchange_name (with_log h tr s)). Qed.

(** C9.  In [execute_strategy], a 'close' signal for a symbol without an
    active position returns [{'status': 'warning'}]; so does an
    'update_stop' signal when the symbol has no active position or the
    position has no stop-order id.  The call returns (no exception), the
    result is not an error, no order call is made and the order history, the
    position book and everything but the trace are unchanged. *)
Theorem close_or_update_stop_when_flat_is_warning
    (symbol timeframe : string) (s s1 s2 : State) (r2 : Exc bool) :
  has_strategy (router s) = true ->
  update_market_data W symbol timeframe 500 s = (Returned true, s1) ->
  update_account_equity W s1 = (r2, s2) ->
  (forall side reason,
     strat_generate_signal W (sys_trace s2) = Returned (SigClose side reason) ->
     dict_get symbol (active_positions (router s)) = None ->
     exists msg evs,
       execute_strategy W symbol timeframe s =
         (Returned (ExecWarning msg),
          with_log (order_history (router s)) (sys_trace s ++ evs) s) /\
       exec_status (ExecWarning msg) = "warning" /\
       no_order_call evs = true)
  /\ (forall side new_stop reason,
       strat_generate_signal W (sys_trace s2)
         = Returned (SigUpdateStop side new_stop reason) ->
       dict_get symbol (active_positions (router s)) = None \/
       (exists position,
          dict_get symbol (active_positions (router s)) = Some position /\
          pos_stop_order_id position = "") ->
       exists msg evs,
         execute_strategy W symbol timeframe s =
           (Returned (ExecWarning msg),
            with_log (order_history (router s)) (sys_trace s ++ evs) s) /\
         exec_status (ExecWarning msg) = "warning" /\
         no_order_call evs = true).
Proof.
  intros Hstrat Hmd Heq. split.
  - intros side reason Hsig Hflat.
    destruct (execute_strategy_dispatch symbol timeframe s s1 s2 r2 _
                Hstrat Hmd Heq Hsig) as (evs & Hevs & _ & ->).
    unfold process_signal, bind, gets. simpl. rewrite Hflat.
    eexists _, evs. repeat split. exact Hevs.
  - intros side new_stop reason Hsig Hflat.
    destruct (execute_strategy_dispatch symbol timeframe s s1 s2 r2 _
                Hstrat Hmd Heq Hsig) as (evs & Hevs & _ & ->).
    unfold process_signal, bind, gets. simpl.
    destruct Hflat as [Hflat | (position & Hpos & Hid)].
    + rewrite Hflat. eexists _, evs. repeat split. exact Hevs.
    + rewrite Hpos, Hid. simpl. eexists _, evs. repeat split. exact Hevs.
Qed.

(** A refresh of the market data can only succeed when the primary
    exchange is configured. *)
Lemma update_market_data_needs_primary (symbol timeframe : string)
    (limit : Z) (s s1 : State) :
  update_market_data W symbol timeframe limit s = (Returned true, s1) ->
  exists c0, get_exchange None s = Some c0.
Proof.
  unfold update_market_data, bind, gets, ret.
  destruct (has_strategy (router s)); simpl; [|discriminate].
  destruct (get_exchange None s) as [c0|]; [|discriminate].
  intros _. exists c0. reflexivity.
Qed.

Lemma get_exchange_primary (s : State) :
  get_exchange (Some (name_or_primary None s)) s = get_exchange None s.
Proof.
  unfold get_exchange, name_or_primary.
  destruct (str_truthy (primary_exchange (router s))); reflexivity.
Qed.

(** On a configured exchange [cancel_order] makes exactly one call, on that
    exchange, and appends exactly one record of type 'cancel', whether the
    call returns or raises. *)
Lemma cancel_order_on_configured (order_id : string)
    (exchange_name : option string) (c : Connector) :
  forall h tr s,
    get_exchange (Some (name_or_primary exchange_name s)) s = Some c ->
    exists resp rec,
      cancel_order W order_id exchange_name (with_log h tr s) =
        (Returned resp,
         with_log (h ++ [rec]) (tr ++ [EvCancelOrder c order_id]) s) /\
      rec_type rec = Some "cancel" /\
      rec_order_id rec = Some order_id /\
      rec_exchange rec = name_or_primary exchange_name s.
Proof.
  intros h tr s Hex.
  unfold cancel_order, bind, gets.
  change (name_or_primary exchange_name (with_log h tr s))
    with (name_or_primary exchange_name s).
  set (name := name_or_primary exchange_name s) in *.
  change (get_exchange (Some name) (with_log h tr s))
    with (get_exchange (Some name) s).
  rewrite Hex. run.
  destruct (conn_cancel_order W tr c order_id) as [e|resp].
  - eexists _, _. split; [reflexivity|]. repeat split.
  - eexists _, _. split; [reflexivity|]. repeat split.
Qed.

(** C3.  In [execute_strategy] on an 'open' signal the entry order is placed
    first.  If the entry placement reports an error, the result is an error,
    the only order calls made are the entry attempts (no stop order call)
    and the position book is unchanged.  If the entry succeeded, the stop
    order is placed next; if that reports an error, [cancel_order] is run on
    the entry order id: it makes one cancel call, on the primary exchange,
    for that id, and appends one record of type 'cancel'; whatever that call
    does, the result is an error and the position book is unchanged.  Only
    when both succeeded is the position of the symbol written to the
    book. *)
Theorem open_signal_entry_then_stop
    (symbol timeframe : string) (s s1 s2 : State) (r2 : Exc bool)
    (side : string) (size entry_price stop_loss : Q) (reason : string) :
  has_strategy (router s) = true ->
  update_market_data W symbol timeframe 500 s = (Returned true, s1) ->
  update_account_equity W s1 = (r2, s2) ->
  strat_generate_signal W (sys_trace s2)
    = Returned (SigOpen side size entry_price stop_loss reason) ->
  let pe := entry_params symbol side size in
  let ps := stop_params symbol side size stop_loss in
  let s0 := log EvGenerateSignal s2 in
  let h0 := order_history (router s) in
  pe <> ps /\
  exists entry recE csE,
    let trE := sys_trace s0 ++ place_events pe csE in
    place_order W pe None s0 =
      (Returned entry, with_log (h0 ++ [recE]) trE s) /\
    (is_error entry = true ->
     exists msg,
       execute_strategy W symbol timeframe s =
         (Returned (ExecError msg), with_log (h0 ++ [recE]) trE s)) /\
    (is_error entry = false ->
     exists stop recS csS,
       let trS := trE ++ place_events ps csS in
       let sS := with_log (h0 ++ [recE; recS]) trS s in
       place_order W ps None (with_log (h0 ++ [recE]) trE s) =
         (Returned stop, sS) /\
       (is_error stop = true ->
        exists msg primary resp recC,
          let trC := trS ++ [EvCancelOrder primary (get_order_id entry)] in
          get_exchange None s = Some primary /\
          cancel_order W (get_order_id entry) None sS =
            (Returned resp, with_log (h0 ++ [recE; recS; recC]) trC s) /\
          rec_type recC = Some "cancel" /\
          rec_order_id recC = Some (get_order_id entry) /\
          rec_exchange recC = primary_exchange (router s) /\
          execute_strategy W symbol timeframe s =
            (Returned (ExecError msg),
             with_log (h0 ++ [recE; recS; recC]) trC s)) /\
       (is_error stop = false ->
        execute_strategy W symbol timeframe s =
          (Returned (ExecOpen side size entry_price stop_loss entry stop),
           set_active_positions
             (dict_set symbol
                {| pos_side := side;
                   pos_size := size;
                   pos_entry_price := entry_price;
                   pos_stop_loss := stop_loss;
                   pos_stop_order_id := get_order_id stop;
                   pos_entry_time := clock W trS;
                   pos_entry_order_id := get_order_id entry;
                   pos_exchange := None |}
                (active_positions (router s)))
             sS))).
Proof.
  intros Hstrat Hmd Heq Hsig pe ps s0 h0.
  split; [discriminate|].
  destruct (update_market_data_needs_primary _ _ _ _ _ Hmd)
    as (primary & Hprimary).
  destruct (execute_strategy_dispatch symbol timeframe s s1 s2 r2 _
              Hstrat Hmd Heq Hsig) as (evs0 & Hevs0 & Hs0 & Hexec).
  fold s0 in Hs0. rewrite Hexec. clear Hexec.
  set (tr0 := sys_trace s ++ evs0) in *.
  assert (Htr0 : sys_trace s0 = tr0) by (rewrite Hs0; reflexivity).
  rewrite Htr0, Hs0. subst h0.
  set (h0 := order_history (router s)) in *.
  destruct (place_order_total_on_log pe None h0 tr0 s)
    as (entry & recE & csE & Eentry).
  exists entry, recE, csE. cbv zeta.
  split; [exact Eentry|].
  split.
  - intro Herr. eexists.
    unfold process_signal. fold pe. unfold bind at 1.
    rewrite Eentry, Herr. reflexivity.
  - intro Hok.
    destruct (place_order_total_on_log ps None (h0 ++ [recE])
                (tr0 ++ place_events pe csE) s)
      as (stop & recS & csS & Estop).
    exists stop, recS, csS.
    rewrite <- !app_assoc in Estop. simpl in Estop.
    rewrite <- !app_assoc.
    split; [exact Estop|].
    split.
    + intro Herr.
      destruct (cancel_order_on_configured (get_order_id entry) None primary
                  (h0 ++ [recE; recS])
                  (tr0 ++ place_events pe csE ++ place_events ps csS) s
                  (eq_trans (get_exchange_primary s) Hprimary))
        as (resp & recC & Ecancel & Htype & Hid & Hname).
      rewrite <- !app_assoc in Ecancel. simpl in Ecancel.
      eexists _, primary, resp, recC. simpl. rewrite <- !app_assoc.
      split; [exact Hprimary|].
      split; [exact Ecancel|].
      split; [exact Htype|]. split; [exact Hid|]. split; [exact Hname|].
      unfold process_signal. fold pe. fold ps. unfold bind at 1.
      rewrite Eentry, Hok. unfold bind at 1. rewrite Estop, Herr.
      unfold bind at 1. rewrite Ecancel. reflexivity.
    + intro Hok2.
      unfold process_signal. fold pe. fold ps. unfold bind at 1.
      rewrite Eentry, Hok. unfold bind at 1. rewrite Estop, Hok2.
      reflexivity.
Qed.

(** ** Draining positions and switching the environment *)

Lemma place_events_are_order_calls (p : OrderParams)
    (cs : list (string * Connector)) :
  forallb is_order_call (place_events p cs) = true.
Proof. induction cs as [|kv rest IH]; simpl; auto. Qed.

Lemma close_position_total (symbol : string) (position : Position)
    h tr d (s : State) :
  exists b h' evs d',
    close_position W symbol position (with_book h tr d s) =
      (Returned b, with_book (h ++ h') (tr ++ evs) d' s) /\
    forallb is_order_call evs = true.
Proof.
  unfold close_position, try_catch, bind at 1, gets at 1.
  set (exchange_name :=
         match pos_exchange position with
         | Some n => n
         | None => primary_exchange (router (with_book h tr d s))
         end).
  unfold bind at 1.
  destruct (place_order_total (exit_params symbol position)
              (Some exchange_name) (with_book h tr d s))
    as (resp & rec & cs & ->).
  change (with_log _ _ (with_book h tr d s))
    with (with_book (h ++ [rec])
            (tr ++ place_events (exit_params symbol position) cs) d s).
  destruct (is_error resp).
  { exists false, [rec], (place_events (exit_params symbol position) cs), d.
    split; [reflexivity | apply place_events_are_order_calls]. }
  unfold bind at 1.
  assert (Hcancel : exists recs evs,
    (if str_truthy (pos_stop_order_id position)
     then cancel_order W (pos_stop_order_id position) (Some exchange_name)
          ;;; ret tt
     else ret tt)
      (with_book (h ++ [rec])
         (tr ++ place_events (exit_params symbol position) cs) d s) =
    (Returned tt,
     with_book ((h ++ [rec]) ++ recs)
       ((tr ++ place_events (exit_params symbol position) cs) ++ evs) d s) /\
    forallb is_order_call evs = true).
  { destruct (str_truthy (pos_stop_order_id position)).
    - unfold bind.
      destruct (cancel_order_total (pos_stop_order_id position)
                  (Some exchange_name)
                  (with_book (h ++ [rec])
                     (tr ++ place_events (exit_params symbol position) cs)
                     d s))
        as (r & recs & evs & -> & Hevs).
      exists recs, evs. split; [reflexivity | exact Hevs].
    - exists [], []. rewrite !app_nil_r. split; reflexivity. }
  destruct Hcancel as (recs & evs & -> & Hevs).
  unfold bind at 1, del_position.
  change (active_positions (router (with_book _ _ d s))) with d.
  destruct (dict_del symbol d) as [d'|].
  - exists true, ([rec] ++ recs),
      (place_events (exit_params symbol position) cs ++ evs), d'.
    rewrite !app_assoc. split; [reflexivity|].
    rewrite forallb_app, place_events_are_order_calls, Hevs. reflexivity.
  - exists false, ([rec] ++ recs),
      (place_events (exit_params symbol position) cs ++ evs), d.
    rewrite !app_assoc. split; [reflexivity|].
    rewrite forallb_app, place_events_are_order_calls, Hevs. reflexivity.
Qed.

Lemma close_positions_loop_total (l : list (string * Position)) :
  forall success h tr d (s : State),
  exists b h' evs d',
    close_positions_loop W l success (with_book h tr d s) =
      (Returned b, with_book (h ++ h') (tr ++ evs) d' s) /\
    forallb is_order_call evs = true.
Proof.
  induction l as [|[symbol position] rest IH]; intros success h tr d s; simpl.
  - exists success, [], [], d. rewrite !app_nil_r. split; reflexivity.
  - unfold bind.
    destruct (close_position_total symbol position h tr d s)
      as (b & h1 & evs1 & d1 & -> & Hevs1).
    destruct (IH (success && b) (h ++ h1) (tr ++ evs1) d1 s)
      as (b' & h2 & evs2 & d2 & -> & Hevs2).
    exists b', (h1 ++ h2), (evs1 ++ evs2), d2.
    rewrite !app_assoc. split; [reflexivity|].
    rewrite forallb_app, Hevs1, Hevs2. reflexivity.
Qed.

Lemma with_book_id (s : State) :
  with_book (order_history (router s)) (sys_trace s)
    (active_positions (router s)) s = s.
Proof. destruct s as [[] [m []]]. reflexivity. Qed.

(** [close_all_positions] always returns; it changes the order history, the
    position book and the trace only, and makes order calls only. *)
Lemma close_all_positions_total (s : State) :
  exists b h' evs d',
    close_all_positions W s =
      (Returned b,
       with_book (order_history (router s) ++ h') (sys_trace s ++ evs) d' s)
    /\ forallb is_order_call evs = true.
Proof.
  unfold close_all_positions, bind, gets.
  destruct (active_positions (router s)) as [|kv rest] eqn:Epos.
  - exists true, [], [], []. rewrite !app_nil_r.
    rewrite <- Epos, with_book_id. split; reflexivity.
  - rewrite <- Epos.
    destruct (close_positions_loop_total (active_positions (router s)) true
                (order_history (router s)) (sys_trace s)
                (active_positions (router s)) s)
      as (b & h' & evs & d' & E & Hevs).
    rewrite with_book_id in E. rewrite E.
    exists b, h', evs, d'. split; [reflexivity | exact Hevs].
Qed.

(** *** What the drain does to each position *)

(** What [place_order] records: the order it was given, and whether the
    caller is told of an error. *)
Lemma place_order_outcome (p : OrderParams) (exchange_name : option string)
    (s : State) :
  exists resp rec cs,
    place_order W p exchange_name s =
      (Returned resp,
       with_log (order_history (router s) ++ [rec])
         (sys_trace s ++ place_events p cs) s) /\
    rec_params rec = ParamsPlace p /\
    is_error resp = exit_failed rec.
Proof.
  destruct (all_raise_or_first_success p (attempt_order exchange_name s)
              (sys_trace s))
    as [Hall | (pre & n & c & post & resp & Hord & Hpre & Hc)].
  - pose proof (place_order_exhausted p exchange_name
                  (order_history (router s)) (sys_trace s) s Hall) as E.
    rewrite with_log_id in E. eexists _, _, _.
    split; [exact E|]. split; reflexivity.
  - pose proof (place_order_first_success p exchange_name pre n c post resp
                  (order_history (router s)) (sys_trace s) s Hord Hpre Hc)
      as E.
    rewrite with_log_id in E.
    exists resp. eexists. exists (pre ++ [(n, c)]).
    rewrite E, place_events_app.
    split; [reflexivity|]. split; reflexivity.
Qed.

(** [cancel_order] records no placement. *)
Lemma cancel_order_no_placement (order_id : string)
    (exchange_name : option string) (s : State) :
  exists resp recs evs,
    cancel_order W order_id exchange_name s =
      (Returned resp,
       with_log (order_history (router s) ++ recs) (sys_trace s ++ evs) s) /\
    forallb is_order_call evs = true /\
    place_records recs = [].
Proof.
  assert (G : forall h tr, exists resp recs evs,
    cancel_order W order_id exchange_name (with_log h tr s) =
      (Returned resp, with_log (h ++ recs) (tr ++ evs) s) /\
    forallb is_order_call evs = true /\ place_records recs = []).
  { intros h tr. unfold cancel_order, bind, gets.
    destruct (get_exchange _ _) as [c|].
    - run. destruct (conn_cancel_order W tr c order_id).
      + eexists _, [_], [_]. repeat split.
      + eexists _, [_], [_]. repeat split.
    - eexists _, [], []. rewrite !app_nil_r. repeat split. }
  specialize (G (order_history (router s)) (sys_trace s)).
  rewrite with_log_id in G. exact G.
Qed.

Lemma filter_absent_key {V : Type} (k : string) (d : list (string * V)) :
  ~ In k (map fst d) ->
  filter (fun kv => negb (String.eqb k (fst kv))) d = d.
Proof.
  induction d as [|[k' v] rest IH]; simpl; intro H; [reflexivity|].
  destruct (String.eqb_spec k k') as [->|Hne].
  - exfalso. apply H. left. reflexivity.
  - simpl. rewrite IH; [reflexivity|]. intro Hin. apply H. right. exact Hin.
Qed.

Lemma dict_mem_false {V : Type} (k : string) (d : list (string * V)) :
  dict_mem k d = false -> ~ In k (map fst d).
Proof.
  unfold dict_mem. induction d as [|[k' v] rest IH]; simpl; [tauto|].
  destruct (String.eqb_spec k k') as [->|Hne]; [discriminate|].
  intros H [Heq | Hin]; [congruence | exact (IH H Hin)].
Qed.

Lemma dict_mem_middle {V : Type} (k : string) (v : V)
    (kept rest : list (string * V)) :
  dict_mem k (kept ++ (k, v) :: rest) = true.
Proof.
  unfold dict_mem. induction kept as [|[k' v'] kept IH]; simpl.
  - rewrite String.eqb_refl. reflexivity.
  - destruct (String.eqb k k'); [reflexivity | exact IH].
Qed.

(** Deleting a key of a dictionary removes its one entry. *)
Lemma filter_unique_key {V : Type} (k : string) (v : V)
    (kept rest : list (string * V)) :
  NoDup (map fst (kept ++ (k, v) :: rest)) ->
  filter (fun kv => negb (String.eqb k (fst kv))) (kept ++ (k, v) :: rest)
  = kept ++ rest.
Proof.
  intro Hnd. rewrite map_app in Hnd. simpl in Hnd.
  apply NoDup_remove_2 in Hnd.
  rewrite filter_app. simpl. rewrite String.eqb_refl. simpl.
  rewrite !filter_absent_key; [reflexivity| |];
    intro Hin; apply Hnd; apply in_or_app; [right | left]; exact Hin.
Qed.

Lemma place_records_step (rec : OrderRecord) (recs1 recs2 : list OrderRecord)
    (p : OrderParams) :
  rec_params rec = ParamsPlace p ->
  place_records recs1 = [] ->
  place_records ((rec :: recs1) ++ recs2) = rec :: place_records recs2.
Proof.
  intros Hrec Hnone. unfold place_records in *.
  rewrite filter_app. simpl. rewrite Hrec, Hnone. reflexivity.
Qed.

(** One turn of the loop of [close_all_positions]: the exit order of the
    position is placed and recorded; the position is deleted unless the
    caller was told of an error. *)
Lemma close_position_drain (symbol : string) (position : Position)
    h tr d (s : State) :
  exists b rec recs evs,
    close_position W symbol position (with_book h tr d s) =
      (Returned b,
       with_book (h ++ rec :: recs) (tr ++ evs)
         (if exit_failed rec then d
          else filter (fun kv => negb (String.eqb symbol (fst kv))) d) s) /\
    forallb is_order_call evs = true /\
    rec_params rec = ParamsPlace (exit_params symbol position) /\
    place_records recs = [] /\
    b = negb (exit_failed rec) && dict_mem symbol d.
Proof.
  unfold close_position, try_catch, bind at 1, gets at 1.
  set (exchange_name :=
         match pos_exchange position with
         | Some n => n
         | None => primary_exchange (router (with_book h tr d s))
         end).
  unfold bind at 1.
  destruct (place_order_outcome (exit_params symbol position)
              (Some exchange_name) (with_book h tr d s))
    as (resp & rec & cs & -> & Hrec & Hfailed).
  change (with_log _ _ (with_book h tr d s))
    with (with_book (h ++ [rec])
            (tr ++ place_events (exit_params symbol position) cs) d s).
  rewrite Hfailed.
  destruct (exit_failed rec) eqn:Efailed.
  { exists false, rec, [], (place_events (exit_params symbol position) cs).
    rewrite Efailed.
    split; [reflexivity|].
    split; [apply place_events_are_order_calls|].
    split; [exact Hrec|]. split; reflexivity. }
  unfold bind at 1.
  assert (Hcancel : exists recs evs,
    (if str_truthy (pos_stop_order_id position)
     then cancel_order W (pos_stop_order_id position) (Some exchange_name)
          ;;; ret tt
     else ret tt)
      (with_book (h ++ [rec])
         (tr ++ place_events (exit_params symbol position) cs) d s) =
    (Returned tt,
     with_book ((h ++ [rec]) ++ recs)
       ((tr ++ place_events (exit_params symbol position) cs) ++ evs) d s) /\
    forallb is_order_call evs = true /\ place_records recs = []).
  { destruct (str_truthy (pos_stop_order_id position)).
    - unfold bind.
      destruct (cancel_order_no_placement (pos_stop_order_id position)
                  (Some exchange_name)
                  (with_book (h ++ [rec])
                     (tr ++ place_events (exit_params symbol position) cs)
                     d s))
        as (r & recs & evs & -> & Hevs & Hnone).
      exists recs, evs. split; [reflexivity|]. split; assumption.
    - exists [], []. rewrite !app_nil_r. repeat split. }
  destruct Hcancel as (recs & evs & -> & Hevs & Hnone).
  unfold bind at 1, del_position.
  change (active_positions (router (with_book _ _ d s))) with d.
  unfold dict_del.
  destruct (dict_mem symbol d) eqn:Emem.
  - exists true, rec, recs,
      (place_events (exit_params symbol position) cs ++ evs).
    rewrite Efailed.
    rewrite <- !app_assoc. split; [reflexivity|].
    split; [rewrite forallb_app, place_events_are_order_calls, Hevs;
            reflexivity|].
    split; [exact Hrec|]. split; [exact Hnone | reflexivity].
  - exists false, rec, recs,
      (place_events (exit_params symbol position) cs ++ evs).
    rewrite Efailed.
    rewrite (filter_absent_key symbol d (dict_mem_false symbol d Emem)).
    rewrite <- !app_assoc. split; [reflexivity|].
    split; [rewrite forallb_app, place_events_are_order_calls, Hevs;
            reflexivity|].
    split; [exact Hrec|]. split; [exact Hnone | reflexivity].
Qed.

(** The loop of [close_all_positions] over the snapshot [l]: one exit order
    is recorded per position, in the order of the snapshot; when the
    snapshot is the tail of a book with distinct keys, the positions that
    stay are those whose exit failed, and the result tells whether any
    did. *)
Lemma close_positions_loop_drain (l : list (string * Position)) :
  forall success h tr d (s : State),
  exists b recs evs d',
    close_positions_loop W l success (with_book h tr d s) =
      (Returned b, with_book (h ++ recs) (tr ++ evs) d' s) /\
    forallb is_order_call evs = true /\
    map rec_params (place_records recs) = exit_orders l /\
    (forall kept,
       d = kept ++ l -> NoDup (map fst d) ->
       d' = kept ++ remaining l (map exit_failed (place_records recs)) /\
       b = success
           && forallb (fun r => negb (exit_failed r)) (place_records recs)).
Proof.
  induction l as [|[symbol position] rest IH]; intros success h tr d s; simpl.
  - exists success, [], [], d. rewrite !app_nil_r.
    split; [reflexivity|]. split; [reflexivity|]. split; [reflexivity|].
    intros kept -> _. rewrite andb_true_r. split; reflexivity.
  - unfold bind.
    destruct (close_position_drain symbol position h tr d s)
      as (b1 & rec & recs1 & evs1 & -> & Hevs1 & Hrec & Hnone & Hb1).
    set (d1 := if exit_failed rec then d
               else filter (fun kv => negb (String.eqb symbol (fst kv))) d)
      in *.
    destruct (IH (success && b1) (h ++ rec :: recs1) (tr ++ evs1) d1 s)
      as (b & recs2 & evs2 & d2 & -> & Hevs2 & Hexits & Hbook).
    exists b, ((rec :: recs1) ++ recs2), (evs1 ++ evs2), d2.
    rewrite (place_records_step rec recs1 recs2 _ Hrec Hnone).
    rewrite <- !app_assoc. split; [reflexivity|].
    split; [rewrite forallb_app, Hevs1, Hevs2; reflexivity|].
    split; [simpl; rewrite Hrec, Hexits; reflexivity|].
    intros kept -> Hnd. subst d1. simpl.
    destruct (exit_failed rec) eqn:Efailed.
    + destruct (Hbook (kept ++ [(symbol, position)])) as [-> ->].
      * rewrite <- app_assoc. reflexivity.
      * exact Hnd.
      * rewrite <- app_assoc. simpl. subst b1. simpl.
        rewrite andb_false_r. split; reflexivity.
    + rewrite (filter_unique_key symbol position kept rest Hnd) in Hbook.
      destruct (Hbook kept eq_refl) as [-> ->].
      * rewrite map_app in *. simpl in Hnd.
        exact (NoDup_remove_1 _ _ _ Hnd).
      * subst b1. rewrite dict_mem_middle. simpl. rewrite andb_true_r.
        split; reflexivity.
Qed.

(** [close_all_positions]: every position of the book has its exit order
    placed and recorded, in the order of the book; the positions that stay
    in the book are those whose exit failed, and the result is true when
    none did. *)
Lemma close_all_positions_drain (s : State) :
  exists b recs evs d',
    close_all_positions W s =
      (Returned b,
       with_book (order_history (router s) ++ recs) (sys_trace s ++ evs)
         d' s) /\
    forallb is_order_call evs = true /\
    map rec_params (place_records recs)
      = exit_orders (active_positions (router s)) /\
    (NoDup (map fst (active_positions (router s))) ->
     d' = remaining (active_positions (router s))
            (map exit_failed (place_records recs)) /\
     b = forallb (fun r => negb (exit_failed r)) (place_records recs)).
Proof.
  unfold close_all_positions, bind, gets.
  destruct (active_positions (router s)) as [|kv rest] eqn:Epos.
  - exists true, [], [], []. rewrite !app_nil_r.
    rewrite <- Epos, with_book_id.
    split; [reflexivity|]. split; [reflexivity|]. rewrite Epos.
    split; [reflexivity|]. intros _. split; reflexivity.
  - rewrite <- Epos.
    destruct (close_positions_loop_drain (active_positions (router s)) true
                (order_history (router s)) (sys_trace s)
                (active_positions (router s)) s)
      as (b & recs & evs & d' & E & Hevs & Hexits & Hbook).
    rewrite with_book_id in E. rewrite E.
    exists b, recs, evs, d'. split; [reflexivity|].
    split; [exact Hevs|]. split; [exact Hexits|].
    intro Hnd. exact (Hbook [] eq_refl Hnd).
Qed.

(** *** Rebuilding the connectors *)

Lemma with_setup_id (s : State) :
  with_setup (config_exchanges (router s)) (sys_trace s) s = s.
Proof. destruct s as [[] [m []]]. reflexivity. Qed.

Lemma list_update_middle {A : Type} (f : A -> A) (done : list A) (x : A)
    (rest : list A) :
  list_update (length done) f (done ++ x :: rest) = done ++ f x :: rest.
Proof. induction done as [|y done IH]; simpl; [|rewrite IH]; reflexivity. Qed.

Lemma refreshed_refl (cfgs : list ExchangeConfig) : Forall2 refreshed cfgs cfgs.
Proof.
  induction cfgs as [|x rest IH]; constructor; [left; reflexivity | exact IH].
Qed.

Lemma prefix_append (a b : string) : String.prefix a (a ++ b) = true.
Proof.
  induction a as [|c a IH]; simpl.
  - destruct b; reflexivity.
  - destruct (Ascii.ascii_dec c c) as [_|Hne]; [exact IH | congruence].
Qed.

(** The URLs the factory asks for exist, for both environments. *)
Lemma factory_urls (env : Environment) (exchange : string) :
  In exchange ["bybit"; "okx"; "binance"] ->
  exists rest_url ws_url,
    ExchangeUrls.get_exchange_url exchange env "rest" = Returned rest_url /\
    ExchangeUrls.get_exchange_url exchange env "ws" = Returned ws_url /\
    is_url_of exchange env "rest" rest_url = true /\
    is_url_of exchange env "ws" ws_url = true.
Proof.
  intros [<- | [<- | [<- | []]]]; destruct env;
    eexists _, _; repeat split; reflexivity.
Qed.

(** [create_connector] returns a connector for bybit, okx and binance
    only. *)
Lemma create_connector_supported (exchange_name : string) (ref : nat)
    (s s' : State) (c : Connector) :
  create_connector W exchange_name ref s = (Returned (Some c), s') ->
  In (py_lower exchange_name) ["bybit"; "okx"; "binance"].
Proof.
  unfold create_connector.
  destruct (String.eqb_spec (py_lower exchange_name) "bybit") as [->|_];
    [intros _; left; reflexivity|].
  destruct (String.eqb_spec (py_lower exchange_name) "okx") as [->|_];
    [intros _; right; left; reflexivity|].
  destruct (String.eqb_spec (py_lower exchange_name) "binance") as [->|_];
    [intros _; right; right; left; reflexivity|].
  unfold bind, gets, extern, modify, ret.
  destruct (fs_load_json W _ _) as [[e|env_config]|]; discriminate.
Qed.

(** One run of [create_connector] on the dictionary after [done]: the
    environment file is looked up in the directory of the current
    environment and, when it could be read, written over the dictionary;
    nothing else but the trace changes. *)
Lemma create_connector_frame (exchange_name : string)
    (done : list ExchangeConfig) (x : ExchangeConfig)
    (rest : list ExchangeConfig) (tr : Trace) (s : State) :
  exists r evs x',
    create_connector W exchange_name (length done)
      (with_setup (done ++ x :: rest) tr s) =
      (r, with_setup (done ++ x' :: rest) (tr ++ evs) s) /\
    forallb (is_factory_call (EnvManager.get_environment (env_manager s)))
      evs = true /\
    refreshed x x' /\
    ((forall tr' path, fs_load_json W tr' path = None) -> x' = x).
Proof.
  unfold create_connector.
  set (name := py_lower exchange_name).
  unfold bind at 1, gets at 1.
  change (EnvManager.get_environment
            (env_manager (with_setup (done ++ x :: rest) tr s)))
    with (EnvManager.get_environment (env_manager s)).
  set (env := EnvManager.get_environment (env_manager s)).
  unfold bind at 1, gets at 1.
  change (EnvManager.get_config_path name
            (env_manager (with_setup (done ++ x :: rest) tr s)))
    with (EnvManager.get_config_path name (env_manager s)).
  set (path := EnvManager.get_config_path name (env_manager s)).
  assert (Hpath : is_factory_call env (EvLoadEnvConfig path) = true).
  { unfold path, env, EnvManager.get_config_path, EnvManager.get_environment.
    destruct (EnvManager.environment _).
    - exact (prefix_append "config/testnet/" (name ++ ".json")).
    - exact (prefix_append "config/mainnet/" (name ++ ".json")). }
  unfold bind at 1, extern at 1.
  change (sys_trace (with_setup (done ++ x :: rest) tr s)) with tr.
  change (log (EvLoadEnvConfig path) (with_setup (done ++ x :: rest) tr s))
    with (with_setup (done ++ x :: rest) (tr ++ [EvLoadEnvConfig path]) s).
  set (x' := match fs_load_json W tr path with
             | Some (Returned env_config) => merge_config env_config x
             | _ => x
             end).
  assert (Hx : refreshed x x').
  { unfold x'. destruct (fs_load_json W tr path) as [[e|env_config]|];
      [left; reflexivity | right; eexists; reflexivity | left; reflexivity]. }
  assert (Hnone : (forall tr' path', fs_load_json W tr' path' = None) ->
                  x' = x).
  { intro H. unfold x'. rewrite H. reflexivity. }
  unfold bind at 1.
  assert (Hmerge :
    match fs_load_json W tr path with
    | Some (Returned env_config) =>
        modify (update_config (length done) (merge_config env_config))
    | Some (Raised _) => ret tt
    | None => ret tt
    end (with_setup (done ++ x :: rest) (tr ++ [EvLoadEnvConfig path]) s)
    = (Returned tt,
       with_setup (done ++ x' :: rest) (tr ++ [EvLoadEnvConfig path]) s)).
  { unfold x'. destruct (fs_load_json W tr path) as [[e|env_config]|];
      try reflexivity.
    unfold modify, update_config.
    change (config_exchanges (router (with_setup (done ++ x :: rest) _ s)))
      with (done ++ x :: rest).
    rewrite list_update_middle. reflexivity. }
  rewrite Hmerge. clear Hmerge.
  unfold bind at 1, gets at 1, config_at.
  change (config_exchanges (router (with_setup (done ++ x' :: rest) _ s)))
    with (done ++ x' :: rest).
  rewrite nth_middle.
  assert (Hbuild : forall exchange args,
    In exchange ["bybit"; "okx"; "binance"] ->
    ca_testnet args = Environment_eqb env TESTNET ->
    ExchangeUrls.get_exchange_url exchange env "rest"
      = Returned (ca_base_url args) ->
    ExchangeUrls.get_exchange_url exchange env "ws"
      = Returned (ca_ws_url args) ->
    exists r evs,
      new_connector W exchange args
        (with_setup (done ++ x' :: rest) (tr ++ [EvLoadEnvConfig path]) s)
      = (r, with_setup (done ++ x' :: rest) (tr ++ evs) s) /\
      forallb (is_factory_call env) evs = true).
  { intros exchange args Hin Htest Hrest Hws.
    unfold new_connector, bind, extern, ret.
    change (sys_trace (with_setup (done ++ x' :: rest)
                         (tr ++ [EvLoadEnvConfig path]) s))
      with (tr ++ [EvLoadEnvConfig path]).
    assert (Hev : is_factory_call env (EvCreateConnector exchange args)
                  = true).
    { unfold is_factory_call, is_url_of. rewrite Htest, Hrest, Hws.
      rewrite !String.eqb_refl. destruct (Environment_eqb env TESTNET);
        reflexivity. }
    exists (match connector_init W (tr ++ [EvLoadEnvConfig path])
                    exchange args with
            | Raised e => Raised e
            | Returned c => Returned (Some c)
            end),
      [EvLoadEnvConfig path; EvCreateConnector exchange args].
    split.
    - destruct (connector_init W _ exchange args);
        unfold with_setup, log, log_event, with_log, set_config_exchanges,
          with_router; simpl; rewrite <- app_assoc; reflexivity.
    - cbn [forallb]. rewrite Hpath, Hev. reflexivity. }
  assert (Hfinish : forall exchange (k : string -> string -> ConnectorArgs),
    In exchange ["bybit"; "okx"; "binance"] ->
    (forall rest_url ws_url,
       ca_testnet (k rest_url ws_url) = Environment_eqb env TESTNET /\
       ca_base_url (k rest_url ws_url) = rest_url /\
       ca_ws_url (k rest_url ws_url) = ws_url) ->
    exists r evs,
      (rest_url <-
         lift_exc (ExchangeUrls.get_exchange_url exchange env "rest") ;;
       ws_url <-
         lift_exc (ExchangeUrls.get_exchange_url exchange env "ws") ;;
       new_connector W exchange (k rest_url ws_url))
        (with_setup (done ++ x' :: rest) (tr ++ [EvLoadEnvConfig path]) s)
      = (r, with_setup (done ++ x' :: rest) (tr ++ evs) s) /\
      forallb (is_factory_call env) evs = true).
  { intros exchange k Hin Hk.
    destruct (factory_urls env exchange Hin)
      as (rest_url & ws_url & Hrest & Hws & _).
    unfold bind at 1, lift_exc at 1. rewrite Hrest.
    unfold bind at 1, lift_exc at 1. rewrite Hws.
    destruct (Hk rest_url ws_url) as (Htest & Hbase & Hwsu).
    apply Hbuild; [exact Hin | exact Htest | |].
    - rewrite Hbase. exact Hrest.
    - rewrite Hwsu. exact Hws. }
  destruct (String.eqb name "bybit").
  { destruct (Hfinish "bybit"
                (fun rest_url ws_url =>
                   {| ca_api_key := cfg_get "api_key" x';
                      ca_api_secret := cfg_get "api_secret" x';
                      ca_passphrase := None;
                      ca_testnet := Environment_eqb env TESTNET;
                      ca_base_url := rest_url;
                      ca_ws_url := ws_url |}))
      as (r & evs & E & Hevs);
      [left; reflexivity | intros; repeat split|].
    exists r, evs, x'. repeat split; assumption. }
  destruct (String.eqb name "okx").
  { destruct (Hfinish "okx"
                (fun rest_url ws_url =>
                   {| ca_api_key := cfg_get "api_key" x';
                      ca_api_secret := cfg_get "api_secret" x';
                      ca_passphrase := Some (cfg_get "passphrase" x');
                      ca_testnet := Environment_eqb env TESTNET;
                      ca_base_url := rest_url;
                      ca_ws_url := ws_url |}))
      as (r & evs & E & Hevs);
      [right; left; reflexivity | intros; repeat split|].
    exists r, evs, x'. repeat split; assumption. }
  destruct (String.eqb name "binance").
  { destruct (Hfinish "binance"
                (fun rest_url ws_url =>
                   {| ca_api_key := cfg_get "api_key" x';
                      ca_api_secret := cfg_get "api_secret" x';
                      ca_passphrase := None;
                      ca_testnet := Environment_eqb env TESTNET;
                      ca_base_url := rest_url;
                      ca_ws_url := ws_url |}))
      as (r & evs & E & Hevs);
      [right; right; left; reflexivity | intros; repeat split|].
    exists r, evs, x'. repeat split; assumption. }
  exists (Returned None), [EvLoadEnvConfig path], x'.
  split; [reflexivity|]. split; [|split; assumption].
  cbn [forallb]. rewrite Hpath. reflexivity.
Qed.

(** The loop of [_setup_exchanges] over the dictionaries that follow
    [done] in the configuration: only the factory is called, for the
    current environment, and nothing but the trace and those dictionaries
    changes. *)
Lemma _setup_exchanges_loop_frame (todo : list ExchangeConfig) :
  forall done acc tr (s : State),
  exists r evs todo',
    _setup_exchanges_loop W (length done) todo acc
      (with_setup (done ++ todo) tr s) =
      (r, with_setup (done ++ todo') (tr ++ evs) s) /\
    forallb (is_factory_call (EnvManager.get_environment (env_manager s)))
      evs = true /\
    Forall2 refreshed todo todo' /\
    ((forall tr' path, fs_load_json W tr' path = None) -> todo' = todo).
Proof.
  induction todo as [|x rest IH]; intros done acc tr s; simpl.
  - exists (Returned acc), [], []. rewrite !app_nil_r.
    split; [reflexivity|]. split; [reflexivity|].
    split; [constructor | reflexivity].
  - assert (Hnext : forall acc' x' tr',
      refreshed x x' ->
      ((forall tr0 path, fs_load_json W tr0 path = None) -> x' = x) ->
      exists r evs todo',
        _setup_exchanges_loop W (S (length done)) rest acc'
          (with_setup (done ++ x' :: rest) tr' s) =
          (r, with_setup (done ++ todo') (tr' ++ evs) s) /\
        forallb (is_factory_call
                   (EnvManager.get_environment (env_manager s))) evs = true /\
        Forall2 refreshed (x :: rest) todo' /\
        ((forall tr0 path, fs_load_json W tr0 path = None) ->
         todo' = x :: rest)).
    { intros acc' x' tr' Hx Hxnone.
      destruct (IH (done ++ [x']) acc' tr' s)
        as (r & evs & rest' & E & Hevs & Hrest & Hnone).
      rewrite length_app, Nat.add_1_r, <- !app_assoc in E. simpl in E.
      exists r, evs, (x' :: rest').
      split; [exact E|]. split; [exact Hevs|].
      split; [constructor; assumption|].
      intro H. rewrite (Hxnone H), (Hnone H). reflexivity. }
    destruct (str_truthy (cfg_name x)); simpl.
    2:{ apply Hnext; [left; reflexivity | reflexivity]. }
    unfold bind.
    destruct (create_connector_frame (cfg_name x) done x rest tr s)
      as (r1 & evs1 & x' & -> & Hevs1 & Hx & Hxnone).
    destruct r1 as [e|[c|]].
    + exists (Raised e), evs1, (x' :: rest).
      split; [reflexivity|]. split; [exact Hevs1|].
      split; [constructor; [exact Hx | apply refreshed_refl]|].
      intro H. rewrite (Hxnone H). reflexivity.
    + destruct (Hnext (dict_set (cfg_name x) c acc) x' (tr ++ evs1)
                  Hx Hxnone)
        as (r & evs & todo' & -> & Hevs & Htodo & Hnone).
      exists r, (evs1 ++ evs), todo'. rewrite <- app_assoc.
      split; [reflexivity|].
      split; [rewrite forallb_app, Hevs1, Hevs; reflexivity|].
      split; assumption.
    + destruct (Hnext acc x' (tr ++ evs1) Hx Hxnone)
        as (r & evs & todo' & -> & Hevs & Htodo & Hnone).
      exists r, (evs1 ++ evs), todo'. rewrite <- app_assoc.
      split; [reflexivity|].
      split; [rewrite forallb_app, Hevs1, Hevs; reflexivity|].
      split; assumption.
Qed.

(** [_setup_exchanges] on the router's own configuration. *)
Lemma _setup_exchanges_frame (s : State) :
  exists r evs cfgs,
    _setup_exchanges W (config_exchanges (router s)) s =
      (r, with_setup cfgs (sys_trace s ++ evs) s) /\
    forallb (is_factory_call (EnvManager.get_environment (env_manager s)))
      evs = true /\
    Forall2 refreshed (config_exchanges (router s)) cfgs /\
    ((forall tr path, fs_load_json W tr path = None) ->
     cfgs = config_exchanges (router s)).
Proof.
  destruct (_setup_exchanges_loop_frame (config_exchanges (router s)) [] []
              (sys_trace s) s) as (r & evs & cfgs & E & H).
  simpl in E. rewrite with_setup_id in E.
  exists r, evs, cfgs. split; [exact E | exact H].
Qed.

(** C4.  [handle_env_change] returns false and changes nothing when the
    target is the current environment, and when no target is given and
    [should_switch_to_mainnet] is false.  Otherwise it runs
    [close_all_positions], then [switch_environment] on the target, then
    rebuilds the connectors, in that order.  The drain places and records
    the exit order of every position of the book, in the order of the
    book; the positions whose exit failed stay in the book and make it
    report false, and the switch and the rebuild follow whatever it
    reported.  The rebuild calls the connector factory for the target
    environment, which may write environment files over the configuration
    dictionaries; [handle_env_change] returns true when the rebuild
    completes (and raises what a connector constructor raised
    otherwise). *)
Theorem handle_env_change_protocol
    (target_env : option Environment) (s : State) :
  let current := EnvManager.get_environment (env_manager s) in
  (target_env = Some current ->
   handle_env_change W target_env s = (Returned false, s))
  /\ (target_env = None ->
      EnvManager.should_switch_to_mainnet W (env_manager s) = false ->
      handle_env_change W target_env s = (Returned false, s))
  /\ (forall target,
       target_env = Some target \/
       (target_env = None /\ target = MAINNET /\
        EnvManager.should_switch_to_mainnet W (env_manager s) = true) ->
       target <> current ->
       exists closed s1 s2 r s3 evs_close path cfg evs_setup recs book cfgs,
         let book0 := active_positions (router s) in
         let exits := place_records recs in
         close_all_positions W s = (Returned closed, s1) /\
         lift_em (EnvManager.switch_environment W (Some target)) s1
           = (Returned true, s2) /\
         _setup_exchanges W (config_exchanges (router s)) s2 = (r, s3) /\
         handle_env_change W target_env s =
           match r with
           | Returned exchanges => (Returned true, set_exchanges exchanges s3)
           | Raised e => (Raised e, s3)
           end /\
         sys_trace s1 = sys_trace s ++ evs_close /\
         forallb is_order_call evs_close = true /\
         sys_trace s2 =
           sys_trace s1
           ++ [EvSwitchTotalInc; EvCurrentEnvSet (gauge_of target);
               EvSaveConfig path cfg] /\
         sc_environment cfg = target /\
         EnvManager.get_environment (env_manager s2) = target /\
         ENV_SWITCH_TOTAL (EnvManager.ext (env_manager s2))
           = ENV_SWITCH_TOTAL (EnvManager.ext (env_manager s)) + 1 /\
         sys_trace s3 = sys_trace s2 ++ evs_setup /\
         forallb (is_factory_call target) evs_setup = true /\
         s1 = with_book (order_history (router s) ++ recs)
                (sys_trace s ++ evs_close) book s /\
         map rec_params exits = exit_orders book0 /\
         (NoDup (map fst book0) ->
          book = remaining book0 (map exit_failed exits) /\
          closed = forallb (fun r => negb (exit_failed r)) exits) /\
         router s2 = router s1 /\
         s3 = with_setup cfgs (sys_trace s2 ++ evs_setup) s2 /\
         Forall2 refreshed (config_exchanges (router s)) cfgs).
Proof.
  intro current. split; [|split].
  - intros ->. unfold handle_env_change, bind, gets, ret. fold current.
    destruct current; reflexivity.
  - intros -> Hno. unfold handle_env_change, bind, gets, ret.
    rewrite Hno. reflexivity.
  - intros target Htarget Hneq.
    assert (Heqb : Environment_eqb current target = false).
    { destruct current, target; try reflexivity; exfalso; apply Hneq;
        reflexivity. }
    destruct (close_all_positions_drain s)
      as (closed & recs & evs_close & book & Eclose & Hclose & Hexits
          & Hbook).
    set (s1 := with_book (order_history (router s) ++ recs)
                 (sys_trace s ++ evs_close) book s) in *.
    destruct (lift_em (EnvManager.switch_environment W (Some target)) s1)
      as [rs s2] eqn:Eswitch.
    assert (Hswitch : rs = Returned true /\
      sys_trace s2 =
        sys_trace s1
        ++ [EvSwitchTotalInc; EvCurrentEnvSet (gauge_of target);
            EvSaveConfig
              (EnvManager.config_path
                 (EnvManager.settings (EnvManager.mgr (env_manager s))))
              {| sc_environment := target;
                 sc_auto_switch_enabled :=
                   EnvManager.auto_switch_enabled
                     (EnvManager.settings (EnvManager.mgr (env_manager s)));
                 sc_testnet_duration_hours :=
                   EnvManager.testnet_duration_hours
                     (EnvManager.settings (EnvManager.mgr (env_manager s)));
                 sc_min_trades_for_switch :=
                   EnvManager.min_trades_for_switch
                     (EnvManager.settings (EnvManager.mgr (env_manager s)));
                 sc_max_drawdown_pct_for_switch :=
                   EnvManager.max_drawdown_pct_for_switch
                     (EnvManager.settings (EnvManager.mgr (env_manager s)))
              |}] /\
      EnvManager.get_environment (env_manager s2) = target /\
      ENV_SWITCH_TOTAL (EnvManager.ext (env_manager s2))
        = ENV_SWITCH_TOTAL (EnvManager.ext (env_manager s)) + 1 /\
      router s2 = router s1).
    { unfold lift_em, EnvManager.switch_environment in Eswitch.
      change (EnvManager.get_environment (env_manager s1))
        with current in Eswitch.
      rewrite Heqb in Eswitch.
      unfold bind, ret, EnvManager.set_environment, EnvManager._save_config
        in Eswitch.
      simpl in Eswitch. injection Eswitch as <- <-.
      unfold sys_trace, gauge_of. simpl. rewrite <- app_assoc.
      repeat split. }
    destruct Hswitch as (-> & Htr2 & Henv2 & Hcount2 & Hrouter2).
    assert (Hcfg2 : config_exchanges (router s2) = config_exchanges (router s))
      by (rewrite Hrouter2; reflexivity).
    destruct (_setup_exchanges_frame s2)
      as (r & evs_setup & cfgs & Esetup & Hsetup & Hcfgs & _).
    rewrite Hcfg2 in Esetup, Hcfgs. rewrite Henv2 in Hsetup.
    eexists closed, s1, s2, r, _, evs_close, _, _, evs_setup, recs, book,
      cfgs.
    cbv zeta.
    split; [exact Eclose|]. split; [exact Eswitch|].
    split; [exact Esetup|].
    split.
    { unfold handle_env_change. unfold bind at 1, gets at 1. fold current.
      unfold bind at 1.
      assert (Etarget :
        match target_env with
        | Some e => ret (Some e)
        | None =>
            should <- gets (fun s0 : State =>
                        EnvManager.should_switch_to_mainnet W (env_manager s0)) ;;
            (if should then ret (Some MAINNET) else ret None)
        end s = (Returned (Some target), s)).
      { destruct Htarget as [-> | (-> & -> & Hyes)].
        - reflexivity.
        - unfold bind, gets, ret. rewrite Hyes. reflexivity. }
      rewrite Etarget, Heqb.
      unfold bind at 1. rewrite Eclose.
      unfold bind at 1. rewrite Eswitch.
      unfold bind at 1, gets at 1. rewrite Hcfg2.
      unfold bind at 1. rewrite Esetup.
      destruct r; reflexivity. }
    split; [reflexivity|]. split; [exact Hclose|].
    split; [exact Htr2|]. split; [reflexivity|].
    split; [exact Henv2|]. split; [exact Hcount2|].
    split; [reflexivity|]. split; [exact Hsetup|].
    split; [reflexivity|]. split; [exact Hexits|].
    split; [exact Hbook|]. split; [exact Hrouter2|].
    split; [reflexivity | exact Hcfgs].
Qed.

(** ** Performance metrics *)

(** The poll always returns; it changes the trace and, when a connector
    answered with a usable equity, [current_equity]. *)
Lemma poll_equity_total (names : list string) :
  forall h tr (s : State),
  exists evs oq,
    poll_equity W names (with_log h tr s) =
      (Returned tt,
       match oq with
       | Some q => set_current_equity q (with_log h (tr ++ evs) s)
       | None => with_log h (tr ++ evs) s
       end).
Proof.
  induction names as [|name rest IH]; intros h tr s; simpl.
  - exists [], None. rewrite app_nil_r. reflexivity.
  - unfold try_catch, bind at 1, gets at 1.
    change (exchanges (router (with_log h tr s))) with (exchanges (router s)).
    destruct (dict_get name (exchanges (router s))) as [ex|].
    2:{ apply IH. }
    run.
    destruct (conn_get_account_info W tr ex) as [e|info].
    { destruct (IH h (tr ++ [EvGetAccountInfo ex]) s) as (evs & oq & ->).
      exists (EvGetAccountInfo ex :: evs), oq. rewrite <- app_assoc.
      reflexivity. }
    unfold float_equity.
    destruct (ai_equity info) as [[q|]|]; run.
    + exists [EvGetAccountInfo ex], (Some q). reflexivity.
    + destruct (IH h (tr ++ [EvGetAccountInfo ex]) s) as (evs & oq & ->).
      exists (EvGetAccountInfo ex :: evs), oq. rewrite <- app_assoc.
      reflexivity.
    + exists [EvGetAccountInfo ex], (Some 0%Q). reflexivity.
Qed.

Lemma dict_get_of_entry {V : Type} (k : string) (v : V)
    (d : list (string * V)) :
  NoDup (map fst d) -> In (k, v) d -> dict_get k d = Some v.
Proof.
  induction d as [|[k' v'] rest IH]; simpl; intros Hnd Hin; [contradiction|].
  inversion Hnd as [|? ? Hnotin Hnd']; subst.
  destruct Hin as [Heq | Hin].
  - injection Heq as -> ->. rewrite String.eqb_refl. reflexivity.
  - destruct (String.eqb k k') eqn:E.
    + apply String.eqb_eq in E. subst k'. exfalso. apply Hnotin.
      apply (in_map fst) in Hin. exact Hin.
    + exact (IH Hnd' Hin).
Qed.

Lemma poll_equity_all_raise (s : State) (rest : list (string * Connector)) :
  (forall n c, In (n, c) rest ->
               dict_get n (exchanges (router s)) = Some c) ->
  forall h tr,
    all_info_raise W tr (map snd rest) ->
    poll_equity W (map fst rest) (with_log h tr s) =
      (Returned tt,
       with_log h (tr ++ map EvGetAccountInfo (map snd rest)) s).
Proof.
  induction rest as [|[n c] rest IH]; intros Hget h tr Hall; simpl.
  - rewrite app_nil_r. reflexivity.
  - unfold try_catch, bind at 1, gets at 1.
    change (exchanges (router (with_log h tr s))) with (exchanges (router s)).
    rewrite (Hget n c (or_introl eq_refl)).
    simpl in Hall. destruct Hall as [[e He] Hall].
    run. rewrite He.
    rewrite IH.
    + rewrite <- app_assoc. reflexivity.
    + intros n' c' Hin. apply Hget. right. exact Hin.
    + exact Hall.
Qed.

Lemma new_drawdown_ge (equity peak drawdown : Q) :
  (drawdown <= new_drawdown equity peak drawdown)%Q.
Proof.
  unfold new_drawdown. destruct (Qgtb peak 0).
  - apply py_max_ge_left.
  - apply Qle_refl.
Qed.

(** What one call of [update_performance_metrics] does to the
    accumulators, in terms of the equity it ends with. *)
Lemma update_performance_metrics_step (s : State) :
  exists s',
    update_performance_metrics W s = (Returned tt, s') /\
    peak_equity (router s') =
      new_peak (current_equity (router s')) (peak_equity (router s)) /\
    max_drawdown_pct (router s') =
      new_drawdown (current_equity (router s')) (peak_equity (router s'))
        (max_drawdown_pct (router s)) /\
    total_trades (router s') = total_trades (router s) /\
    EnvManager.current_equity (EnvManager.mgr (env_manager s'))
      = current_equity (router s') /\
    EnvManager.trade_count (EnvManager.mgr (env_manager s'))
      = total_trades (router s') /\
    EnvManager.max_drawdown_pct (EnvManager.mgr (env_manager s'))
      = max_drawdown_pct (router s').
Proof.
  unfold update_performance_metrics, try_catch, bind at 1, gets at 1.
  unfold bind at 1.
  destruct (poll_equity_total (map fst (exchanges (router s)))
              (order_history (router s)) (sys_trace s) s) as (evs & oq & E).
  rewrite with_log_id in E. rewrite E.
  destruct oq as [q|]; eexists; (split; [reflexivity|]); simpl;
    repeat split.
Qed.

(** C7.  [update_performance_metrics] keeps [max_drawdown_pct] as a running
    maximum: after a call it is the larger of its old value and
    [(peak_equity - current_equity) / peak_equity * 100] (taken with the
    updated peak, when that is positive), so it never decreases.  For the
    observed equities 1000, 1200, 900, 1100 from the zero state it is 25
    after 900 and still 25 after 1100. *)
Theorem max_drawdown_is_high_water_mark :
  (forall s : State,
     exists s',
       update_performance_metrics W s = (Returned tt, s') /\
       let equity := current_equity (router s') in
       let peak := peak_equity (router s') in
       peak = py_max (peak_equity (router s)) equity /\
       max_drawdown_pct (router s') =
         (if Qgtb peak 0
          then py_max (max_drawdown_pct (router s))
                 ((peak - equity) / peak * 100)%Q
          else max_drawdown_pct (router s)) /\
       (max_drawdown_pct (router s) <= max_drawdown_pct (router s'))%Q)
  /\ (forall s0 s1 s2 s3 s4 : State,
       peak_equity (router s0) = 0%Q ->
       max_drawdown_pct (router s0) = 0%Q ->
       snd (update_performance_metrics W s0) = s1 ->
       snd (update_performance_metrics W s1) = s2 ->
       snd (update_performance_metrics W s2) = s3 ->
       snd (update_performance_metrics W s3) = s4 ->
       current_equity (router s1) = 1000%Q ->
       current_equity (router s2) = 1200%Q ->
       current_equity (router s3) = 900%Q ->
       current_equity (router s4) = 1100%Q ->
       (max_drawdown_pct (router s3) == 25)%Q /\
       (max_drawdown_pct (router s4) == 25)%Q).
Proof.
  split.
  - intro s.
    destruct (update_performance_metrics_step s)
      as (s' & E & Hpeak & Hdd & _).
    exists s'. split; [exact E|]. cbv zeta.
    split; [exact Hpeak|]. split; [exact Hdd|].
    rewrite Hdd. apply new_drawdown_ge.
  - intros s0 s1 s2 s3 s4 Hp0 Hd0 H1 H2 H3 H4 Hc1 Hc2 Hc3 Hc4.
    destruct (update_performance_metrics_step s0)
      as (s1' & E1 & Hpeak1 & Hdd1 & _).
    rewrite E1 in H1. simpl in H1. subst s1'.
    destruct (update_performance_metrics_step s1)
      as (s2' & E2 & Hpeak2 & Hdd2 & _).
    rewrite E2 in H2. simpl in H2. subst s2'.
    destruct (update_performance_metrics_step s2)
      as (s3' & E3 & Hpeak3 & Hdd3 & _).
    rewrite E3 in H3. simpl in H3. subst s3'.
    destruct (update_performance_metrics_step s3)
      as (s4' & E4 & Hpeak4 & Hdd4 & _).
    rewrite E4 in H4. simpl in H4. subst s4'.
    rewrite Hc1, Hp0 in Hpeak1. rewrite Hpeak1, Hc1, Hd0 in Hdd1.
    rewrite Hc2, Hpeak1 in Hpeak2. rewrite Hpeak2, Hc2, Hdd1 in Hdd2.
    rewrite Hc3, Hpeak2 in Hpeak3. rewrite Hpeak3, Hc3, Hdd2 in Hdd3.
    rewrite Hc4, Hpeak3 in Hpeak4. rewrite Hpeak4, Hc4, Hdd3 in Hdd4.
    rewrite Hdd3, Hdd4. split; vm_compute; reflexivity.
Qed.

(** C10.  If the [get_account_info] call of every configured exchange
    raises during [update_performance_metrics], the method still returns;
    every exchange was asked once, in map order; [current_equity] keeps the
    value it had, the peak and the drawdown are recomputed from that value,
    and the environment manager receives the equity, the trade count and
    the drawdown of the router. *)
Theorem update_performance_metrics_with_stale_equity (s : State) :
  NoDup (map fst (exchanges (router s))) ->
  all_info_raise W (sys_trace s) (map snd (exchanges (router s))) ->
  exists s',
    update_performance_metrics W s = (Returned tt, s') /\
    sys_trace s' =
      sys_trace s ++ map EvGetAccountInfo (map snd (exchanges (router s))) /\
    current_equity (router s') = current_equity (router s) /\
    peak_equity (router s') =
      py_max (peak_equity (router s)) (current_equity (router s)) /\
    max_drawdown_pct (router s') =
      (if Qgtb (peak_equity (router s')) 0
       then py_max (max_drawdown_pct (router s))
              ((peak_equity (router s') - current_equity (router s))
               / peak_equity (router s') * 100)%Q
       else max_drawdown_pct (router s)) /\
    EnvManager.current_equity (EnvManager.mgr (env_manager s'))
      = current_equity (router s) /\
    EnvManager.trade_count (EnvManager.mgr (env_manager s'))
      = total_trades (router s) /\
    EnvManager.max_drawdown_pct (EnvManager.mgr (env_manager s'))
      = max_drawdown_pct (router s').
Proof.
  intros Hnd Hall.
  unfold update_performance_metrics, try_catch, bind at 1, gets at 1.
  unfold bind at 1.
  pose proof (poll_equity_all_raise s (exchanges (router s))
                (fun n c => dict_get_of_entry n c _ Hnd)
                (order_history (router s)) (sys_trace s) Hall) as E.
  rewrite with_log_id in E. rewrite E.
  eexists. split; [reflexivity|]. simpl. repeat split.
Qed.

(** C8.  [get_new_trade_count] consumes the increase of the order history:
    once it has been called, after [length rs] further records it returns
    [length rs] and moves its baseline [total_trades] to the length of the
    history, so that calling it again at once returns 0. *)
Theorem get_new_trade_count_consumes
    (s s2 : State) (rs : list OrderRecord) :
  let s1 := snd (get_new_trade_count s) in
  order_history (router s2) = order_history (router s1) ++ rs ->
  total_trades (router s2) = total_trades (router s1) ->
  exists s3,
    get_new_trade_count s2 = (Returned (Z.of_nat (length rs)), s3) /\
    total_trades (router s3) = Z.of_nat (length (order_history (router s2))) /\
    order_history (router s3) = order_history (router s2) /\
    get_new_trade_count s3 = (Returned 0, s3).
Proof.
  intros s1 Hh Ht.
  unfold get_new_trade_count at 1. eexists. split; [|split; [|split]].
  - f_equal. f_equal. rewrite Hh, Ht. subst s1. simpl.
    rewrite length_app, Nat2Z.inj_add.
    replace (Z.of_nat (length (order_history (router s)))
             + Z.of_nat (length rs)
             - Z.of_nat (length (order_history (router s))))
      with (Z.of_nat (length rs)) by lia.
    unfold py_max0. destruct (0 <? Z.of_nat (length rs)) eqn:E.
    + reflexivity.
    + apply Z.ltb_ge in E. lia.
  - reflexivity.
  - reflexivity.
  - unfold get_new_trade_count. simpl. rewrite Z.sub_diag. reflexivity.
Qed.

End RouterProperties.

(** * The statements on the concrete deployment *)

Lemma should_switch_to_mainnet_criteria_witness :
  let W := Scenario.world [] [] (SigWait "no_signal") in
  EnvManager.should_switch_to_mainnet W (Scenario.manager 20 2) = true /\
  EnvManager.should_switch_to_mainnet W (Scenario.manager 20 5) = false /\
  EnvManager.should_switch_to_mainnet W (Scenario.manager 5 2) = false.
Proof.
  intro W. split; [|split].
  - apply (proj1 (proj1
             (should_switch_to_mainnet_criteria W (Scenario.manager 20 2)))).
    repeat split; try reflexivity; try (vm_compute; discriminate).
  - apply (proj2 (proj2 (proj2 (proj2 (proj2
             (should_switch_to_mainnet_criteria W (Scenario.manager 20 5))))))).
    reflexivity.
  - apply (proj1 (proj2 (proj2 (proj2 (proj2
             (should_switch_to_mainnet_criteria W (Scenario.manager 5 2))))))).
    reflexivity.
Defined.

(** C5 (as stated) fails for [set_environment]: called with the current
    environment it counts a switch, moves [last_switch_time] and writes the
    environment file. *)
Lemma set_environment_same_environment_counterexample :
  let W := Scenario.world [] [] (SigWait "no_signal") in
  let st := Scenario.manager 0 0 in
  EnvManager.get_environment st = TESTNET /\
  exists st',
    EnvManager.set_environment W TESTNET true st = (Returned tt, st') /\
    ENV_SWITCH_TOTAL (EnvManager.ext st')
      <> ENV_SWITCH_TOTAL (EnvManager.ext st) /\
    EnvManager.last_switch_time (EnvManager.mgr st')
      <> EnvManager.last_switch_time (EnvManager.mgr st) /\
    config_file (EnvManager.ext st') <> config_file (EnvManager.ext st).
Proof.
  intros W st. split; [reflexivity|].
  eexists. split; [reflexivity|].
  repeat split; vm_compute; discriminate.
Qed.

Lemma switch_environment_same_noop_set_environment_unguarded_witness :
  let W := Scenario.world [] [] (SigWait "no_signal") in
  let st := Scenario.manager 0 0 in
  EnvManager.switch_environment W (Some TESTNET) st = (Returned false, st) /\
  ENV_SWITCH_TOTAL
    (EnvManager.ext (snd (EnvManager.set_environment W TESTNET true st))) = 1.
Proof.
  intros W st.
  pose proof (switch_environment_same_noop_set_environment_unguarded
                W st TESTNET) as [Hswitch (st' & Hset & _ & Hcount & _)].
  split; [exact Hswitch|].
  rewrite Hset. exact Hcount.
Defined.


Lemma update_and_cancel_do_not_fail_over_witness :
  let W := Scenario.world ["bybit"] [] (SigWait "no_signal") in
  let s := Scenario.state [] in
  let bybit := Scenario.connector "bybit" in
  let u := {| up_stop_price := 95 |} in
  Router.get_exchange (Some (Router.name_or_primary None s)) s = Some bybit /\
  conn_update_order W [] bybit "stop-1" u = Raised "bybit unavailable" /\
  conn_cancel_order W [] bybit "stop-1" = Raised "bybit unavailable" /\
  (exists rec,
     Router.update_order W "stop-1" u None s =
       (Returned (error_response "bybit unavailable"),
        with_log [rec] [EvUpdateOrder bybit "stop-1" u] s) /\
     rec_status rec = "failed") /\
  (exists rec,
     Router.cancel_order W "stop-1" None s =
       (Returned (error_response "bybit unavailable"),
        with_log [rec] [EvCancelOrder bybit "stop-1"] s) /\
     rec_status rec = "failed").
Proof.
  intros W s bybit u.
  assert (Hex : Router.get_exchange (Some (Router.name_or_primary None s)) s
                = Some bybit) by reflexivity.
  assert (Hu : conn_update_order W (Router.sys_trace s) bybit "stop-1" u
               = Raised "bybit unavailable") by reflexivity.
  assert (Hc : conn_cancel_order W (Router.sys_trace s) bybit "stop-1"
               = Raised "bybit unavailable") by reflexivity.
  split; [exact Hex|]. split; [exact Hu|]. split; [exact Hc|].
  destruct (update_and_cancel_do_not_fail_over W "stop-1" u None s bybit Hex)
    as [Hupdate Hcancel].
  split.
  - destruct (Hupdate _ Hu) as (rec & E & Hst & _).
    exists rec. split; [exact E | exact Hst].
  - destruct (Hcancel _ Hc) as (rec & E & Hst & _).
    exists rec. split; [exact E | exact Hst].
Defined.

Lemma get_new_trade_count_consumes_witness :
  let W := Scenario.world [] [] (SigWait "no_signal") in
  let s := Scenario.state [] in
  let s1 := snd (Router.get_new_trade_count s) in
  let s2 := snd (Router.place_order W Scenario.market_buy None s1) in
  let rs := Router.order_history (Router.router s2) in
  Router.order_history (Router.router s2)
    = Router.order_history (Router.router s1) ++ rs /\
  Router.total_trades (Router.router s2)
    = Router.total_trades (Router.router s1) /\
  exists s3,
    Router.get_new_trade_count s2 = (Returned 1, s3) /\
    Router.get_new_trade_count s3 = (Returned 0, s3).
Proof.
  intros W s s1 s2 rs.
  assert (Hh : Router.order_history (Router.router s2)
               = Router.order_history (Router.router s1) ++ rs)
    by reflexivity.
  assert (Ht : Router.total_trades (Router.router s2)
               = Router.total_trades (Router.router s1)) by reflexivity.
  split; [exact Hh|]. split; [exact Ht|].
  destruct (get_new_trade_count_consumes s s2 rs Hh Ht)
    as (s3 & E & _ & _ & E0).
  exists s3. split; [exact E | exact E0].
Defined.

Lemma open_signal_entry_then_stop_witness :
  (let W := Scenario.world [] []
              (SigOpen "long" 1 100 95 "trend_following_long") in
   let s := Scenario.state [] in
   let s1 := snd (Router.update_market_data W "BTCUSDT" "1h" 500 s) in
   let r2 := fst (Router.update_account_equity W s1) in
   let s2 := snd (Router.update_account_equity W s1) in
   let bybit := Scenario.connector "bybit" in
   Router.has_strategy (Router.router s) = true /\
   Router.update_market_data W "BTCUSDT" "1h" 500 s = (Returned true, s1) /\
   Router.update_account_equity W s1 = (r2, s2) /\
   strat_generate_signal W (Router.sys_trace s2)
     = Returned (SigOpen "long" 1 100 95 "trend_following_long") /\
   exists s',
     Router.execute_strategy W "BTCUSDT" "1h" s =
       (Returned (ExecOpen "long" 1 100 95
                    (Scenario.accepted bybit "market")
                    (Scenario.accepted bybit "stop_market")), s') /\
     dict_get "BTCUSDT" (Router.active_positions (Router.router s')) =
       Some {| pos_side := "long"; pos_size := 1; pos_entry_price := 100;
               pos_stop_loss := 95;
               pos_stop_order_id := "bybit-stop_market";
               pos_entry_time := Scenario.hours 72;
               pos_entry_order_id := "bybit-market";
               pos_exchange := None |})
  /\
  (let W := Scenario.rejecting op_reduce_only
              (Scenario.world [] []
                 (SigOpen "long" 1 100 95 "trend_following_long")) in
   let s := Scenario.state [] in
   let s1 := snd (Router.update_market_data W "BTCUSDT" "1h" 500 s) in
   let r2 := fst (Router.update_account_equity W s1) in
   let s2 := snd (Router.update_account_equity W s1) in
   let bybit := Scenario.connector "bybit" in
   let entry := Router.entry_params "BTCUSDT" "long" 1 in
   let stop := Router.stop_params "BTCUSDT" "long" 1 95 in
   Router.has_strategy (Router.router s) = true /\
   Router.update_market_data W "BTCUSDT" "1h" 500 s = (Returned true, s1) /\
   Router.update_account_equity W s1 = (r2, s2) /\
   strat_generate_signal W (Router.sys_trace s2)
     = Returned (SigOpen "long" 1 100 95 "trend_following_long") /\
   exists msg s',
     Router.execute_strategy W "BTCUSDT" "1h" s =
       (Returned (ExecError msg), s') /\
     Router.active_positions (Router.router s') = [] /\
     filter is_order_call (Router.sys_trace s') =
       [EvPlaceOrder bybit entry;
        EvPlaceOrder bybit stop;
        EvPlaceOrder (Scenario.connector "okx") stop;
        EvPlaceOrder (Scenario.connector "binance") stop;
        EvCancelOrder bybit "bybit-market"] /\
     map rec_type (Router.order_history (Router.router s')) =
       [None; None; Some "cancel"]).
Proof.
  split.
  - intros W s s1 r2 s2 bybit.
    assert (H1 : Router.has_strategy (Router.router s) = true) by reflexivity.
    assert (H2 : Router.update_market_data W "BTCUSDT" "1h" 500 s
                 = (Returned true, s1)) by reflexivity.
    assert (H3 : Router.update_account_equity W s1 = (r2, s2)) by reflexivity.
    assert (H4 : strat_generate_signal W (Router.sys_trace s2)
                 = Returned (SigOpen "long" 1 100 95 "trend_following_long"))
      by reflexivity.
    split; [exact H1|]. split; [exact H2|]. split; [exact H3|].
    split; [exact H4|].
    destruct (open_signal_entry_then_stop W "BTCUSDT" "1h" s s1 s2 r2
                "long" 1 100 95 "trend_following_long" H1 H2 H3 H4)
      as (_ & entry & recE & csE & Eentry & _ & Hok).
    assert (He : Returned (Scenario.accepted bybit "market") = Returned entry).
    { change (Returned (Scenario.accepted bybit "market"))
        with (fst (Router.place_order W
                     (Router.entry_params "BTCUSDT" "long" 1) None
                     (Router.log EvGenerateSignal s2))).
      rewrite Eentry. reflexivity. }
    injection He as <-.
    destruct (Hok eq_refl) as (stop & recS & csS & Estop & _ & Hok2).
    assert (Hs : Returned (Scenario.accepted bybit "stop_market")
                 = Returned stop).
    { assert (HsE : snd (Router.place_order W
                           (Router.entry_params "BTCUSDT" "long" 1) None
                           (Router.log EvGenerateSignal s2))
                    = with_log (Router.order_history (Router.router s) ++ [recE])
                        (Router.sys_trace (Router.log EvGenerateSignal s2)
                         ++ place_events
                              (Router.entry_params "BTCUSDT" "long" 1) csE) s)
        by (rewrite Eentry; reflexivity).
      rewrite <- HsE in Estop.
      change (Returned (Scenario.accepted bybit "stop_market"))
        with (fst (Router.place_order W
                     (Router.stop_params "BTCUSDT" "long" 1 95) None
                     (snd (Router.place_order W
                             (Router.entry_params "BTCUSDT" "long" 1) None
                             (Router.log EvGenerateSignal s2))))).
      rewrite Estop. reflexivity. }
    injection Hs as <-.
    eexists. split; [exact (Hok2 eq_refl)|]. reflexivity.
  - intros W s s1 r2 s2 bybit pe ps. subst pe ps.
    assert (H1 : Router.has_strategy (Router.router s) = true) by reflexivity.
    assert (H2 : Router.update_market_data W "BTCUSDT" "1h" 500 s
                 = (Returned true, s1)) by reflexivity.
    assert (H3 : Router.update_account_equity W s1 = (r2, s2))
      by reflexivity.
    assert (H4 : strat_generate_signal W (Router.sys_trace s2)
                 = Returned (SigOpen "long" 1 100 95 "trend_following_long"))
      by reflexivity.
    split; [exact H1|]. split; [exact H2|]. split; [exact H3|].
    split; [exact H4|].
    destruct (open_signal_entry_then_stop W "BTCUSDT" "1h" s s1 s2 r2
                "long" 1 100 95 "trend_following_long" H1 H2 H3 H4)
      as (_ & entry & recE & csE & Eentry & _ & Hok).
    assert (He : Returned (Scenario.accepted bybit "market") = Returned entry).
    { change (Returned (Scenario.accepted bybit "market"))
        with (fst (Router.place_order W (Router.entry_params "BTCUSDT" "long" 1) None
                     (Router.log EvGenerateSignal s2))).
      rewrite Eentry. reflexivity. }
    injection He as <-.
    destruct (Hok eq_refl) as (stop & recS & csS & Estop & Hfail & _).
    assert (Hs : Returned (error_response "order rejected") = Returned stop).
    { assert (HsE : snd (Router.place_order W (Router.entry_params "BTCUSDT" "long" 1) None
                           (Router.log EvGenerateSignal s2))
                    = with_log
                        (Router.order_history (Router.router s) ++ [recE])
                        (Router.sys_trace (Router.log EvGenerateSignal s2)
                         ++ place_events (Router.entry_params "BTCUSDT" "long" 1) csE) s)
        by (rewrite Eentry; reflexivity).
      rewrite <- HsE in Estop.
      change (Returned (error_response "order rejected"))
        with (fst (Router.place_order W (Router.stop_params "BTCUSDT" "long" 1 95) None
                     (snd (Router.place_order W (Router.entry_params "BTCUSDT" "long" 1) None
                             (Router.log EvGenerateSignal s2))))).
      rewrite Estop. reflexivity. }
    injection Hs as <-.
    destruct (Hfail eq_refl)
      as (msg & primary & resp & recC & _ & _ & _ & _ & _ & Hexec).
    exists msg, (snd (Router.execute_strategy W "BTCUSDT" "1h" s)).
    split; [rewrite Hexec; reflexivity|].
    split; [reflexivity|]. split; reflexivity.
Defined.

Lemma close_or_update_stop_when_flat_is_warning_witness :
  (let W := Scenario.world [] [] (SigClose "long" "trend_reversal") in
   let s := Scenario.state [] in
   let s1 := snd (Router.update_market_data W "BTCUSDT" "1h" 500 s) in
   let r2 := fst (Router.update_account_equity W s1) in
   let s2 := snd (Router.update_account_equity W s1) in
   Router.has_strategy (Router.router s) = true /\
   Router.update_market_data W "BTCUSDT" "1h" 500 s = (Returned true, s1) /\
   Router.update_account_equity W s1 = (r2, s2) /\
   strat_generate_signal W (Router.sys_trace s2)
     = Returned (SigClose "long" "trend_reversal") /\
   dict_get "BTCUSDT" (Router.active_positions (Router.router s)) = None /\
   exists msg evs,
     Router.execute_strategy W "BTCUSDT" "1h" s =
       (Returned (ExecWarning msg), with_log [] evs s) /\
     no_order_call evs = true)
  /\
  (let W := Scenario.world [] []
              (SigUpdateStop "long" 96 "trailing_stop_update") in
   let s := Scenario.state [("BTCUSDT", Scenario.unprotected_long)] in
   let s1 := snd (Router.update_market_data W "BTCUSDT" "1h" 500 s) in
   let r2 := fst (Router.update_account_equity W s1) in
   let s2 := snd (Router.update_account_equity W s1) in
   Router.has_strategy (Router.router s) = true /\
   Router.update_market_data W "BTCUSDT" "1h" 500 s = (Returned true, s1) /\
   Router.update_account_equity W s1 = (r2, s2) /\
   strat_generate_signal W (Router.sys_trace s2)
     = Returned (SigUpdateStop "long" 96 "trailing_stop_update") /\
   (exists position,
      dict_get "BTCUSDT" (Router.active_positions (Router.router s))
        = Some position /\
      pos_stop_order_id position = "") /\
   exists msg evs,
     Router.execute_strategy W "BTCUSDT" "1h" s =
       (Returned (ExecWarning msg), with_log [] evs s) /\
     no_order_call evs = true).
Proof.
  split.
  - intros W s s1 r2 s2.
    assert (H1 : Router.has_strategy (Router.router s) = true) by reflexivity.
    assert (H2 : Router.update_market_data W "BTCUSDT" "1h" 500 s
                 = (Returned true, s1)) by reflexivity.
    assert (H3 : Router.update_account_equity W s1 = (r2, s2))
      by reflexivity.
    assert (H4 : strat_generate_signal W (Router.sys_trace s2)
                 = Returned (SigClose "long" "trend_reversal"))
      by reflexivity.
    assert (H5 : dict_get "BTCUSDT"
                   (Router.active_positions (Router.router s)) = None)
      by reflexivity.
    repeat (split; [assumption|]).
    destruct (proj1 (close_or_update_stop_when_flat_is_warning W
                       "BTCUSDT" "1h" s s1 s2 r2 H1 H2 H3) _ _ H4 H5)
      as (msg & evs & E & _ & Hevs).
    exists msg, evs. split; [exact E | exact Hevs].
  - intros W s s1 r2 s2.
    assert (H1 : Router.has_strategy (Router.router s) = true) by reflexivity.
    assert (H2 : Router.update_market_data W "BTCUSDT" "1h" 500 s
                 = (Returned true, s1)) by reflexivity.
    assert (H3 : Router.update_account_equity W s1 = (r2, s2))
      by reflexivity.
    assert (H4 : strat_generate_signal W (Router.sys_trace s2)
                 = Returned (SigUpdateStop "long" 96 "trailing_stop_update"))
      by reflexivity.
    assert (H5 : exists position,
               dict_get "BTCUSDT" (Router.active_positions (Router.router s))
                 = Some position /\
               pos_stop_order_id position = "").
    { exists Scenario.unprotected_long. split; reflexivity. }
    repeat (split; [assumption|]).
    destruct (proj2 (close_or_update_stop_when_flat_is_warning W
                       "BTCUSDT" "1h" s s1 s2 r2 H1 H2 H3) _ _ _ H4
                (or_intror H5))
      as (msg & evs & E & _ & Hevs).
    exists msg, evs. split; [exact E | exact Hevs].
Defined.

Lemma handle_env_change_protocol_witness :
  let W := Scenario.with_env_files Scenario.mainnet_files
             (Scenario.rejecting
                (fun p => String.eqb (op_symbol p) "ETHUSDT")
                (Scenario.world [] [] (SigWait "no_signal"))) in
  let s := Scenario.state [("BTCUSDT", Scenario.protected_long);
                           ("ETHUSDT", Scenario.eth_long)] in
  let bybit := Scenario.connector "bybit" in
  let exit_btc := Router.exit_params "BTCUSDT" Scenario.protected_long in
  let exit_eth := Router.exit_params "ETHUSDT" Scenario.eth_long in
  Router.handle_env_change W (Some TESTNET) s = (Returned false, s) /\
  (EnvManager.should_switch_to_mainnet W (Router.env_manager s) = false /\
   Router.handle_env_change W None s = (Returned false, s)) /\
  (MAINNET <> EnvManager.get_environment (Router.env_manager s) /\
   NoDup (map fst (Router.active_positions (Router.router s))) /\
   exists s1 s',
     Router.close_all_positions W s = (Returned false, s1) /\
     Router.handle_env_change W (Some MAINNET) s = (Returned true, s') /\
     EnvManager.get_environment (Router.env_manager s') = MAINNET /\
     Router.active_positions (Router.router s')
       = [("ETHUSDT", Scenario.eth_long)] /\
     Router.sys_trace s' =
       [EvPlaceOrder bybit exit_btc;
        EvCancelOrder bybit "bybit-stop_market";
        EvPlaceOrder bybit exit_eth;
        EvPlaceOrder (Scenario.connector "okx") exit_eth;
        EvPlaceOrder (Scenario.connector "binance") exit_eth;
        EvSwitchTotalInc; EvCurrentEnvSet 1;
        EvSaveConfig "config/env.yaml"
          {| sc_environment := MAINNET;
             sc_auto_switch_enabled := true;
             sc_testnet_duration_hours := 48;
             sc_min_trades_for_switch := 10;
             sc_max_drawdown_pct_for_switch := 4 |};
        EvLoadEnvConfig "config/mainnet/bybit.json";
        EvCreateConnector "bybit"
          {| ca_api_key := "live_key"; ca_api_secret := "live_secret";
             ca_passphrase := None; ca_testnet := false;
             ca_base_url := "https://api.bybit.com";
             ca_ws_url := "wss://stream.bybit.com" |};
        EvLoadEnvConfig "config/mainnet/okx.json";
        EvCreateConnector "okx"
          {| ca_api_key := "test_key"; ca_api_secret := "test_secret";
             ca_passphrase := Some ""; ca_testnet := false;
             ca_base_url := "https://www.okx.com/api/v5";
             ca_ws_url := "wss://ws.okx.com:8443/ws/v5/public" |};
        EvLoadEnvConfig "config/mainnet/binance.json";
        EvCreateConnector "binance"
          {| ca_api_key := "test_key"; ca_api_secret := "test_secret";
             ca_passphrase := None; ca_testnet := false;
             ca_base_url := "https://api.binance.com/api";
             ca_ws_url := "wss://stream.binance.com:9443/ws" |}] /\
     Router.config_exchanges (Router.router s') =
       [[("name", "bybit"); ("api_key", "live_key");
         ("api_secret", "live_secret")];
        Scenario.exchange_config "okx"; Scenario.exchange_config "binance"] /\
     Router.exchanges (Router.router s') =
       [("bybit", {| conn_exchange := "bybit"; conn_env := MAINNET |});
        ("okx", {| conn_exchange := "okx"; conn_env := MAINNET |});
        ("binance", {| conn_exchange := "binance"; conn_env := MAINNET |})]).
Proof.
  intros W s bybit exit_btc exit_eth.
  pose proof (handle_env_change_protocol W (Some TESTNET) s) as (Hsame & _).
  pose proof (handle_env_change_protocol W None s) as (_ & Hnone & _).
  pose proof (handle_env_change_protocol W (Some MAINNET) s) as (_ & _ & Hgo).
  assert (Hno : EnvManager.should_switch_to_mainnet W (Router.env_manager s)
                = false) by reflexivity.
  assert (Hneq : MAINNET <> EnvManager.get_environment (Router.env_manager s))
    by discriminate.
  split; [exact (Hsame eq_refl)|].
  split; [split; [exact Hno | exact (Hnone eq_refl Hno)]|].
  split; [exact Hneq|].
  split.
  { repeat constructor; simpl; intuition discriminate. }
  destruct (Hgo MAINNET (or_introl eq_refl) Hneq)
    as (closed & s1 & s2 & r & s3 & evs_close & path & cfg & evs_setup
        & recs & book & cfgs & Eclose & Eswitch & Esetup & Ehandle & _).
  assert (Ec : Returned closed = fst (Router.close_all_positions W s))
    by (rewrite Eclose; reflexivity).
  vm_compute in Ec. injection Ec as ->.
  assert (Es1 : s1 = snd (Router.close_all_positions W s))
    by (rewrite Eclose; reflexivity).
  assert (Es2 : s2 = snd (Router.lift_em
                            (EnvManager.switch_environment W (Some MAINNET))
                            s1))
    by (rewrite Eswitch; reflexivity).
  assert (Er : (r, s3) = Router._setup_exchanges W
                           (Router.config_exchanges (Router.router s)) s2)
    by (rewrite Esetup; reflexivity).
  rewrite Es2, Es1 in Er. vm_compute in Er. injection Er as -> ->.
  exists s1. eexists. split; [exact Eclose|].
  split; [exact Ehandle|]. repeat split.
Defined.

Lemma max_drawdown_is_high_water_mark_witness :
  let W := Scenario.world [] [1000; 1200; 900; 1100]%Q (SigWait "no_signal") in
  let s0 := Scenario.state [] in
  let s1 := snd (Router.update_performance_metrics W s0) in
  let s2 := snd (Router.update_performance_metrics W s1) in
  let s3 := snd (Router.update_performance_metrics W s2) in
  let s4 := snd (Router.update_performance_metrics W s3) in
  Router.peak_equity (Router.router s0) = 0%Q /\
  Router.max_drawdown_pct (Router.router s0) = 0%Q /\
  Router.current_equity (Router.router s1) = 1000%Q /\
  Router.current_equity (Router.router s2) = 1200%Q /\
  Router.current_equity (Router.router s3) = 900%Q /\
  Router.current_equity (Router.router s4) = 1100%Q /\
  (Router.max_drawdown_pct (Router.router s3) == 25)%Q /\
  (Router.max_drawdown_pct (Router.router s4) == 25)%Q.
Proof.
  intros W s0 s1 s2 s3 s4.
  assert (Hp : Router.peak_equity (Router.router s0) = 0%Q) by reflexivity.
  assert (Hd : Router.max_drawdown_pct (Router.router s0) = 0%Q)
    by reflexivity.
  assert (H1 : Router.current_equity (Router.router s1) = 1000%Q)
    by reflexivity.
  assert (H2 : Router.current_equity (Router.router s2) = 1200%Q)
    by reflexivity.
  assert (H3 : Router.current_equity (Router.router s3) = 900%Q)
    by reflexivity.
  assert (H4 : Router.current_equity (Router.router s4) = 1100%Q)
    by reflexivity.
  repeat (split; [assumption|]).
  exact (proj2 (max_drawdown_is_high_water_mark W) s0 s1 s2 s3 s4
           Hp Hd eq_refl eq_refl eq_refl eq_refl H1 H2 H3 H4).
Defined.

Lemma update_performance_metrics_with_stale_equity_witness :
  let W := Scenario.world ["bybit"; "okx"; "binance"] []
             (SigWait "no_signal") in
  let s := Scenario.state [] in
  NoDup (map fst (Router.exchanges (Router.router s))) /\
  all_info_raise W (Router.sys_trace s)
    (map snd (Router.exchanges (Router.router s))) /\
  exists s',
    Router.update_performance_metrics W s = (Returned tt, s') /\
    Router.current_equity (Router.router s')
      = Router.current_equity (Router.router s) /\
    EnvManager.current_equity (EnvManager.mgr (Router.env_manager s'))
      = Router.current_equity (Router.router s).
Proof.
  intros W s.
  assert (Hnd : NoDup (map fst (Router.exchanges (Router.router s)))).
  { repeat constructor; simpl; intuition discriminate. }
  assert (Hall : all_info_raise W (Router.sys_trace s)
                   (map snd (Router.exchanges (Router.router s)))).
  { repeat split; eexists; reflexivity. }
  split; [exact Hnd|]. split; [exact Hall|].
  destruct (update_performance_metrics_with_stale_equity W s Hnd Hall)
    as (s' & E & _ & Hcur & _ & _ & Hem & _).
  exists s'. split; [exact E|]. split; [exact Hcur | exact Hem].
Defined.

(** * Further properties of the router, the environment manager and their
      collaborators *)

Section MoreRouterProperties.
Variable W : World.

Import Router.

Ltac step :=
  unfold bind, ret, gets, modify, try_catch, call_place_order, extern,
    time_time; simpl;
  rewrite ?log_with_log, ?append_history_with_log, ?sys_trace_with_log.

(** ** More on order operations *)


Lemma others_shorter {V : Type} (name : string) (v : V)
    (d : list (string * V)) :
  dict_get name d = Some v ->
  (S (length (filter (fun kv => negb (String.eqb (fst kv) name)) d))
   <= length d)%nat.
Proof.
  induction d as [|[k v'] rest IH]; simpl; [discriminate|].
  destruct (String.eqb name k) eqn:E.
  - intros _. apply String.eqb_eq in E. subst k.
    rewrite String.eqb_refl. simpl.
    apply le_n_S. apply filter_length_le.
  - intro H. rewrite String.eqb_sym, E. simpl.
    apply le_n_S. exact (IH H).
Qed.

Lemma NoDup_keys_filter {V : Type} (f : string * V -> bool)
    (d : list (string * V)) :
  NoDup (map fst d) -> NoDup (map fst (filter f d)).
Proof.
  induction d as [|kv rest IH]; simpl; intro H; [constructor|].
  inversion H as [|? ? Hnotin Hnd]; subst.
  destruct (f kv); simpl; [|exact (IH Hnd)].
  constructor; [|exact (IH Hnd)].
  intro Hin. apply Hnotin.
  apply in_map_iff in Hin. destruct Hin as (kv' & Hk & Hin).
  apply filter_In in Hin. destruct Hin as [Hin _].
  rewrite <- Hk. apply in_map. exact Hin.
Qed.

Lemma name_or_primary_idem (exchange_name : option string) (s : State) :
  name_or_primary (Some (name_or_primary exchange_name s)) s
  = name_or_primary exchange_name s.
Proof.
  unfold name_or_primary.
  destruct exchange_name as [n|];
    [destruct (str_truthy n) eqn:E; [rewrite E; reflexivity|]|];
    destruct (str_truthy (primary_exchange (router s))); reflexivity.
Qed.

Lemma attempt_order_bounded (exchange_name : option string) (s : State) :
  (length (attempt_order exchange_name s) <= length (exchanges (router s)))%nat
  /\ (NoDup (map fst (exchanges (router s))) ->
      NoDup (map fst (attempt_order exchange_name s))).
Proof.
  unfold attempt_order, resolved, get_exchange, others_of.
  set (name := name_or_primary exchange_name s).
  destruct (dict_get (name_or_primary (Some name) s) (exchanges (router s)))
    as [c|] eqn:Eex.
  - assert (Hsame : name_or_primary (Some name) s = name)
      by apply name_or_primary_idem.
    rewrite Hsame in Eex. simpl. split.
    + exact (others_shorter name c _ Eex).
    + intro Hnd. constructor.
      * intro Hin. apply in_map_iff in Hin.
        destruct Hin as ([k v] & Hk & Hin). simpl in Hk. subst k.
        apply filter_In in Hin. destruct Hin as [_ Hin]. simpl in Hin.
        rewrite String.eqb_refl in Hin. discriminate.
      * apply NoDup_keys_filter. exact Hnd.
  - simpl. split.
    + apply filter_length_le.
    + apply NoDup_keys_filter.
Qed.

(** X2.  [place_order] always returns, and the connector calls it makes are
    [place_order] calls on a prefix of: the resolved exchange, then the
    other configured exchanges in map order.  So it makes at most as many
    calls as there are configured exchanges, and never calls an exchange
    twice. *)
Theorem place_order_tries_each_exchange_at_most_once
    (p : OrderParams) (exchange_name : option string) (s : State) :
  exists resp rec cs rest,
    place_order W p exchange_name s =
      (Returned resp,
       with_log (order_history (router s) ++ [rec])
         (sys_trace s ++ place_events p cs) s) /\
    attempt_order exchange_name s = cs ++ rest /\
    (length cs <= length (exchanges (router s)))%nat /\
    (NoDup (map fst (exchanges (router s))) -> NoDup (map fst cs)).
Proof.
  destruct (attempt_order_bounded exchange_name s) as [Hlen Hnd].
  assert (Hpre : forall cs rest,
    attempt_order exchange_name s = cs ++ rest ->
    (length cs <= length (exchanges (router s)))%nat /\
    (NoDup (map fst (exchanges (router s))) -> NoDup (map fst cs))).
  { intros cs rest Hsplit. rewrite Hsplit in Hlen, Hnd. split.
    - rewrite length_app in Hlen. lia.
    - intro H. specialize (Hnd H). rewrite map_app in Hnd.
      exact (NoDup_app_remove_r _ _ Hnd). }
  destruct (all_raise_or_first_success W p (attempt_order exchange_name s)
              (sys_trace s))
    as [Hall | (pre & n & c & post & resp & Hord & Hraise & Hc)].
  - pose proof (place_order_exhausted W p exchange_name
                  (order_history (router s)) (sys_trace s) s Hall) as E.
    rewrite with_log_id in E.
    eexists _, _, (attempt_order exchange_name s), [].
    split; [exact E|]. split; [rewrite app_nil_r; reflexivity|].
    apply (Hpre _ []). rewrite app_nil_r. reflexivity.
  - pose proof (place_order_first_success W p exchange_name pre n c post resp
                  (order_history (router s)) (sys_trace s) s Hord Hraise Hc)
      as E.
    rewrite with_log_id in E.
    eexists resp, _, (pre ++ [(n, c)]), post.
    split; [rewrite E, place_events_app; reflexivity|].
    split; [rewrite <- app_assoc; exact Hord|].
    apply (Hpre _ post). rewrite <- app_assoc. exact Hord.
Qed.

(** X3.  [update_order] and [cancel_order] on an exchange that is not
    configured return [{'status': 'error', 'message': "Exchange '...' not
    found"}] and do nothing else: no connector is called and, unlike
    [place_order], no record is appended to the order history. *)
Theorem update_and_cancel_on_unknown_exchange
    (order_id : string) (u : UpdateParams) (p : OrderParams)
    (exchange_name : option string) (s : State) :
  get_exchange (Some (name_or_primary exchange_name s)) s = None ->
  update_order W order_id u exchange_name s =
    (Returned (error_response
                 (not_found_message (name_or_primary exchange_name s))), s)
  /\ cancel_order W order_id exchange_name s =
       (Returned (error_response
                    (not_found_message (name_or_primary exchange_name s))), s)
  /\ exists resp rec tr',
       place_order W p exchange_name s =
         (Returned resp,
          with_log (order_history (router s) ++ [rec]) tr' s).
Proof.
  intro Hex. split; [|split].
  - unfold update_order, bind, gets, ret. rewrite Hex. reflexivity.
  - unfold cancel_order, bind, gets, ret. rewrite Hex. reflexivity.
  - destruct (place_order_total W p exchange_name s)
      as (resp & rec & cs & E).
    eexists _, _, _. exact E.
Qed.

Lemma new_trades_after_append (n : nat) (k : nat) :
  py_max0 (Z.of_nat (n + k) - Z.of_nat n) = Z.of_nat k.
Proof.
  rewrite Nat2Z.inj_add.
  replace (Z.of_nat n + Z.of_nat k - Z.of_nat n) with (Z.of_nat k) by lia.
  unfold py_max0. destruct (0 <? Z.of_nat k) eqn:E; [reflexivity|].
  apply Z.ltb_ge in E. lia.
Qed.

(** X4.  Every [place_order] call counts as one new trade for
    [get_new_trade_count], whatever its outcome: also a call on which every
    exchange failed, which appends a failed record, makes the next
    [get_new_trade_count] return 1. *)
Theorem every_place_order_counts_as_a_trade
    (p : OrderParams) (exchange_name : option string) (s : State) :
  let s1 := snd (get_new_trade_count s) in
  let s2 := snd (place_order W p exchange_name s1) in
  exists resp s3,
    fst (place_order W p exchange_name s1) = Returned resp /\
    get_new_trade_count s2 = (Returned 1, s3) /\
    total_trades (router s3) = total_trades (router s1) + 1.
Proof.
  intros s1 s2.
  destruct (place_order_total W p exchange_name s1)
    as (resp & rec & cs & E).
  exists resp. eexists. split; [rewrite E; reflexivity|].
  subst s2. rewrite E. unfold get_new_trade_count. simpl.
  rewrite length_app. simpl.
  rewrite (new_trades_after_append _ 1). split; [reflexivity|].
  rewrite Nat2Z.inj_add. reflexivity.
Qed.

(** ** More on the data refresh and on one strategy tick *)

(** X5.  [update_market_data] and [update_account_equity] always return;
    they never place, update or cancel an order and leave the order
    history, the position book, the connectors and the environment manager
    as they were: only the trace of calls grows. *)
Theorem data_refresh_changes_nothing_but_the_trace
    (symbol timeframe : string) (limit : Z) (s : State) :
  (exists b evs,
     update_market_data W symbol timeframe limit s =
       (Returned b, with_log (order_history (router s)) (sys_trace s ++ evs) s)
     /\ no_order_call evs = true)
  /\ (exists b evs,
       update_account_equity W s =
         (Returned b,
          with_log (order_history (router s)) (sys_trace s ++ evs) s)
       /\ no_order_call evs = true).
Proof.
  split.
  - apply update_market_data_total.
  - apply update_account_equity_total.
Qed.

(** X6.  Without a strategy, or when the primary exchange is not among the
    configured exchanges, [update_market_data] and [update_account_equity]
    return False at once: no exchange is asked, not even the other
    configured ones, and the state is untouched. *)
Theorem data_refresh_needs_strategy_and_primary
    (symbol timeframe : string) (limit : Z) (s : State) :
  has_strategy (router s) = false \/ get_exchange None s = None ->
  update_market_data W symbol timeframe limit s = (Returned false, s) /\
  update_account_equity W s = (Returned false, s).
Proof.
  intro H.
  unfold update_market_data, update_account_equity, bind, gets, ret.
  destruct (has_strategy (router s)); simpl; [|split; reflexivity].
  destruct H as [H | H]; [discriminate|].
  rewrite H. split; reflexivity.
Qed.

Lemma update_market_data_failover_klines (symbol timeframe : string)
    (limit : Z) (pre : list (string * Connector)) n c post candles :
  forall h tr s,
    all_klines_raise W symbol timeframe limit tr (map snd pre) ->
    conn_get_klines W
      (tr ++ klines_events symbol timeframe limit (map snd pre))
      c symbol timeframe limit = Returned candles ->
    strat_update_data W
      (tr ++ klines_events symbol timeframe limit (map snd pre)
       ++ [EvGetKlines c symbol timeframe limit]) candles = Returned tt ->
    update_market_data_failover W symbol timeframe limit
      (pre ++ (n, c) :: post) (with_log h tr s) =
      (Returned true,
       with_log h
         (tr ++ klines_events symbol timeframe limit (map snd pre)
          ++ [EvGetKlines c symbol timeframe limit; EvUpdateData candles])
         s).
Proof.
  induction pre as [|[n0 c0] rest IH]; intros h tr s Hpre Hc Hfeed;
    simpl in *.
  - rewrite app_nil_r in Hc. unfold load_market_data. step.
    rewrite Hc. step. rewrite Hfeed.
    rewrite <- app_assoc. reflexivity.
  - destruct Hpre as [[e He] Hrest]. unfold load_market_data. step.
    rewrite He.
    rewrite (IH h _ s Hrest).
    + rewrite <- !app_assoc. reflexivity.
    + rewrite <- app_assoc. exact Hc.
    + rewrite <- !app_assoc. exact Hfeed.
Qed.

(** X7.  Market-data failover.  When [get_klines] raises on the primary
    exchange, the other configured exchanges are asked in map order; if
    those before [c] raise as well and [c] returns candles the strategy
    accepts, [update_market_data] returns True and the strategy has been
    fed the candles of [c] (and of no other exchange). *)
Theorem update_market_data_fails_over
    (symbol timeframe : string) (limit : Z) (s : State)
    (c0 : Connector) (pre : list (string * Connector)) n c post candles :
  has_strategy (router s) = true ->
  get_exchange None s = Some c0 ->
  others_of (primary_exchange (router s)) s = pre ++ (n, c) :: post ->
  all_klines_raise W symbol timeframe limit (sys_trace s)
    (c0 :: map snd pre) ->
  let asked :=
    sys_trace s ++ klines_events symbol timeframe limit (c0 :: map snd pre) in
  conn_get_klines W asked c symbol timeframe limit = Returned candles ->
  strat_update_data W (asked ++ [EvGetKlines c symbol timeframe limit])
    candles = Returned tt ->
  update_market_data W symbol timeframe limit s =
    (Returned true,
     with_log (order_history (router s))
       (asked ++ [EvGetKlines c symbol timeframe limit; EvUpdateData candles])
       s).
Proof.
  intros Hstrat Hex Hothers Hall asked Hc Hfeed.
  destruct Hall as [[e He] Hpre].
  rewrite <- (with_log_id s) at 1.
  unfold update_market_data, bind at 1, gets at 1.
  change (has_strategy (router (with_log _ _ s)))
    with (has_strategy (router s)).
  rewrite Hstrat. simpl.
  unfold bind at 1, gets at 1.
  change (get_exchange None (with_log _ _ s)) with (get_exchange None s).
  rewrite Hex. unfold try_catch, bind at 1, load_market_data at 1.
  unfold bind at 1, extern at 1. rewrite sys_trace_with_log, He.
  rewrite log_with_log.
  unfold bind at 1, gets at 1. unfold bind at 1, gets at 1.
  change (others_of (primary_exchange (router (with_log _ _ s)))
            (with_log _ _ s))
    with (others_of (primary_exchange (router s)) s).
  rewrite Hothers.
  subst asked. simpl in Hc, Hfeed.
  rewrite (update_market_data_failover_klines symbol timeframe limit
             pre n c post candles _ _ s Hpre).
  - simpl. rewrite <- !app_assoc. reflexivity.
  - rewrite <- app_assoc. exact Hc.
  - rewrite <- !app_assoc. simpl. rewrite <- !app_assoc in Hfeed.
    exact Hfeed.
Qed.

(** X8.  [update_account_equity] reads the equity with
    [balance.get('equity', 0.0)]: when the balance of the primary exchange
    has no equity entry, the strategy is given an equity of 0 and the call
    still returns True. *)
Theorem update_account_equity_defaults_to_zero (s : State) (c0 : Connector) :
  has_strategy (router s) = true ->
  get_exchange None s = Some c0 ->
  conn_get_account_balance W (sys_trace s) c0 = Returned None ->
  strat_update_equity W (sys_trace s ++ [EvGetAccountBalance c0]) 0
    = Returned tt ->
  update_account_equity W s =
    (Returned true,
     with_log (order_history (router s))
       (sys_trace s ++ [EvGetAccountBalance c0; EvUpdateEquity 0]) s).
Proof.
  intros Hstrat Hex Hbal Hfeed.
  rewrite <- (with_log_id s) at 1.
  unfold update_account_equity, bind at 1, gets at 1.
  change (has_strategy (router (with_log _ _ s)))
    with (has_strategy (router s)).
  rewrite Hstrat. simpl.
  unfold bind at 1, gets at 1.
  change (get_exchange None (with_log _ _ s)) with (get_exchange None s).
  rewrite Hex. unfold try_catch, bind at 1, load_account_equity at 1.
  unfold bind at 1, extern at 1. rewrite sys_trace_with_log, Hbal.
  rewrite log_with_log. unfold extern.
  rewrite sys_trace_with_log, Hfeed, log_with_log, <- app_assoc.
  reflexivity.
Qed.

(** X9.  [execute_strategy] stops before any order is placed in three
    cases.  Without a strategy it returns an error and does nothing.  When
    the market data could not be refreshed it returns an error as soon as
    the refresh is over (the strategy is not asked for a signal).  When
    [generate_signal] raises, the exception is not caught: it leaves
    [execute_strategy].  In all three cases no order call is made and the
    position book and the order history are unchanged. *)
Theorem execute_strategy_stops_before_orders
    (symbol timeframe : string) (s : State) :
  (has_strategy (router s) = false ->
   execute_strategy W symbol timeframe s =
     (Returned (ExecError "Strategy not initialized"), s))
  /\ (forall s1,
       has_strategy (router s) = true ->
       update_market_data W symbol timeframe 500 s = (Returned false, s1) ->
       execute_strategy W symbol timeframe s =
         (Returned (ExecError "Failed to update market data"), s1) /\
       exists evs,
         s1 = with_log (order_history (router s)) (sys_trace s ++ evs) s /\
         no_order_call evs = true)
  /\ (forall s1 r2 s2 e,
       has_strategy (router s) = true ->
       update_market_data W symbol timeframe 500 s = (Returned true, s1) ->
       update_account_equity W s1 = (r2, s2) ->
       strat_generate_signal W (sys_trace s2) = Raised e ->
       execute_strategy W symbol timeframe s
         = (Raised e, log EvGenerateSignal s2) /\
       exists evs,
         log EvGenerateSignal s2 =
           with_log (order_history (router s)) (sys_trace s ++ evs) s /\
         no_order_call evs = true).
Proof.
  split; [|split].
  - intro H. unfold execute_strategy, bind, gets, ret. rewrite H.
    reflexivity.
  - intros s1 Hstrat Hmd. split.
    + unfold execute_strategy, bind at 1, gets at 1. rewrite Hstrat. simpl.
      unfold bind at 1. rewrite Hmd. reflexivity.
    + destruct (update_market_data_total W symbol timeframe 500 s)
        as (b & evs & E & Hevs).
      rewrite Hmd in E. injection E as _ ->. exists evs.
      split; [reflexivity | exact Hevs].
  - intros s1 r2 s2 e Hstrat Hmd Heq Hsig.
    destruct (update_market_data_total W symbol timeframe 500 s)
      as (b & evs1 & E1 & Hevs1).
    rewrite Hmd in E1. injection E1 as _ Hs1.
    destruct (update_account_equity_total W s1) as (b2 & evs2 & E2 & Hevs2).
    rewrite Heq in E2. injection E2 as Hr2 Hs2.
    split.
    + unfold execute_strategy, bind at 1, gets at 1. rewrite Hstrat. simpl.
      unfold bind at 1. rewrite Hmd. simpl.
      unfold bind at 1. rewrite Heq, Hr2.
      unfold bind at 1, extern. rewrite Hsig. reflexivity.
    + exists (evs1 ++ evs2 ++ [EvGenerateSignal]). split.
      * rewrite Hs2, Hs1. rewrite log_with_log.
        change (sys_trace (with_log _ (sys_trace s ++ evs1) s))
          with (sys_trace s ++ evs1).
        rewrite <- !app_assoc. reflexivity.
      * rewrite !no_order_call_app, Hevs1, Hevs2. reflexivity.
Qed.

(** X10.  On a 'wait' or 'hold' signal [execute_strategy] passes the action
    and the reason through with status 'success'; no order call is made and
    nothing but the trace changes. *)
Theorem wait_and_hold_signals_pass_through
    (symbol timeframe : string) (s s1 s2 : State) (r2 : Exc bool)
    (sg : Signal) (reason : string) :
  has_strategy (router s) = true ->
  update_market_data W symbol timeframe 500 s = (Returned true, s1) ->
  update_account_equity W s1 = (r2, s2) ->
  strat_generate_signal W (sys_trace s2) = Returned sg ->
  sg = SigWait reason \/ sg = SigHold reason ->
  exists evs,
    execute_strategy W symbol timeframe s =
      (Returned (ExecNoAction (sig_action sg) reason),
       with_log (order_history (router s)) (sys_trace s ++ evs) s) /\
    exec_status (ExecNoAction (sig_action sg) reason) = "success" /\
    no_order_call evs = true.
Proof.
  intros Hstrat Hmd Heq Hsig Hsg.
  destruct (execute_strategy_dispatch W symbol timeframe s s1 s2 r2 sg
              Hstrat Hmd Heq Hsig) as (evs & Hevs & _ & ->).
  exists evs. destruct Hsg as [-> | ->]; repeat split; assumption.
Qed.

Lemma dict_get_deleted {V : Type} (k : string) (d : list (string * V)) :
  dict_get k (filter (fun kv => negb (String.eqb k (fst kv))) d) = None.
Proof.
  induction d as [|[k' v] rest IH]; simpl; [reflexivity|].
  destruct (String.eqb k k') eqn:E; simpl; [exact IH|].
  rewrite E. exact IH.
Qed.

Lemma dict_get_other_deleted {V : Type} (k other : string)
    (d : list (string * V)) :
  other <> k ->
  dict_get other (filter (fun kv => negb (String.eqb k (fst kv))) d)
  = dict_get other d.
Proof.
  intro Hneq.
  induction d as [|[k' v] rest IH]; simpl; [reflexivity|].
  destruct (String.eqb k k') eqn:E; simpl.
  - apply String.eqb_eq in E. subst k'.
    destruct (String.eqb other k) eqn:E2; [|exact IH].
    apply String.eqb_eq in E2. contradiction.
  - rewrite IH. reflexivity.
Qed.




(** X11.  On a 'close' signal for a symbol with an active position the
    exit order (reduce-only, opposite side, the recorded size) is placed.
    If that reports an error the result is an error and the position stays
    in the book.  Otherwise the stop order is cancelled when the position
    has a stop order id (no call at all when it has none), the symbol is
    removed from the book and the other positions are kept. *)
Theorem close_signal_closes_the_position
    (symbol timeframe : string) (s s1 s2 : State) (r2 : Exc bool)
    (side reason : string) (position : Position) :
  has_strategy (router s) = true ->
  update_market_data W symbol timeframe 500 s = (Returned true, s1) ->
  update_account_equity W s1 = (r2, s2) ->
  strat_generate_signal W (sys_trace s2) = Returned (SigClose side reason) ->
  dict_get symbol (active_positions (router s)) = Some position ->
  let pe := exit_params symbol position in
  let s0 := log EvGenerateSignal s2 in
  let h0 := order_history (router s) in
  op_reduce_only pe = true /\ op_quantity pe = pos_size position /\
  exists exit rec cs,
    let trE := sys_trace s0 ++ place_events pe cs in
    place_order W pe None s0 = (Returned exit, with_log (h0 ++ [rec]) trE s) /\
    (is_error exit = true ->
     exists msg,
       execute_strategy W symbol timeframe s =
         (Returned (ExecError msg), with_log (h0 ++ [rec]) trE s)) /\
    (is_error exit = false ->
     exists recs evs book,
       execute_strategy W symbol timeframe s =
         (Returned (ExecClose (pos_side position) (pos_size position) exit),
          with_book (h0 ++ [rec] ++ recs) (trE ++ evs) book s) /\
       dict_get symbol book = None /\
       (forall other, other <> symbol ->
          dict_get other book
          = dict_get other (active_positions (router s))) /\
       forallb is_order_call evs = true /\
       (pos_stop_order_id position = "" -> recs = [] /\ evs = [])).
Proof.
  intros Hstrat Hmd Heq Hsig Hpos pe s0 h0.
  split; [reflexivity|]. split; [reflexivity|].
  destruct (execute_strategy_dispatch W symbol timeframe s s1 s2 r2 _
              Hstrat Hmd Heq Hsig) as (evs0 & Hevs0 & Hs0 & Hexec).
  fold s0 in Hs0. rewrite Hexec. clear Hexec.
  set (tr0 := sys_trace s ++ evs0) in *.
  assert (Htr0 : sys_trace s0 = tr0) by (rewrite Hs0; reflexivity).
  rewrite Htr0, Hs0. subst h0.
  set (h0 := order_history (router s)) in *.
  destruct (place_order_total_on_log W pe None h0 tr0 s)
    as (exit & rec & cs & Eexit).
  exists exit, rec, cs. cbv zeta.
  split; [exact Eexit|].
  assert (Hp :
    process_signal W symbol (SigClose side reason) (with_log h0 tr0 s) =
    (if is_error exit
     then ret (ExecError ("Failed to close position: "
                          ++ py_str (r_message exit))%string)
     else
       (if str_truthy (pos_stop_order_id position)
        then cancel_order W (pos_stop_order_id position) None ;;; ret tt
        else ret tt) ;;;
       del_position symbol ;;;
       ret (ExecClose (pos_side position) (pos_size position) exit))
      (with_log (h0 ++ [rec]) (tr0 ++ place_events pe cs) s)).
  { unfold process_signal, bind at 1, gets at 1.
    change (active_positions (router (with_log h0 tr0 s)))
      with (active_positions (router s)).
    rewrite Hpos. fold pe. unfold bind at 1. rewrite Eexit. reflexivity. }
  rewrite Hp. clear Hp.
  split.
  - intro Herr. rewrite Herr. eexists. reflexivity.
  - intro Hok. rewrite Hok.
    assert (Hdel : dict_del symbol (active_positions (router s)) =
                   Some (filter (fun kv => negb (String.eqb symbol (fst kv)))
                           (active_positions (router s)))).
    { unfold dict_del, dict_mem. rewrite Hpos. reflexivity. }
    destruct (str_truthy (pos_stop_order_id position)) eqn:Etruthy.
    + destruct (cancel_order_total_on_log W (pos_stop_order_id position) None
                  (h0 ++ [rec]) (tr0 ++ place_events pe cs) s)
        as (resp & recs & evs & Ecancel & Hevs).
      exists recs, evs. eexists.
      split.
      { unfold bind at 1. unfold bind at 1. rewrite Ecancel.
        unfold ret at 1. unfold bind at 1, del_position.
        change (active_positions (router (with_log _ _ s)))
          with (active_positions (router s)).
        rewrite Hdel. unfold ret, with_book. rewrite <- !app_assoc.
        reflexivity. }
      split; [apply dict_get_deleted|].
      split; [intros other Hneq; apply dict_get_other_deleted; exact Hneq|].
      split; [exact Hevs|].
      intro Hid. rewrite Hid in Etruthy. discriminate.
    + exists [], []. eexists.
      split.
      { unfold bind at 1. unfold ret at 1. unfold bind at 1, del_position.
        change (active_positions (router (with_log _ _ s)))
          with (active_positions (router s)).
        rewrite Hdel. unfold ret, with_book. rewrite !app_nil_r.
        reflexivity. }
      split; [apply dict_get_deleted|].
      split; [intros other Hneq; apply dict_get_other_deleted; exact Hneq|].
      split; [reflexivity|]. intros _. split; reflexivity.
Qed.


(** ** More on draining positions and on building connectors *)

Lemma close_position_book (symbol : string) (position : Position)
    h tr d (s : State) :
  exists b h' evs d',
    close_position W symbol position (with_book h tr d s) =
      (Returned b, with_book (h ++ h') (tr ++ evs) d' s) /\
    forallb is_order_call evs = true /\
    ((b = true /\
      d' = filter (fun kv => negb (String.eqb symbol (fst kv))) d) \/
     (b = false /\ d' = d)).
Proof.
  unfold close_position, try_catch, bind at 1, gets at 1.
  set (exchange_name :=
         match pos_exchange position with
         | Some n => n
         | None => primary_exchange (router (with_book h tr d s))
         end).
  unfold bind at 1.
  destruct (place_order_total W (exit_params symbol position)
              (Some exchange_name) (with_book h tr d s))
    as (resp & rec & cs & ->).
  change (with_log _ _ (with_book h tr d s))
    with (with_book (h ++ [rec])
            (tr ++ place_events (exit_params symbol position) cs) d s).
  destruct (is_error resp).
  { exists false, [rec], (place_events (exit_params symbol position) cs), d.
    split; [reflexivity|].
    split; [apply place_events_are_order_calls | right; split; reflexivity]. }
  unfold bind at 1.
  assert (Hcancel : exists recs evs,
    (if str_truthy (pos_stop_order_id position)
     then cancel_order W (pos_stop_order_id position) (Some exchange_name)
          ;;; ret tt
     else ret tt)
      (with_book (h ++ [rec])
         (tr ++ place_events (exit_params symbol position) cs) d s) =
    (Returned tt,
     with_book ((h ++ [rec]) ++ recs)
       ((tr ++ place_events (exit_params symbol position) cs) ++ evs) d s) /\
    forallb is_order_call evs = true).
  { destruct (str_truthy (pos_stop_order_id position)).
    - unfold bind.
      destruct (cancel_order_total W (pos_stop_order_id position)
                  (Some exchange_name)
                  (with_book (h ++ [rec])
                     (tr ++ place_events (exit_params symbol position) cs)
                     d s))
        as (r & recs & evs & -> & Hevs).
      exists recs, evs. split; [reflexivity | exact Hevs].
    - exists [], []. rewrite !app_nil_r. split; reflexivity. }
  destruct Hcancel as (recs & evs & -> & Hevs).
  unfold bind at 1, del_position.
  change (active_positions (router (with_book _ _ d s))) with d.
  unfold dict_del.
  destruct (dict_mem symbol d).
  - exists true, ([rec] ++ recs),
      (place_events (exit_params symbol position) cs ++ evs),
      (filter (fun kv => negb (String.eqb symbol (fst kv))) d).
    rewrite !app_assoc. split; [reflexivity|].
    split; [|left; split; reflexivity].
    rewrite forallb_app, place_events_are_order_calls, Hevs.
    reflexivity.
  - exists false, ([rec] ++ recs),
      (place_events (exit_params symbol position) cs ++ evs), d.
    rewrite !app_assoc. split; [reflexivity|].
    split; [|right; split; reflexivity].
    rewrite forallb_app, place_events_are_order_calls, Hevs.
    reflexivity.
Qed.

(** The entries of [d] whose key is not among [symbols]. *)
Lemma filter_filter_keys {V : Type} (symbol : string) (symbols : list string)
    (d : list (string * V)) :
  filter (fun kv => negb (existsb (String.eqb (fst kv)) symbols))
    (filter (fun kv => negb (String.eqb symbol (fst kv))) d)
  = filter (fun kv => negb (existsb (String.eqb (fst kv)) (symbol :: symbols)))
      d.
Proof.
  induction d as [|[k v] rest IH]; simpl; [reflexivity|].
  rewrite (String.eqb_sym k symbol).
  destruct (String.eqb symbol k); simpl; rewrite IH; reflexivity.
Qed.

Lemma close_positions_loop_book (l : list (string * Position)) :
  forall success h tr d (s : State),
  exists b h' evs d',
    close_positions_loop W l success (with_book h tr d s) =
      (Returned b, with_book (h ++ h') (tr ++ evs) d' s) /\
    forallb is_order_call evs = true /\
    incl d' d /\
    (l = [] -> h' = [] /\ evs = []) /\
    (b = true ->
     success = true /\
     d' = filter (fun kv => negb (existsb (String.eqb (fst kv)) (map fst l)))
            d).
Proof.
  induction l as [|[symbol position] rest IH]; intros success h tr d s; simpl.
  - exists success, [], [], d. rewrite !app_nil_r.
    split; [reflexivity|]. split; [reflexivity|].
    split; [apply incl_refl|]. split; [intros _; split; reflexivity|].
    intro Hb. split; [exact Hb|].
    clear. induction d as [|kv d IH]; simpl; [reflexivity|].
    rewrite <- IH. reflexivity.
  - unfold bind.
    destruct (close_position_book symbol position h tr d s)
      as (b1 & h1 & evs1 & d1 & -> & Hevs1 & Hd1).
    destruct (IH (success && b1) (h ++ h1) (tr ++ evs1) d1 s)
      as (b & h2 & evs2 & d2 & -> & Hevs2 & Hincl & _ & Hb).
    exists b, (h1 ++ h2), (evs1 ++ evs2), d2.
    rewrite !app_assoc. split; [reflexivity|].
    split; [rewrite forallb_app, Hevs1, Hevs2; reflexivity|].
    split.
    { destruct Hd1 as [[_ ->] | [_ ->]]; [|exact Hincl].
      intros x Hx. apply Hincl in Hx. apply filter_In in Hx. tauto. }
    split; [discriminate|].
    intro Htrue. destruct (Hb Htrue) as [Hand Hd2].
    apply andb_true_iff in Hand. destruct Hand as [Hs Hb1].
    split; [exact Hs|].
    destruct Hd1 as [[_ ->] | [Hfalse _]]; [|congruence].
    rewrite Hd2. apply filter_filter_keys.
Qed.

Lemma filter_own_keys {V : Type} (d : list (string * V)) :
  filter (fun kv => negb (existsb (String.eqb (fst kv)) (map fst d))) d = [].
Proof.
  assert (G : forall l,
    incl l d ->
    filter (fun kv => negb (existsb (String.eqb (fst kv)) (map fst d))) l
    = []).
  { induction l as [|kv l IH]; intro Hincl; simpl; [reflexivity|].
    assert (Hin : existsb (String.eqb (fst kv)) (map fst d) = true).
    { apply existsb_exists. exists (fst kv). split.
      - apply in_map. apply Hincl. left. reflexivity.
      - apply String.eqb_refl. }
    rewrite Hin. simpl. apply IH.
    intros x Hx. apply Hincl. right. exact Hx. }
  apply G. apply incl_refl.
Qed.

(** X13.  [close_all_positions] always returns and makes order calls only.
    It never adds a position: the book it leaves is part of the book it
    found.  With an empty book it returns True without any call.  When it
    returns True the book is empty afterwards. *)
Theorem close_all_positions_drains_the_book (s : State) :
  exists b recs evs book,
    close_all_positions W s =
      (Returned b,
       with_book (order_history (router s) ++ recs) (sys_trace s ++ evs)
         book s) /\
    forallb is_order_call evs = true /\
    incl book (active_positions (router s)) /\
    (active_positions (router s) = [] ->
     b = true /\ recs = [] /\ evs = []) /\
    (b = true -> book = []).
Proof.
  unfold close_all_positions, bind, gets.
  destruct (active_positions (router s)) as [|kv rest] eqn:Epos.
  - exists true, [], [], []. rewrite !app_nil_r.
    rewrite <- Epos, with_book_id.
    split; [reflexivity|]. split; [reflexivity|].
    split; [rewrite Epos; apply incl_refl|].
    split; [intros _; repeat split | intros _; reflexivity].
  - rewrite <- Epos.
    destruct (close_positions_loop_book (active_positions (router s)) true
                (order_history (router s)) (sys_trace s)
                (active_positions (router s)) s)
      as (b & h' & evs & d' & E & Hevs & Hincl & _ & Hb).
    rewrite with_book_id in E. rewrite E.
    exists b, h', evs, d'. split; [reflexivity|].
    split; [exact Hevs|]. split; [exact Hincl|].
    split; [rewrite Epos; discriminate|].
    intro Htrue. destruct (Hb Htrue) as [_ ->]. apply filter_own_keys.
Qed.

Lemma dict_set_keys {V : Type} (k0 : string) (v : V) (d : list (string * V)) :
  (forall k, In k (map fst (dict_set k0 v d)) <->
             k = k0 \/ In k (map fst d))
  /\ (NoDup (map fst d) -> NoDup (map fst (dict_set k0 v d))).
Proof.
  induction d as [|[k' v'] rest [IHk IHn]]; simpl.
  - split.
    + intro k. split; intros [H | H]; auto; contradiction.
    + intros _. constructor; [intros [] | constructor].
  - destruct (String.eqb k0 k') eqn:E; simpl.
    + apply String.eqb_eq in E. subst k'. split.
      * intro k. split; intro H; [destruct H; auto | destruct H as [H | [H | H]]; auto].
      * intro H. exact H.
    + split.
      * intro k. rewrite IHk. tauto.
      * intro H. inversion H as [|? ? Hnotin Hnd]; subst.
        constructor; [|exact (IHn Hnd)].
        rewrite IHk. intros [Heq | Hin]; [|exact (Hnotin Hin)].
        subst k'. rewrite String.eqb_refl in E. discriminate.
Qed.

Lemma _setup_exchanges_loop_keys (cfgs : list ExchangeConfig) :
  forall ref acc (s : State) d s',
    _setup_exchanges_loop W ref cfgs acc s = (Returned d, s') ->
    (NoDup (map fst acc) -> NoDup (map fst d)) /\
    (forall k, In k (map fst d) ->
               In k (map fst acc) \/
               (k <> "" /\ In k (map cfg_name cfgs) /\
                In (py_lower k) ["bybit"; "okx"; "binance"])).
Proof.
  induction cfgs as [|cfg rest IH]; intros ref acc s d s' H; simpl in H.
  - injection H as <- _. split; [tauto | intros k Hk; left; exact Hk].
  - assert (Hlater : forall k,
      k <> "" /\ In k (map cfg_name rest) /\
      In (py_lower k) ["bybit"; "okx"; "binance"] ->
      k <> "" /\ In k (map cfg_name (cfg :: rest)) /\
      In (py_lower k) ["bybit"; "okx"; "binance"]).
    { intros k (Hne & Hin & Hsup).
      split; [exact Hne|]. split; [right; exact Hin | exact Hsup]. }
    destruct (str_truthy (cfg_name cfg)) eqn:Et; simpl in H.
    2:{ destruct (IH _ _ _ _ _ H) as [Hn Hk]. split; [exact Hn|].
        intros k Hin. destruct (Hk k Hin) as [Ha | Hr];
          [left; exact Ha | right; exact (Hlater k Hr)]. }
    assert (Hne : cfg_name cfg <> "").
    { intro Heq. rewrite Heq in Et. discriminate. }
    unfold bind in H.
    destruct (create_connector W (cfg_name cfg) ref s) as [[e|[c|]] s1]
      eqn:Ecc; [discriminate| |].
    + pose proof (create_connector_supported W _ _ _ _ _ Ecc) as Hsup.
      destruct (IH _ _ _ _ _ H) as [Hn Hk].
      destruct (dict_set_keys (cfg_name cfg) c acc) as [Hkeys Hnd].
      split; [intro Ha; exact (Hn (Hnd Ha))|].
      intros k Hin. destruct (Hk k Hin) as [Ha | Hr].
      * apply Hkeys in Ha. destruct Ha as [-> | Ha]; [|left; exact Ha].
        right. split; [exact Hne|]. split; [left; reflexivity | exact Hsup].
      * right. exact (Hlater k Hr).
    + destruct (IH _ _ _ _ _ H) as [Hn Hk]. split; [exact Hn|].
      intros k Hin. destruct (Hk k Hin) as [Ha | Hr];
        [left; exact Ha | right; exact (Hlater k Hr)].
Qed.

(** X14.  The connector dictionary [_setup_exchanges] builds from the
    router's configuration has distinct keys, each of them a non-empty name
    of the configuration that is bybit, okx or binance in some letter case.
    On the way only the connector factory runs, for the current
    environment.  Besides the trace, the run changes the configuration
    itself: a dictionary of the configuration is as before or has an
    environment file written over it, and nothing is written when no
    environment file exists. *)
Theorem _setup_exchanges_builds_a_dictionary
    (s : State) (d : list (string * Connector)) (s' : State) :
  let exchange_configs := config_exchanges (router s) in
  _setup_exchanges W exchange_configs s = (Returned d, s') ->
  NoDup (map fst d) /\
  (forall k, In k (map fst d) ->
             k <> "" /\ In k (map cfg_name exchange_configs) /\
             In (py_lower k) ["bybit"; "okx"; "binance"]) /\
  (length d <= length exchange_configs)%nat /\
  exists evs cfgs,
    s' = with_setup cfgs (sys_trace s ++ evs) s /\
    forallb (is_factory_call
               (EnvManager.get_environment (env_manager s))) evs = true /\
    Forall2 refreshed exchange_configs cfgs /\
    ((forall tr path, fs_load_json W tr path = None) ->
     cfgs = exchange_configs).
Proof.
  intros exchange_configs H.
  pose proof H as Hloop. unfold _setup_exchanges in Hloop.
  destruct (_setup_exchanges_loop_keys _ _ _ _ _ _ Hloop) as [Hn Hk].
  assert (Hnd : NoDup (map fst d)) by (apply Hn; constructor).
  assert (Hkeys : forall k, In k (map fst d) ->
                  k <> "" /\ In k (map cfg_name exchange_configs) /\
                  In (py_lower k) ["bybit"; "okx"; "binance"]).
  { intros k Hin. destruct (Hk k Hin) as [[] | Hr]. exact Hr. }
  split; [exact Hnd|]. split; [exact Hkeys|]. split.
  - rewrite <- (length_map fst d), <- (length_map cfg_name exchange_configs).
    apply NoDup_incl_length; [exact Hnd|].
    intros k Hin. exact (proj1 (proj2 (Hkeys k Hin))).
  - destruct (_setup_exchanges_frame W s)
      as (r & evs & cfgs & E & Hevs & Hcfgs & Hnone).
    fold exchange_configs in E. rewrite H in E. injection E as _ ->.
    exists evs, cfgs. split; [reflexivity|].
    split; [exact Hevs|]. split; [exact Hcfgs | exact Hnone].
Qed.

(** ** More on the performance accumulators and the promotion check *)

Lemma py_max_ge_right (a b : Q) : (b <= py_max a b)%Q.
Proof.
  unfold py_max. destruct (Qgtb b a) eqn:E.
  - apply Qle_refl.
  - apply Qgtb_false in E. exact E.
Qed.

Lemma new_peak_bounds (equity peak : Q) :
  (peak <= new_peak equity peak)%Q /\ (equity <= new_peak equity peak)%Q.
Proof.
  unfold new_peak. destruct (Qgtb equity peak) eqn:E.
  - apply Qgtb_true in E. split; [apply Qlt_le_weak; exact E | apply Qle_refl].
  - apply Qgtb_false in E. split; [apply Qle_refl | exact E].
Qed.

Lemma drawdown_term_bounds (equity peak : Q) :
  (0 < peak)%Q -> (equity <= peak)%Q ->
  (0 <= (peak - equity) / peak * 100)%Q /\
  ((0 <= equity)%Q -> ((peak - equity) / peak * 100 <= 100)%Q).
Proof.
  intros Hpos Hle. split.
  - apply Qmult_le_0_compat; [|discriminate].
    apply Qle_shift_div_l; [exact Hpos|].
    rewrite Qmult_0_l. unfold Qminus. rewrite <- Qle_minus_iff. exact Hle.
  - intro Heq.
    setoid_replace 100%Q with (1 * 100)%Q at 2 by reflexivity.
    apply Qmult_le_compat_r; [|discriminate].
    apply Qle_shift_div_r; [exact Hpos|].
    rewrite Qmult_1_l.
    setoid_replace peak with (peak - 0)%Q at 2 by ring.
    unfold Qminus. apply Qplus_le_r. apply Qopp_le_compat. exact Heq.
Qed.

(** X15.  After every [update_performance_metrics] of the router the peak
    equity is at least the previous peak and at least the current equity,
    and the drawdown is not negative if it was not before.  If moreover the
    equity is not negative and the drawdown was at most 100 percent, it
    still is. *)
Theorem performance_accumulators_stay_in_range (s : State) :
  exists s',
    update_performance_metrics W s = (Returned tt, s') /\
    (peak_equity (router s) <= peak_equity (router s'))%Q /\
    (current_equity (router s') <= peak_equity (router s'))%Q /\
    ((0 <= max_drawdown_pct (router s))%Q ->
     (0 <= max_drawdown_pct (router s'))%Q) /\
    ((0 <= current_equity (router s'))%Q ->
     (max_drawdown_pct (router s) <= 100)%Q ->
     (max_drawdown_pct (router s') <= 100)%Q).
Proof.
  destruct (update_performance_metrics_step W s)
    as (s' & E & Hpeak & Hdd & _).
  exists s'. split; [exact E|].
  destruct (new_peak_bounds (current_equity (router s'))
              (peak_equity (router s))) as [Hp1 Hp2].
  rewrite <- Hpeak in Hp1, Hp2.
  split; [exact Hp1|]. split; [exact Hp2|].
  rewrite Hdd. unfold new_drawdown.
  destruct (Qgtb (peak_equity (router s')) 0) eqn:Epos.
  - apply Qgtb_true in Epos.
    destruct (drawdown_term_bounds _ _ Epos Hp2) as [H0 H100].
    split.
    + intros _. eapply Qle_trans; [exact H0 | apply py_max_ge_right].
    + intros Heq Hdd100. unfold py_max.
      destruct (Qgtb _ _); [exact (H100 Heq) | exact Hdd100].
  - split; [tauto | intros _ H; exact H].
Qed.

Lemma poll_equity_frame (names : list string) :
  forall h tr (s : State),
  exists evs oq,
    poll_equity W names (with_log h tr s) =
      (Returned tt,
       match oq with
       | Some q => set_current_equity q (with_log h (tr ++ evs) s)
       | None => with_log h (tr ++ evs) s
       end) /\
    no_order_call evs = true.
Proof.
  induction names as [|name rest IH]; intros h tr s; simpl.
  - exists [], None. rewrite app_nil_r. split; reflexivity.
  - unfold try_catch, bind at 1, gets at 1.
    change (exchanges (router (with_log h tr s))) with (exchanges (router s)).
    destruct (dict_get name (exchanges (router s))) as [ex|].
    2:{ apply IH. }
    step.
    destruct (conn_get_account_info W tr ex) as [e|info].
    { destruct (IH h (tr ++ [EvGetAccountInfo ex]) s) as (evs & oq & -> & H).
      exists (EvGetAccountInfo ex :: evs), oq. rewrite <- app_assoc.
      split; [reflexivity | exact H]. }
    unfold float_equity.
    destruct (ai_equity info) as [[q|]|]; step.
    + exists [EvGetAccountInfo ex], (Some q). split; reflexivity.
    + destruct (IH h (tr ++ [EvGetAccountInfo ex]) s) as (evs & oq & -> & H).
      exists (EvGetAccountInfo ex :: evs), oq. rewrite <- app_assoc.
      split; [reflexivity | exact H].
    + exists [EvGetAccountInfo ex], (Some 0%Q). split; reflexivity.
Qed.

(** What [update_performance_metrics] leaves alone. *)
Lemma update_performance_metrics_frame (s : State) :
  exists s' evs,
    update_performance_metrics W s = (Returned tt, s') /\
    sys_trace s' = sys_trace s ++ evs /\
    no_order_call evs = true /\
    EnvManager.settings (EnvManager.mgr (env_manager s'))
      = EnvManager.settings (EnvManager.mgr (env_manager s)) /\
    ENV_SWITCH_TOTAL (EnvManager.ext (env_manager s'))
      = ENV_SWITCH_TOTAL (EnvManager.ext (env_manager s)) /\
    EnvManager.trade_count (EnvManager.mgr (env_manager s'))
      = total_trades (router s) /\
    active_positions (router s') = active_positions (router s) /\
    order_history (router s') = order_history (router s).
Proof.
  unfold update_performance_metrics, try_catch, bind at 1, gets at 1.
  unfold bind at 1.
  destruct (poll_equity_frame (map fst (exchanges (router s)))
              (order_history (router s)) (sys_trace s) s)
    as (evs & oq & E & Hevs).
  rewrite with_log_id in E. rewrite E.
  destruct oq as [q|]; eexists; exists evs; (split; [reflexivity|]);
    repeat split; exact Hevs.
Qed.

Lemma should_switch_to_mainnet_needs (st : EnvManager.State) :
  EnvManager.should_switch_to_mainnet W st = true ->
  EnvManager.get_environment st = TESTNET /\
  EnvManager.auto_switch_enabled (EnvManager.settings (EnvManager.mgr st))
    = true /\
  EnvManager.min_trades_for_switch (EnvManager.settings (EnvManager.mgr st))
    <= EnvManager.trade_count (EnvManager.mgr st).
Proof.
  unfold EnvManager.should_switch_to_mainnet, EnvManager.get_environment.
  destruct (EnvManager.environment _); simpl; [|discriminate].
  destruct (EnvManager.auto_switch_enabled _); simpl; [|discriminate].
  destruct (_ <? EnvManager.timedelta_hours _); [discriminate|].
  destruct (EnvManager.trade_count _ <? _) eqn:E; [discriminate|].
  apply Z.ltb_ge in E. intros _. repeat split. exact E.
Qed.

Lemma handle_env_change_switches (target : Environment) (s : State) :
  EnvManager.get_environment (env_manager s) <> target ->
  exists r s',
    handle_env_change W (Some target) s = (r, s') /\
    EnvManager.get_environment (env_manager s') = target /\
    ENV_SWITCH_TOTAL (EnvManager.ext (env_manager s'))
      = ENV_SWITCH_TOTAL (EnvManager.ext (env_manager s)) + 1.
Proof.
  intro Hneq.
  assert (Heqb : Environment_eqb
                   (EnvManager.get_environment (env_manager s)) target
                 = false).
  { destruct (EnvManager.get_environment (env_manager s)), target;
      try reflexivity; exfalso; apply Hneq; reflexivity. }
  destruct (close_all_positions_total W s)
    as (closed & h1 & evs_close & d1 & Eclose & _).
  set (s1 := with_book (order_history (router s) ++ h1)
               (sys_trace s ++ evs_close) d1 s) in *.
  destruct (lift_em (EnvManager.switch_environment W (Some target)) s1)
    as [rs s2] eqn:Eswitch.
  assert (Hswitch : rs = Returned true /\
    EnvManager.get_environment (env_manager s2) = target /\
    ENV_SWITCH_TOTAL (EnvManager.ext (env_manager s2))
      = ENV_SWITCH_TOTAL (EnvManager.ext (env_manager s)) + 1).
  { unfold lift_em, EnvManager.switch_environment in Eswitch.
    change (EnvManager.get_environment (env_manager s1))
      with (EnvManager.get_environment (env_manager s)) in Eswitch.
    rewrite Heqb in Eswitch.
    unfold bind, ret, EnvManager.set_environment, EnvManager._save_config
      in Eswitch.
    simpl in Eswitch. injection Eswitch as <- <-. repeat split. }
  destruct Hswitch as (-> & Henv2 & Hcount2).
  destruct (_setup_exchanges_frame W s2)
    as (r & evs_setup & cfgs & Esetup & _).
  unfold handle_env_change. unfold bind at 1, gets at 1.
  unfold bind at 1, ret at 1. rewrite Heqb.
  unfold bind at 1. rewrite Eclose.
  unfold bind at 1. rewrite Eswitch.
  unfold bind at 1, gets at 1.
  unfold bind at 1. rewrite Esetup.
  destruct r as [e|exchanges].
  - eexists _, _. split; [reflexivity|]. split; assumption.
  - eexists _, _. split; [reflexivity|]. split; assumption.
Qed.

(** X16.  The periodic promotion check is one-way.  In MAINNET it only
    refreshes the metrics: the environment, the switch counter, the
    position book and the order history are unchanged.  In general, if the
    environment is different after the check, then it went from TESTNET to
    MAINNET, with auto-switch enabled and the router's trade counter at
    least [min_trades_for_switch], and exactly one switch was counted. *)
Theorem promotion_check_is_one_way (s : State) :
  exists r s',
    Scheduler.check_environment_switch W s = (r, s') /\
    (EnvManager.get_environment (env_manager s) = MAINNET ->
     r = Returned tt /\
     EnvManager.get_environment (env_manager s') = MAINNET /\
     ENV_SWITCH_TOTAL (EnvManager.ext (env_manager s'))
       = ENV_SWITCH_TOTAL (EnvManager.ext (env_manager s)) /\
     active_positions (router s') = active_positions (router s) /\
     order_history (router s') = order_history (router s)) /\
    (EnvManager.get_environment (env_manager s')
       <> EnvManager.get_environment (env_manager s) ->
     EnvManager.get_environment (env_manager s) = TESTNET /\
     EnvManager.get_environment (env_manager s') = MAINNET /\
     EnvManager.auto_switch_enabled
       (EnvManager.settings (EnvManager.mgr (env_manager s))) = true /\
     EnvManager.min_trades_for_switch
       (EnvManager.settings (EnvManager.mgr (env_manager s)))
       <= total_trades (router s) /\
     ENV_SWITCH_TOTAL (EnvManager.ext (env_manager s'))
       = ENV_SWITCH_TOTAL (EnvManager.ext (env_manager s)) + 1).
Proof.
  destruct (update_performance_metrics_frame s)
    as (s1 & evs & E & _ & _ & Hset & Hcount & Htrades & Hbook & Hhist).
  assert (Henv1 : EnvManager.get_environment (env_manager s1)
                  = EnvManager.get_environment (env_manager s)).
  { unfold EnvManager.get_environment. rewrite Hset. reflexivity. }
  unfold Scheduler.check_environment_switch.
  unfold bind at 1. rewrite E. unfold bind at 1, gets at 1.
  destruct (EnvManager.should_switch_to_mainnet W (env_manager s1)) eqn:Esh.
  - destruct (should_switch_to_mainnet_needs _ Esh) as (Htest & Hauto & Hmin).
    assert (Hneq : EnvManager.get_environment (env_manager s1) <> MAINNET)
      by (rewrite Htest; discriminate).
    destruct (handle_env_change_switches MAINNET s1 Hneq)
      as (r & s' & Eh & Henv' & Hcount').
    unfold bind. rewrite Eh.
    exists (match r with Raised e => Raised e | Returned _ => Returned tt end),
      s'.
    split; [destruct r; reflexivity|].
    split.
    + intro Hmain. rewrite <- Henv1, Htest in Hmain. discriminate.
    + intros _. rewrite <- Henv1. split; [exact Htest|].
      split; [exact Henv'|].
      rewrite <- Hset, <- Htrades, <- Hcount.
      repeat split; assumption.
  - exists (Returned tt), s1. split; [reflexivity|]. split.
    + intro Hmain. rewrite Henv1. repeat split; assumption.
    + intro Hneq. exfalso. apply Hneq. exact Henv1.
Qed.

(** X17.  The promotion check counts trades through [total_trades], which
    only [get_new_trade_count] moves: as long as [total_trades] is below
    [min_trades_for_switch] the check never promotes, however many orders
    the order history holds.  It refreshes the metrics and leaves the
    environment, the switch counter, the position book and the order
    history as they were, without any order call. *)
Theorem promotion_needs_consumed_trades (s : State) :
  total_trades (router s)
    < EnvManager.min_trades_for_switch
        (EnvManager.settings (EnvManager.mgr (env_manager s))) ->
  exists s' evs,
    Scheduler.check_environment_switch W s = (Returned tt, s') /\
    sys_trace s' = sys_trace s ++ evs /\
    no_order_call evs = true /\
    EnvManager.get_environment (env_manager s')
      = EnvManager.get_environment (env_manager s) /\
    ENV_SWITCH_TOTAL (EnvManager.ext (env_manager s'))
      = ENV_SWITCH_TOTAL (EnvManager.ext (env_manager s)) /\
    active_positions (router s') = active_positions (router s) /\
    order_history (router s') = order_history (router s).
Proof.
  intro Hfew.
  destruct (update_performance_metrics_frame s)
    as (s1 & evs & E & Htr & Hevs & Hset & Hcount & Htrades & Hbook & Hhist).
  unfold Scheduler.check_environment_switch.
  unfold bind at 1. rewrite E. unfold bind at 1, gets at 1.
  destruct (EnvManager.should_switch_to_mainnet W (env_manager s1)) eqn:Esh.
  - destruct (should_switch_to_mainnet_needs _ Esh) as (_ & _ & Hmin).
    rewrite Hset, Htrades in Hmin. lia.
  - exists s1, evs. split; [reflexivity|].
    unfold EnvManager.get_environment. rewrite Hset.
    repeat split; assumption.
Qed.

End MoreRouterProperties.

(** ** More on the environment manager *)

Section MoreEnvManagerProperties.
Variable W : World.

Import EnvManager.

(** X18.  [switch_environment] with a target always ends in the target
    environment; it returns True exactly when the environment changed, and
    counts one switch exactly then.  The switch never resets the data of
    the promotion gate: [start_time], the trade count, the drawdown and the
    thresholds are the ones before the call. *)
Theorem switch_environment_reaches_the_target
    (target : Environment) (st : State) :
  exists b st',
    switch_environment W (Some target) st = (Returned b, st') /\
    get_environment st' = target /\
    (b = true <-> get_environment st <> target) /\
    ENV_SWITCH_TOTAL (ext st')
      = ENV_SWITCH_TOTAL (ext st) + (if b then 1 else 0) /\
    start_time (mgr st') = start_time (mgr st) /\
    trade_count (mgr st') = trade_count (mgr st) /\
    max_drawdown_pct (mgr st') = max_drawdown_pct (mgr st) /\
    auto_switch_enabled (settings (mgr st'))
      = auto_switch_enabled (settings (mgr st)) /\
    testnet_duration_hours (settings (mgr st'))
      = testnet_duration_hours (settings (mgr st)) /\
    min_trades_for_switch (settings (mgr st'))
      = min_trades_for_switch (settings (mgr st)) /\
    max_drawdown_pct_for_switch (settings (mgr st'))
      = max_drawdown_pct_for_switch (settings (mgr st)).
Proof.
  unfold switch_environment, get_environment.
  destruct (environment (settings (mgr st))) eqn:Eenv, target; simpl.
  - exists false, st. rewrite Eenv, Z.add_0_r.
    repeat split; try reflexivity; try discriminate.
    intro H. exfalso. apply H. reflexivity.
  - eexists true, _. unfold bind, ret, set_environment, _save_config. simpl.
    split; [reflexivity|]. simpl.
    repeat split; try reflexivity; try discriminate.
  - eexists true, _. unfold bind, ret, set_environment, _save_config. simpl.
    split; [reflexivity|]. simpl.
    repeat split; try reflexivity; try discriminate.
  - exists false, st. rewrite Eenv, Z.add_0_r.
    repeat split; try reflexivity; try discriminate.
    intro H. exfalso. apply H. reflexivity.
Qed.

(** X19.  [switch_environment()] without a target toggles and always
    returns True.  Toggling twice restores the environment and the
    settings and counts two switches.  As the gate's data are kept, a
    manager that met the promotion criteria meets them again after the
    round trip, provided the clock has not gone backwards. *)
Theorem toggling_twice_restores_the_environment (st : State) :
  exists st1 st2,
    switch_environment W None st = (Returned true, st1) /\
    get_environment st1 <> get_environment st /\
    switch_environment W None st1 = (Returned true, st2) /\
    settings (mgr st2) = settings (mgr st) /\
    ENV_SWITCH_TOTAL (ext st2) = ENV_SWITCH_TOTAL (ext st) + 2 /\
    (now W st <= now W st2 ->
     should_switch_to_mainnet W st = true ->
     should_switch_to_mainnet W st2 = true).
Proof.
  destruct st as [[[env auto hours trades dd path] start last count peak cur mdd]
                  [tr total gauge file]].
  unfold switch_environment, get_environment.
  destruct env; simpl;
    unfold bind, ret, set_environment, _save_config; simpl;
    (eexists _, _; split; [reflexivity|]; split; [discriminate|];
     split; [reflexivity|]; split; [reflexivity|];
     split; [simpl; lia|]).
  - unfold should_switch_to_mainnet, now. simpl.
    intros Hclock H.
    destruct (_ - start <? timedelta_hours hours) eqn:E1 in H;
      [destruct auto; discriminate|].
    apply Z.ltb_ge in E1.
    destruct (_ - start <? timedelta_hours hours) eqn:E2;
      [apply Z.ltb_lt in E2; lia | exact H].
  - unfold should_switch_to_mainnet. simpl. discriminate.
Qed.

Lemma list_ascii_of_string_app (a b : string) :
  list_ascii_of_string (a ++ b)%string
  = list_ascii_of_string a ++ list_ascii_of_string b.
Proof.
  induction a as [|c a IH]; simpl; [reflexivity|]. rewrite IH. reflexivity.
Qed.

Lemma string_app_inv_tail (a b t : string) :
  (a ++ t)%string = (b ++ t)%string -> a = b.
Proof.
  intro H. apply (f_equal list_ascii_of_string) in H.
  rewrite !list_ascii_of_string_app in H. apply app_inv_tail in H.
  rewrite <- (string_of_list_ascii_of_string a),
          <- (string_of_list_ascii_of_string b), H.
  reflexivity.
Qed.

(** X20.  [get_config_path] never gives the same file for two different
    environments or for two different exchange names: equal paths mean the
    same environment and the same name. *)
Theorem get_config_path_is_injective
    (name1 name2 : string) (st1 st2 : State) :
  get_config_path name1 st1 = get_config_path name2 st2 ->
  get_environment st1 = get_environment st2 /\ name1 = name2.
Proof.
  unfold get_config_path, get_environment.
  destruct (environment (settings (mgr st1))),
           (environment (settings (mgr st2)));
    simpl; intro H; inversion H as [H'];
    try (split; [reflexivity | exact (string_app_inv_tail _ _ _ H')]).
Qed.

End MoreEnvManagerProperties.

(** ** The ATR risk manager *)

Lemma Qltb_true (a b : Q) : Qltb a b = true <-> (a < b)%Q.
Proof. unfold Qltb. apply Qgtb_true. Qed.

Lemma Qltb_false (a b : Q) : Qltb a b = false <-> (b <= a)%Q.
Proof. unfold Qltb. apply Qgtb_false. Qed.

(** X21.  A trailing stop only tightens.  Whenever [update_trailing_stop]
    returns a new stop, for a long position it is above the current stop
    and not below the entry price; for a short position it is below the
    current stop and not above the entry price.  For any other side it
    returns None. *)
Theorem trailing_stop_only_tightens
    (self : ATRRisk.t) (entry_price current_price current_stop atr : Q)
    (side : string) (new_stop : Q) :
  ATRRisk.update_trailing_stop self entry_price current_price current_stop
    atr side = Returned (Some new_stop) ->
  (py_lower side = "long" /\
   (current_stop < new_stop)%Q /\ (entry_price <= new_stop)%Q) \/
  (py_lower side = "short" /\
   (new_stop < current_stop)%Q /\ (new_stop <= entry_price)%Q).
Proof.
  unfold ATRRisk.update_trailing_stop.
  destruct (String.eqb (py_lower side) "long") eqn:Elong.
  - apply String.eqb_eq in Elong. intro H. left. split; [exact Elong|].
    destruct (py_div _ atr) as [e|profit]; [discriminate|].
    destruct (Qltb profit _); [discriminate|].
    destruct (Qltb current_stop entry_price) eqn:Ebe.
    + injection H as <-. apply Qltb_true in Ebe.
      split; [exact Ebe | apply Qle_refl].
    + apply Qltb_false in Ebe.
      destruct (Qgtb _ current_stop) eqn:Eup; [|discriminate].
      injection H as <-. apply Qgtb_true in Eup.
      split; [exact Eup|].
      apply Qlt_le_weak. eapply Qle_lt_trans; [exact Ebe | exact Eup].
  - destruct (String.eqb (py_lower side) "short") eqn:Eshort;
      [|discriminate].
    apply String.eqb_eq in Eshort. intro H. right. split; [exact Eshort|].
    destruct (py_div _ atr) as [e|profit]; [discriminate|].
    destruct (Qltb profit _); [discriminate|].
    destruct (Qgtb current_stop entry_price) eqn:Ebe.
    + injection H as <-. apply Qgtb_true in Ebe.
      split; [exact Ebe | apply Qle_refl].
    + apply Qgtb_false in Ebe.
      destruct (Qltb _ current_stop) eqn:Edown; [|discriminate].
      injection H as <-. apply Qltb_true in Edown.
      split; [exact Edown|].
      apply Qlt_le_weak. eapply Qlt_le_trans; [exact Edown | exact Ebe].
Qed.

(** X22.  An ATR of zero is guarded in one place only.
    [calculate_position_size] returns 0.0 for every ATR that is zero or
    negative, but raises [ZeroDivisionError] for a positive ATR when the
    price or the ATR multiplier is zero; [update_trailing_stop] has no
    guard and raises [ZeroDivisionError] for a long or short position when
    the ATR is zero. *)
Theorem zero_atr_and_zero_price
    (self : ATRRisk.t) (equity atr price entry_price current_price
     current_stop : Q) (side : string) :
  ((atr <= 0)%Q ->
   ATRRisk.calculate_position_size self equity atr price = Returned 0%Q)
  /\ ((0 < atr)%Q ->
      (price == 0)%Q \/ (ATRRisk.atr_multiplier self == 0)%Q ->
      ATRRisk.calculate_position_size self equity atr price
        = Raised "ZeroDivisionError")
  /\ ((atr == 0)%Q ->
      py_lower side = "long" \/ py_lower side = "short" ->
      ATRRisk.update_trailing_stop self entry_price current_price
        current_stop atr side = Raised "ZeroDivisionError").
Proof.
  split; [|split].
  - intro H. unfold ATRRisk.calculate_position_size.
    apply Qle_bool_iff in H. rewrite H. reflexivity.
  - intros Hpos Hzero. unfold ATRRisk.calculate_position_size.
    destruct (Qle_bool atr 0) eqn:E.
    { apply Qle_bool_iff in E. exfalso. exact (Qlt_not_le _ _ Hpos E). }
    unfold py_div.
    destruct (Qeq_bool (atr * ATRRisk.atr_multiplier self) 0) eqn:Em;
      [reflexivity|].
    destruct Hzero as [Hp | Hm].
    + apply Qeq_bool_iff in Hp. rewrite Hp. reflexivity.
    + exfalso. apply Qeq_bool_neq in Em. apply Em. rewrite Hm. ring.
  - intros Hzero Hside. unfold ATRRisk.update_trailing_stop, py_div.
    apply Qeq_bool_iff in Hzero.
    destruct Hside as [-> | ->]; simpl; rewrite Hzero; reflexivity.
Qed.

(** X23.  [calculate_stop_loss] puts the stop on the losing side: with a
    non-negative ATR and multiplier the stop of a long position is at or
    below the entry price, and for every other side (every side that is not
    'long' in some letter case is treated as short) it is at or above. *)
Theorem stop_loss_is_on_the_losing_side
    (self : ATRRisk.t) (entry_price atr : Q) (side : string) :
  (0 <= atr)%Q -> (0 <= ATRRisk.atr_multiplier self)%Q ->
  (py_lower side = "long" ->
   (ATRRisk.calculate_stop_loss self entry_price atr side <= entry_price)%Q)
  /\ (py_lower side <> "long" ->
      (entry_price <= ATRRisk.calculate_stop_loss self entry_price atr side)%Q).
Proof.
  intros Hatr Hmult.
  assert (Hd : (0 <= atr * ATRRisk.atr_multiplier self)%Q)
    by (apply Qmult_le_0_compat; assumption).
  unfold ATRRisk.calculate_stop_loss. split; intro Hside.
  - rewrite Hside. simpl.
    setoid_replace entry_price with (entry_price - 0)%Q at 2 by ring.
    unfold Qminus. apply Qplus_le_r. apply Qopp_le_compat. exact Hd.
  - apply String.eqb_neq in Hside. rewrite Hside.
    setoid_replace entry_price with (entry_price + 0)%Q at 1 by ring.
    apply Qplus_le_r. exact Hd.
Qed.

(** ** Exchange base URLs *)

(** X24.  [get_exchange_url] returns a URL exactly for the exchanges bybit,
    okx and binance, in any letter case, and the URL types 'rest' and 'ws';
    otherwise it raises.  The URL of an exchange for TESTNET is never its
    URL for MAINNET. *)
Theorem exchange_urls_keep_environments_apart
    (exchange_name url_type : string) :
  (forall env,
     (exists url,
        ExchangeUrls.get_exchange_url exchange_name env url_type
          = Returned url) <->
     In (py_lower exchange_name) ["bybit"; "okx"; "binance"] /\
     In url_type ["rest"; "ws"])
  /\ (forall url_testnet url_mainnet,
        ExchangeUrls.get_exchange_url exchange_name TESTNET url_type
          = Returned url_testnet ->
        ExchangeUrls.get_exchange_url exchange_name MAINNET url_type
          = Returned url_mainnet ->
        url_testnet <> url_mainnet).
Proof.
  unfold ExchangeUrls.get_exchange_url, ExchangeUrls.EXCHANGE_URLS.
  cbn [dict_get].
  destruct (String.eqb_spec (py_lower exchange_name) "bybit") as [E1|E1];
    [|destruct (String.eqb_spec (py_lower exchange_name) "okx") as [E2|E2];
      [|destruct (String.eqb_spec (py_lower exchange_name) "binance")
          as [E3|E3]]].
  4:{ split.
      - intro env. split.
        + intros [url H]. discriminate.
        + intros [[H | [H | [H | []]]] _]; congruence.
      - intros u1 u2 H. discriminate. }
  all: split;
    [ intro env; destruct env; cbn [dict_get];
      (destruct (String.eqb_spec url_type "rest") as [T1|T1];
       [|destruct (String.eqb_spec url_type "ws") as [T2|T2]]);
      (split;
       [ intros [url H];
         first [ discriminate
               | split;
                 [ match goal with
                   | E : py_lower _ = _ |- _ => rewrite E
                   end; simpl; tauto
                 | subst url_type; simpl; tauto ] ]
       | intros [_ [H | [H | []]]]; try congruence; eexists; reflexivity ])
    | intros u1 u2; cbn [dict_get];
      (destruct (String.eqb url_type "rest");
       [|destruct (String.eqb url_type "ws")]);
      intros H1 H2; try discriminate;
      injection H1 as <-; injection H2 as <-; discriminate ].
Qed.

(** * The further statements on the concrete deployment *)


Lemma place_order_tries_each_exchange_at_most_once_witness :
  let W := Scenario.world ["bybit"; "okx"] [] (SigWait "no_signal") in
  let s := Scenario.state [] in
  NoDup (map fst (Router.exchanges (Router.router s))) /\
  exists resp rec cs,
    Router.place_order W Scenario.market_buy None s =
      (Returned resp,
       with_log [rec] (place_events Scenario.market_buy cs) s) /\
    (length cs <= 3)%nat /\ NoDup (map fst cs).
Proof.
  intros W s.
  assert (Hnd : NoDup (map fst (Router.exchanges (Router.router s)))).
  { repeat constructor; simpl; intuition discriminate. }
  split; [exact Hnd|].
  destruct (place_order_tries_each_exchange_at_most_once W
              Scenario.market_buy None s)
    as (resp & rec & cs & rest & E & _ & Hlen & Hcs).
  exists resp, rec, cs. split; [exact E|]. split; [exact Hlen|].
  exact (Hcs Hnd).
Defined.

Lemma update_and_cancel_on_unknown_exchange_witness :
  let W := Scenario.world [] [] (SigWait "no_signal") in
  let s := Scenario.state [] in
  let u := {| up_stop_price := 95 |} in
  Router.get_exchange
    (Some (Router.name_or_primary (Some "kraken") s)) s = None /\
  Router.update_order W "stop-1" u (Some "kraken") s =
    (Returned (error_response "Exchange 'kraken' not found"), s) /\
  Router.cancel_order W "stop-1" (Some "kraken") s =
    (Returned (error_response "Exchange 'kraken' not found"), s).
Proof.
  intros W s u.
  assert (H : Router.get_exchange
                (Some (Router.name_or_primary (Some "kraken") s)) s = None)
    by reflexivity.
  split; [exact H|].
  destruct (update_and_cancel_on_unknown_exchange W "stop-1" u
              Scenario.market_buy (Some "kraken") s H) as (Hu & Hc & _).
  split; [exact Hu | exact Hc].
Defined.

Lemma data_refresh_needs_strategy_and_primary_witness :
  let W := Scenario.world [] [] (SigWait "no_signal") in
  let s := Scenario.state_without_primary in
  Router.get_exchange None s = None /\
  Router.update_market_data W "BTCUSDT" "1h" 500 s = (Returned false, s) /\
  Router.update_account_equity W s = (Returned false, s).
Proof.
  intros W s.
  assert (H : Router.get_exchange None s = None) by reflexivity.
  split; [exact H|].
  exact (data_refresh_needs_strategy_and_primary W "BTCUSDT" "1h" 500 s
           (or_intror H)).
Defined.

Lemma update_market_data_fails_over_witness :
  let W := Scenario.world ["bybit"] [] (SigWait "no_signal") in
  let s := Scenario.state [] in
  let bybit := Scenario.connector "bybit" in
  let okx := Scenario.connector "okx" in
  let binance := Scenario.connector "binance" in
  Router.has_strategy (Router.router s) = true /\
  Router.get_exchange None s = Some bybit /\
  Router.others_of "bybit" s = [] ++ ("okx", okx) :: [("binance", binance)] /\
  all_klines_raise W "BTCUSDT" "1h" 500 [] [bybit] /\
  conn_get_klines W [EvGetKlines bybit "BTCUSDT" "1h" 500] okx
    "BTCUSDT" "1h" 500 = Returned [] /\
  Router.update_market_data W "BTCUSDT" "1h" 500 s =
    (Returned true,
     with_log []
       [EvGetKlines bybit "BTCUSDT" "1h" 500;
        EvGetKlines okx "BTCUSDT" "1h" 500; EvUpdateData []] s).
Proof.
  intros W s bybit okx binance.
  assert (H1 : Router.has_strategy (Router.router s) = true) by reflexivity.
  assert (H2 : Router.get_exchange None s = Some bybit) by reflexivity.
  assert (H3 : Router.others_of
                 (Router.primary_exchange (Router.router s)) s
               = [] ++ ("okx", okx) :: [("binance", binance)])
    by reflexivity.
  assert (H4 : all_klines_raise W "BTCUSDT" "1h" 500 (Router.sys_trace s)
                 (bybit :: map snd (@nil (string * Connector)))).
  { split; [eexists; reflexivity | exact I]. }
  assert (H5 : conn_get_klines W
                 (Router.sys_trace s
                  ++ klines_events "BTCUSDT" "1h" 500 (bybit :: map snd (@nil (string * Connector))))
                 okx "BTCUSDT" "1h" 500 = Returned []) by reflexivity.
  split; [exact H1|]. split; [exact H2|]. split; [exact H3|].
  split; [exact H4|]. split; [exact H5|].
  exact (update_market_data_fails_over W "BTCUSDT" "1h" 500 s bybit []
           "okx" okx [("binance", binance)] [] H1 H2 H3 H4 H5 eq_refl).
Defined.

Lemma update_account_equity_defaults_to_zero_witness :
  let W := Scenario.world_without_equity in
  let s := Scenario.state [] in
  let bybit := Scenario.connector "bybit" in
  Router.has_strategy (Router.router s) = true /\
  Router.get_exchange None s = Some bybit /\
  conn_get_account_balance W (Router.sys_trace s) bybit = Returned None /\
  strat_update_equity W (Router.sys_trace s ++ [EvGetAccountBalance bybit]) 0
    = Returned tt /\
  Router.update_account_equity W s =
    (Returned true,
     with_log [] [EvGetAccountBalance bybit; EvUpdateEquity 0] s).
Proof.
  intros W s bybit.
  assert (H1 : Router.has_strategy (Router.router s) = true) by reflexivity.
  assert (H2 : Router.get_exchange None s = Some bybit) by reflexivity.
  assert (H3 : conn_get_account_balance W (Router.sys_trace s) bybit
               = Returned None) by reflexivity.
  assert (H4 : strat_update_equity W
                 (Router.sys_trace s ++ [EvGetAccountBalance bybit]) 0
               = Returned tt) by reflexivity.
  repeat (split; [assumption|]).
  exact (update_account_equity_defaults_to_zero W s bybit H1 H2 H3 H4).
Defined.

Lemma execute_strategy_stops_before_orders_witness :
  (let W := Scenario.world ["bybit"; "okx"; "binance"] []
              (SigWait "no_signal") in
   let s := Scenario.state [] in
   let s1 := snd (Router.update_market_data W "BTCUSDT" "1h" 500 s) in
   Router.has_strategy (Router.router s) = true /\
   Router.update_market_data W "BTCUSDT" "1h" 500 s = (Returned false, s1) /\
   Router.execute_strategy W "BTCUSDT" "1h" s =
     (Returned (ExecError "Failed to update market data"), s1))
  /\
  (let W := Scenario.world_with_failing_strategy in
   let s := Scenario.state [] in
   let s1 := snd (Router.update_market_data W "BTCUSDT" "1h" 500 s) in
   let r2 := fst (Router.update_account_equity W s1) in
   let s2 := snd (Router.update_account_equity W s1) in
   Router.has_strategy (Router.router s) = true /\
   Router.update_market_data W "BTCUSDT" "1h" 500 s = (Returned true, s1) /\
   Router.update_account_equity W s1 = (r2, s2) /\
   strat_generate_signal W (Router.sys_trace s2) = Raised "strategy failed" /\
   Router.execute_strategy W "BTCUSDT" "1h" s =
     (Raised "strategy failed", Router.log EvGenerateSignal s2)).
Proof.
  split.
  - intros W s s1.
    assert (H1 : Router.has_strategy (Router.router s) = true) by reflexivity.
    assert (H2 : Router.update_market_data W "BTCUSDT" "1h" 500 s
                 = (Returned false, s1)) by reflexivity.
    split; [exact H1|]. split; [exact H2|].
    exact (proj1 (proj1 (proj2 (execute_strategy_stops_before_orders W
                                  "BTCUSDT" "1h" s)) s1 H1 H2)).
  - intros W s s1 r2 s2.
    assert (H1 : Router.has_strategy (Router.router s) = true) by reflexivity.
    assert (H2 : Router.update_market_data W "BTCUSDT" "1h" 500 s
                 = (Returned true, s1)) by reflexivity.
    assert (H3 : Router.update_account_equity W s1 = (r2, s2))
      by reflexivity.
    assert (H4 : strat_generate_signal W (Router.sys_trace s2)
                 = Raised "strategy failed") by reflexivity.
    repeat (split; [assumption|]).
    exact (proj1 (proj2 (proj2 (execute_strategy_stops_before_orders W
                                  "BTCUSDT" "1h" s)) s1 r2 s2 _
                    H1 H2 H3 H4)).
Defined.

Lemma wait_and_hold_signals_pass_through_witness :
  let W := Scenario.world [] [] (SigHold "no_exit_signal") in
  let s := Scenario.state [] in
  let s1 := snd (Router.update_market_data W "BTCUSDT" "1h" 500 s) in
  let r2 := fst (Router.update_account_equity W s1) in
  let s2 := snd (Router.update_account_equity W s1) in
  Router.has_strategy (Router.router s) = true /\
  Router.update_market_data W "BTCUSDT" "1h" 500 s = (Returned true, s1) /\
  Router.update_account_equity W s1 = (r2, s2) /\
  strat_generate_signal W (Router.sys_trace s2)
    = Returned (SigHold "no_exit_signal") /\
  exists evs,
    Router.execute_strategy W "BTCUSDT" "1h" s =
      (Returned (ExecNoAction "hold" "no_exit_signal"), with_log [] evs s) /\
    no_order_call evs = true.
Proof.
  intros W s s1 r2 s2.
  assert (H1 : Router.has_strategy (Router.router s) = true) by reflexivity.
  assert (H2 : Router.update_market_data W "BTCUSDT" "1h" 500 s
               = (Returned true, s1)) by reflexivity.
  assert (H3 : Router.update_account_equity W s1 = (r2, s2)) by reflexivity.
  assert (H4 : strat_generate_signal W (Router.sys_trace s2)
               = Returned (SigHold "no_exit_signal")) by reflexivity.
  repeat (split; [assumption|]).
  destruct (wait_and_hold_signals_pass_through W "BTCUSDT" "1h" s s1 s2 r2
              _ "no_exit_signal" H1 H2 H3 H4 (or_intror eq_refl))
    as (evs & E & _ & Hevs).
  exists evs. split; [exact E | exact Hevs].
Defined.

Lemma close_signal_closes_the_position_witness :
  let W := Scenario.world [] [] (SigClose "long" "trend_reversal") in
  let s := Scenario.state [("BTCUSDT", Scenario.protected_long)] in
  let s1 := snd (Router.update_market_data W "BTCUSDT" "1h" 500 s) in
  let r2 := fst (Router.update_account_equity W s1) in
  let s2 := snd (Router.update_account_equity W s1) in
  Router.has_strategy (Router.router s) = true /\
  Router.update_market_data W "BTCUSDT" "1h" 500 s = (Returned true, s1) /\
  Router.update_account_equity W s1 = (r2, s2) /\
  strat_generate_signal W (Router.sys_trace s2)
    = Returned (SigClose "long" "trend_reversal") /\
  dict_get "BTCUSDT" (Router.active_positions (Router.router s))
    = Some Scenario.protected_long /\
  exists exit s',
    Router.execute_strategy W "BTCUSDT" "1h" s =
      (Returned (ExecClose "long" 1 exit), s') /\
    dict_get "BTCUSDT" (Router.active_positions (Router.router s')) = None.
Proof.
  intros W s s1 r2 s2.
  assert (H1 : Router.has_strategy (Router.router s) = true) by reflexivity.
  assert (H2 : Router.update_market_data W "BTCUSDT" "1h" 500 s
               = (Returned true, s1)) by reflexivity.
  assert (H3 : Router.update_account_equity W s1 = (r2, s2)) by reflexivity.
  assert (H4 : strat_generate_signal W (Router.sys_trace s2)
               = Returned (SigClose "long" "trend_reversal"))
    by reflexivity.
  assert (H5 : dict_get "BTCUSDT" (Router.active_positions (Router.router s))
               = Some Scenario.protected_long) by reflexivity.
  repeat (split; [assumption|]).
  destruct (close_signal_closes_the_position W "BTCUSDT" "1h" s s1 s2 r2
              "long" "trend_reversal" _ H1 H2 H3 H4 H5)
    as (_ & _ & exit & rec & cs & Eexit & _ & Hok).
  assert (He : Returned (Scenario.accepted (Scenario.connector "bybit")
                           "market") = Returned exit).
  { change (Returned (Scenario.accepted (Scenario.connector "bybit")
                        "market"))
      with (fst (Router.place_order W
                   (Router.exit_params "BTCUSDT" Scenario.protected_long)
                   None (Router.log EvGenerateSignal s2))).
    rewrite Eexit. reflexivity. }
  injection He as <-.
  destruct (Hok eq_refl) as (recs & evs & book & E & Hgone & _).
  eexists _, _. split; [exact E | exact Hgone].
Defined.


Lemma close_all_positions_drains_the_book_witness :
  let W := Scenario.world [] [] (SigWait "no_signal") in
  let s := Scenario.state [("BTCUSDT", Scenario.protected_long)] in
  fst (Router.close_all_positions W s) = Returned true /\
  Router.active_positions (Router.router (snd (Router.close_all_positions W s)))
    = [].
Proof.
  intros W s.
  destruct (close_all_positions_drains_the_book W s)
    as (b & recs & evs & book & E & _ & _ & _ & Hempty).
  assert (Hb : fst (Router.close_all_positions W s) = Returned true)
    by reflexivity.
  split; [exact Hb|].
  rewrite E in Hb |- *. simpl in Hb. injection Hb as ->.
  exact (Hempty eq_refl).
Defined.

Lemma _setup_exchanges_builds_a_dictionary_witness :
  let W := Scenario.with_env_files
             [("config/testnet/okx.json", [("passphrase", "test_phrase")])]
             (Scenario.world [] [] (SigWait "no_signal")) in
  let s := Scenario.state [] in
  let cfgs := Router.config_exchanges (Router.router s) in
  let d := [("bybit", Scenario.connector "bybit");
            ("okx", Scenario.connector "okx");
            ("binance", Scenario.connector "binance")] in
  let s' := snd (Router._setup_exchanges W cfgs s) in
  Router._setup_exchanges W cfgs s = (Returned d, s') /\
  NoDup (map fst d) /\ (length d <= length cfgs)%nat /\
  Router.config_exchanges (Router.router s') =
    [Scenario.exchange_config "bybit";
     Scenario.exchange_config "okx" ++ [("passphrase", "test_phrase")];
     Scenario.exchange_config "binance"].
Proof.
  intros W s cfgs d s'.
  assert (H : Router._setup_exchanges W cfgs s = (Returned d, s'))
    by reflexivity.
  split; [exact H|].
  destruct (_setup_exchanges_builds_a_dictionary W s d s' H)
    as (Hnd & _ & Hlen & evs & cfgs' & Es' & _).
  split; [exact Hnd|]. split; [exact Hlen|]. reflexivity.
Defined.

Lemma performance_accumulators_stay_in_range_witness :
  let W := Scenario.world [] [1000; 1200; 900; 1100]%Q (SigWait "no_signal") in
  let s := Scenario.state [] in
  (0 <= Router.max_drawdown_pct (Router.router s))%Q /\
  exists s',
    Router.update_performance_metrics W s = (Returned tt, s') /\
    (Router.current_equity (Router.router s')
     <= Router.peak_equity (Router.router s'))%Q /\
    (0 <= Router.max_drawdown_pct (Router.router s'))%Q.
Proof.
  intros W s.
  assert (H : (0 <= Router.max_drawdown_pct (Router.router s))%Q)
    by (vm_compute; discriminate).
  split; [exact H|].
  destruct (performance_accumulators_stay_in_range W s)
    as (s' & E & _ & Hpeak & Hdd & _).
  exists s'. split; [exact E|]. split; [exact Hpeak | exact (Hdd H)].
Defined.

Lemma promotion_check_is_one_way_witness :
  let W := Scenario.world [] [] (SigWait "no_signal") in
  let s := snd (Router.handle_env_change W (Some MAINNET) (Scenario.state []))
  in
  EnvManager.get_environment (Router.env_manager s) = MAINNET /\
  exists s',
    Scheduler.check_environment_switch W s = (Returned tt, s') /\
    EnvManager.get_environment (Router.env_manager s') = MAINNET.
Proof.
  intros W s.
  assert (H : EnvManager.get_environment (Router.env_manager s) = MAINNET)
    by reflexivity.
  split; [exact H|].
  destruct (promotion_check_is_one_way W s) as (r & s' & E & Hmain & _).
  destruct (Hmain H) as (-> & Henv & _).
  exists s'. split; [exact E | exact Henv].
Defined.

Lemma promotion_needs_consumed_trades_witness :
  let W := Scenario.world [] [] (SigWait "no_signal") in
  let s := snd (Router.place_order W Scenario.market_buy None
                  (Scenario.state [])) in
  Router.total_trades (Router.router s)
    < EnvManager.min_trades_for_switch
        (EnvManager.settings (EnvManager.mgr (Router.env_manager s))) /\
  length (Router.order_history (Router.router s)) = 1%nat /\
  exists s',
    Scheduler.check_environment_switch W s = (Returned tt, s') /\
    EnvManager.get_environment (Router.env_manager s') = TESTNET.
Proof.
  intros W s.
  assert (H : Router.total_trades (Router.router s)
              < EnvManager.min_trades_for_switch
                  (EnvManager.settings
                     (EnvManager.mgr (Router.env_manager s))))
    by reflexivity.
  split; [exact H|]. split; [reflexivity|].
  destruct (promotion_needs_consumed_trades W s H)
    as (s' & evs & E & _ & _ & Henv & _).
  exists s'. split; [exact E | exact Henv].
Defined.

Lemma toggling_twice_restores_the_environment_witness :
  let W := Scenario.world [] [] (SigWait "no_signal") in
  let st := Scenario.manager 20 2 in
  let st2 :=
    snd (EnvManager.switch_environment W None
           (snd (EnvManager.switch_environment W None st))) in
  EnvManager.now W st <= EnvManager.now W st2 /\
  EnvManager.should_switch_to_mainnet W st = true /\
  EnvManager.should_switch_to_mainnet W st2 = true.
Proof.
  intros W st st2.
  assert (H1 : EnvManager.now W st <= EnvManager.now W st2)
    by (vm_compute; discriminate).
  assert (H2 : EnvManager.should_switch_to_mainnet W st = true)
    by reflexivity.
  split; [exact H1|]. split; [exact H2|].
  destruct (toggling_twice_restores_the_environment W st)
    as (st1 & st2' & E1 & _ & E2 & _ & _ & Hgate).
  assert (Hst2 : st2 = st2').
  { unfold st2. rewrite E1. simpl. rewrite E2. reflexivity. }
  rewrite Hst2 in H1 |- *. exact (Hgate H1 H2).
Defined.

Lemma get_config_path_is_injective_witness :
  let st := Scenario.manager 0 0 in
  EnvManager.get_config_path "bybit" st = "config/testnet/bybit.json" /\
  EnvManager.get_config_path "bybit" st = EnvManager.get_config_path "bybit" st
  /\ EnvManager.get_environment st = EnvManager.get_environment st.
Proof.
  intro st.
  assert (H : EnvManager.get_config_path "bybit" st
              = EnvManager.get_config_path "bybit" st) by reflexivity.
  split; [reflexivity|]. split; [exact H|].
  exact (proj1 (get_config_path_is_injective "bybit" "bybit" st st H)).
Defined.

Lemma trailing_stop_only_tightens_witness :
  ATRRisk.update_trailing_stop Scenario.risk_manager 100 110 95 5 "LONG"
    = Returned (Some 100%Q) /\
  (95 < 100)%Q /\ (100 <= 100)%Q.
Proof.
  assert (H : ATRRisk.update_trailing_stop Scenario.risk_manager
                100 110 95 5 "LONG" = Returned (Some 100%Q))
    by reflexivity.
  split; [exact H|].
  destruct (trailing_stop_only_tightens Scenario.risk_manager
              100 110 95 5 "LONG" 100 H) as [(_ & H1 & H2) | (Hs & _)].
  - split; [exact H1 | exact H2].
  - vm_compute in Hs. discriminate.
Defined.

Lemma zero_atr_and_zero_price_witness :
  ATRRisk.calculate_position_size Scenario.risk_manager 10000 0 100
    = Returned 0%Q /\
  ATRRisk.calculate_position_size Scenario.risk_manager 10000 5 0
    = Raised "ZeroDivisionError" /\
  ATRRisk.update_trailing_stop Scenario.risk_manager 100 110 95 0 "long"
    = Raised "ZeroDivisionError".
Proof.
  pose proof (zero_atr_and_zero_price Scenario.risk_manager
                10000 0 100 100 110 95 "long") as (Ha & _ & Hc).
  pose proof (zero_atr_and_zero_price Scenario.risk_manager
                10000 5 0 100 110 95 "long") as (_ & Hb & _).
  split; [apply Ha; vm_compute; discriminate|].
  split.
  - apply Hb; [reflexivity | left; reflexivity].
  - apply Hc; [reflexivity | left; reflexivity].
Defined.

Lemma stop_loss_is_on_the_losing_side_witness :
  (0 <= 5)%Q /\
  (0 <= ATRRisk.atr_multiplier Scenario.risk_manager)%Q /\
  py_lower "Long" = "long" /\
  (ATRRisk.calculate_stop_loss Scenario.risk_manager 100 5 "Long" <= 100)%Q.
Proof.
  assert (H1 : (0 <= 5)%Q) by (vm_compute; discriminate).
  assert (H2 : (0 <= ATRRisk.atr_multiplier Scenario.risk_manager)%Q)
    by (vm_compute; discriminate).
  assert (H3 : py_lower "Long" = "long") by reflexivity.
  repeat (split; [assumption|]).
  exact (proj1 (stop_loss_is_on_the_losing_side Scenario.risk_manager
                  100 5 "Long" H1 H2) H3).
Defined.

Lemma exchange_urls_keep_environments_apart_witness :
  ExchangeUrls.get_exchange_url "ByBit" TESTNET "rest"
    = Returned "https://api-testnet.bybit.com" /\
  ExchangeUrls.get_exchange_url "ByBit" MAINNET "rest"
    = Returned "https://api.bybit.com" /\
  "https://api-testnet.bybit.com" <> "https://api.bybit.com".
Proof.
  assert (H1 : ExchangeUrls.get_exchange_url "ByBit" TESTNET "rest"
               = Returned "https://api-testnet.bybit.com") by reflexivity.
  assert (H2 : ExchangeUrls.get_exchange_url "ByBit" MAINNET "rest"
               = Returned "https://api.bybit.com") by reflexivity.
  split; [exact H1|]. split; [exact H2|].
  exact (proj2 (exchange_urls_keep_environments_apart "ByBit" "rest")
           _ _ H1 H2).
Defined.
